(** * AMDEC spreadsheet conversion layer: validators, importer, exporter

  Shallow embedding of [amdec/utils/validators.py], [amdec/models.py]
  (the derived criticality of [FailureMode]) and
  [amdec/utils/excel_handler.py] ([ExcelImporter], [ExcelExporter]),
  followed by the properties of the specification that concern them.

  Conventions of the embedding.
  - Python [str] is a [string] holding the UTF-8 bytes of the text.
    Substring tests, [replace], [split] and [join] on UTF-8 bytes agree
    with the same operations on code points.  Whitespace and digits are
    the ASCII ones; case mapping covers ASCII and the Latin-1 letters
    (all that the French labels of the program need); other code points
    keep their bytes.  This is Python's behaviour on plain text (the
    Latin-1 range without its two blanks beyond ASCII, see [plain_text]);
    properties of arbitrary cell text that depend on white space, digits
    or case are stated for plain text.
  - Python [float] is a binary64 value, [spec_float] with precision 53
    and [emax] 1024; conversions from text round to nearest even.
  - A raised exception is the [Raise] result; [self.errors] and
    [self.warnings] of the importer are threaded explicitly.
  - The f-string messages are kept in structured form: one constructor
    of [message] per message template, with the interpolated values as
    its arguments.
  - A worksheet is read through [iter_rows(values_only=True)] only, so it
    is the list of its rows.  What a workbook file gives back of a sheet
    that was written and saved is stated by [loads_as].
  - [date.today()] and [datetime.now()] are arguments [today] and [now]
    of the functions that read the clock. *)

From Stdlib Require Import ZArith List String Ascii Bool Lia Permutation.
From Stdlib Require Import SpecFloat DecimalString DecimalZ.
Import ListNotations.
Local Open Scope string_scope.
Local Open Scope Z_scope.

(** ** Python builtins used by the program *)

Module Py.

(** *** Characters and strings *)

Definition code (c : ascii) : Z := Z.of_N (N_of_ascii c).
Definition chr (n : Z) : ascii := ascii_of_N (Z.to_N n).

Definition in_range (lo hi : Z) (c : ascii) : bool :=
  (lo <=? code c) && (code c <=? hi).

Definition is_digit : ascii -> bool := in_range 48 57.
Definition digit_val (c : ascii) : Z := code c - 48.

(** [str.isspace] on the ASCII range: TAB..CR, FS..US and the space. *)
Definition isspace (c : ascii) : bool := in_range 9 13 c || in_range 28 32 c.

(** C [isspace], which [float()] uses to trim an ASCII string. *)
Definition c_isspace (c : ascii) : bool := in_range 9 13 c || (code c =? 32).

Fixpoint lstrip_by (sp : ascii -> bool) (s : string) : string :=
  match s with
  | String c s' => if sp c then lstrip_by sp s' else s
  | EmptyString => EmptyString
  end.

Fixpoint rstrip_by (sp : ascii -> bool) (s : string) : string :=
  match s with
  | EmptyString => EmptyString
  | String c s' =>
      match rstrip_by sp s' with
      | EmptyString => if sp c then EmptyString else String c EmptyString
      | r => String c r
      end
  end.

(** [s.strip()] *)
Definition strip (s : string) : string := rstrip_by isspace (lstrip_by isspace s).

(** [needle in hay] *)
Fixpoint contains (needle hay : string) : bool :=
  prefix needle hay ||
  match hay with
  | EmptyString => false
  | String _ h => contains needle h
  end.

(** [s.lower()]: ASCII letters, and U+00C0..U+00DE (bytes C3 80..C3 9E)
    except the multiplication sign U+00D7. *)
Fixpoint lower (s : string) : string :=
  match s with
  | EmptyString => EmptyString
  | String c s' =>
      if in_range 65 90 c then String (chr (code c + 32)) (lower s')
      else if code c =? 195 then
        match s' with
        | String d s'' =>
            if in_range 128 158 d && negb (code d =? 151)
            then String c (String (chr (code d + 32)) (lower s''))
            else String c (String d (lower s''))
        | EmptyString => String c EmptyString
        end
      else String c (lower s')
  end.

(** [s.upper()]: ASCII letters, U+00E0..U+00FE (bytes C3 A0..C3 BE)
    except the division sign U+00F7, and the sharp s, which becomes SS. *)
Fixpoint upper (s : string) : string :=
  match s with
  | EmptyString => EmptyString
  | String c s' =>
      if in_range 97 122 c then String (chr (code c - 32)) (upper s')
      else if code c =? 195 then
        match s' with
        | String d s'' =>
            if in_range 160 190 d && negb (code d =? 183)
            then String c (String (chr (code d - 32)) (upper s''))
            else if code d =? 159 then String "S" (String "S" (upper s''))
            else String c (String d (upper s''))
        | EmptyString => String c EmptyString
        end
      else String c (upper s')
  end.

(** [s.replace(old, new)] for a non-empty [old]: [skip] counts the
    characters of a match still to be dropped. *)
Fixpoint replace_from (old new : string) (skip : nat) (s : string) : string :=
  match s with
  | EmptyString => EmptyString
  | String c s' =>
      match skip with
      | S k => replace_from old new k s'
      | O =>
          if prefix old s
          then new ++ replace_from old new (Nat.pred (String.length old)) s'
          else String c (replace_from old new O s')
      end
  end.

Definition replace (old new s : string) : string := replace_from old new O s.

(** [s.split()]: the maximal runs of non-whitespace characters. *)
Fixpoint split (s : string) : list string :=
  match s with
  | EmptyString => []
  | String c s' =>
      if isspace c then split s'
      else
        match s' with
        | EmptyString => [String c EmptyString]
        | String d _ =>
            if isspace d then String c EmptyString :: split s'
            else
              match split s' with
              | w :: ws => String c w :: ws
              | [] => [String c EmptyString]
              end
        end
  end.

(** [s.split(sep)] for a one-character separator. *)
Fixpoint split_on (sep : ascii) (s : string) : list string :=
  match s with
  | EmptyString => [EmptyString]
  | String c s' =>
      if Ascii.eqb c sep then EmptyString :: split_on sep s'
      else
        match split_on sep s' with
        | w :: ws => String c w :: ws
        | [] => [String c EmptyString]
        end
  end.

(** [sep.join(parts)] *)
Definition join (sep : string) (parts : list string) : string :=
  String.concat sep parts.

Definition str_nonempty (s : string) : bool :=
  match s with EmptyString => false | _ => true end.

(** *** Integers as text *)

Definition str_of_Z (n : Z) : string := NilZero.string_of_int (Z.to_int n).

Fixpoint zeros (n : nat) : string :=
  match n with O => EmptyString | S k => String "0" (zeros k) end.

(** ["%0<width>d" % n] for [0 <= n] *)
Definition zpad (width : nat) (n : Z) : string :=
  let s := str_of_Z n in zeros (width - String.length s) ++ s.

(** Value of a run of decimal digits, most significant first. *)
Fixpoint digits_value (acc : Z) (s : string) : Z :=
  match s with
  | EmptyString => acc
  | String c s' => digits_value (10 * acc + digit_val c) s'
  end.

Fixpoint all_digits (s : string) : bool :=
  match s with
  | EmptyString => true
  | String c s' => is_digit c && all_digits s'
  end.

(** Longest prefix of decimal digits, and the rest. *)
Fixpoint span_digits (s : string) : string * string :=
  match s with
  | String c s' =>
      if is_digit c then let '(d, r) := span_digits s' in (String c d, r)
      else (EmptyString, s)
  | EmptyString => (EmptyString, EmptyString)
  end.

(** *** Exceptions *)

Inductive result (E A : Type) : Type :=
| Ok (a : A)
| Raise (e : E).
Arguments Ok {E A} a.
Arguments Raise {E A} e.

Definition bind {E A B} (r : result E A) (k : A -> result E B) : result E B :=
  match r with
  | Ok a => k a
  | Raise e => Raise e
  end.

(** *** Floats *)

Definition prec : Z := 53.
Definition emax : Z := 1024.

Definition ndigits (d : Z) : Z := Z.of_nat (String.length (str_of_Z (Z.abs d))).

(** Nearest binary64 to [d * 10^k], for [0 <= d].  A magnitude of at
    least [10^309] overflows to infinity and one below [10^-324] rounds to
    zero, whatever the digits. *)
Definition float_of_decimal (neg : bool) (d k : Z) : spec_float :=
  if d =? 0 then S754_zero neg
  else if 310 <=? k + ndigits d then S754_infinity neg
  else if k + ndigits d <=? -324 then S754_zero neg
  else if 0 <=? k then
    match d * 10 ^ k with
    | Zpos m => binary_round prec emax neg m 0
    | _ => S754_zero neg
    end
  else
    let '(q, e, l) := SFdiv_core_binary prec emax d 0 (10 ^ (- k)) 0 in
    binary_round_aux prec emax neg q e l.

(** The check of [float()] on underscores: each one stands between two
    digits; they are then removed.  [prev] is the previous character. *)
Fixpoint strip_underscores (prev : option ascii) (s : string) : option string :=
  match s with
  | EmptyString =>
      match prev with
      | Some "_"%char => None
      | _ => Some EmptyString
      end
  | String c s' =>
      if Ascii.eqb c "_" then
        match prev with
        | Some p => if is_digit p then strip_underscores (Some c) s' else None
        | None => None
        end
      else
        match prev with
        | Some "_"%char =>
            if is_digit c
            then option_map (String c) (strip_underscores (Some c) s')
            else None
        | _ => option_map (String c) (strip_underscores (Some c) s')
        end
  end.

Definition take_sign (s : string) : bool * string :=
  match s with
  | String "-" r => (true, r)
  | String "+" r => (false, r)
  | _ => (false, s)
  end.

(** Optional exponent part [e[+-]digits]; [None] when what remains is
    not exactly an exponent or nothing. *)
Definition parse_exponent (s : string) : option Z :=
  match s with
  | EmptyString => Some 0
  | String c r =>
      if Ascii.eqb c "e" || Ascii.eqb c "E" then
        let '(neg, ds) := take_sign r in
        if str_nonempty ds && all_digits ds
        then Some (if neg then - digits_value 0 ds else digits_value 0 ds)
        else None
      else None
  end.

(** Decimal literal [digits [. [digits]] [exponent]] or
    [. digits [exponent]], wholly consumed. *)
Definition parse_decimal (neg : bool) (s : string) : option spec_float :=
  let '(ip, r1) := span_digits s in
  let '(fp, r2) :=
    match r1 with
    | String "." r => span_digits r
    | _ => (EmptyString, r1)
    end in
  if str_nonempty ip || str_nonempty fp then
    match parse_exponent r2 with
    | Some ex =>
        Some (float_of_decimal neg (digits_value 0 (ip ++ fp))
                               (ex - Z.of_nat (String.length fp)))
    | None => None
    end
  else None.

(** [float(s)] for a string; [None] is [ValueError]. *)
Definition float_of_string (s : string) : option spec_float :=
  match strip_underscores None s with
  | None => None
  | Some s1 =>
      let s2 := rstrip_by c_isspace (lstrip_by c_isspace s1) in
      let '(neg, body) := take_sign s2 in
      let word := lower body in
      if String.eqb word "inf" || String.eqb word "infinity"
      then Some (S754_infinity neg)
      else if String.eqb word "nan" then Some S754_nan
      else parse_decimal neg body
  end.

(** Nearest binary64 to an integer: [float(n)] when it does not overflow. *)
Definition float_of_Z (n : Z) : spec_float :=
  float_of_decimal (n <? 0) (Z.abs n) 0.

Inductive builtin_exn := ValueError | TypeError | OverflowError | UnboundLocalError.

(** [int(x)] for a float: truncation toward zero. *)
Definition int_of_float (f : spec_float) : result builtin_exn Z :=
  match f with
  | S754_zero _ => Ok 0
  | S754_nan => Raise ValueError
  | S754_infinity _ => Raise OverflowError
  | S754_finite s m e =>
      let a := Z.shiftl (Zpos m) e in Ok (if s then - a else a)
  end.

Definition float_eqb (x y : spec_float) : bool :=
  match x, y with
  | S754_zero a, S754_zero b => Bool.eqb a b
  | S754_infinity a, S754_infinity b => Bool.eqb a b
  | S754_nan, S754_nan => true
  | S754_finite a m e, S754_finite b n f => Bool.eqb a b && Pos.eqb m n && (e =? f)
  | _, _ => false
  end.

(** [num / den >= 10^k], for positive [num] and [den] *)
Definition ge_pow10 (num den k : Z) : bool :=
  if 0 <=? k then den * 10 ^ k <=? num else den <=? num * 10 ^ (- k).

(** The decimal exponent of [num / den]: the [k] with
    [10^k <= num / den < 10^(k+1)]. *)
Definition log10_floor (num den : Z) : Z :=
  let k := ndigits num - ndigits den in
  if ge_pow10 num den k then k else k - 1.

(** Nearest integer, ties to even, to [(num / den) / 10^s]. *)
Definition scaled_round (num den s : Z) : Z :=
  let '(n, d) := if 0 <=? s then (num, den * 10 ^ s) else (num * 10 ^ (- s), den) in
  let q := n / d in
  let r := n mod d in
  if (d <? 2 * r) || ((d =? 2 * r) && Z.odd q) then q + 1 else q.

(** The [p] significant digits nearest to [num / den], with the power of
    ten that scales them. *)
Definition round_sig (p num den : Z) : Z * Z :=
  let k := log10_floor num den in
  let q := scaled_round num den (k - p + 1) in
  if q =? 10 ^ p then (10 ^ (p - 1), k - p + 2) else (q, k - p + 1).

(** Fewest significant digits (17 at most) that read back as [f]. *)
Fixpoint shortest_digits (fuel : nat) (p : Z) (f : spec_float) (num den : Z) : Z * Z :=
  let '(d, x) := round_sig p num den in
  match fuel with
  | O => (d, x)
  | S n =>
      if float_eqb (float_of_decimal false d x) f then (d, x)
      else shortest_digits n (p + 1) f num den
  end.

Fixpoint drop_trailing_zeros (fuel : nat) (d x : Z) : Z * Z :=
  match fuel with
  | O => (d, x)
  | S n => if (d mod 10 =? 0) && negb (d =? 0)
           then drop_trailing_zeros n (d / 10) (x + 1) else (d, x)
  end.

Definition sign_str (neg : bool) : string := if neg then "-" else "".

(** [repr(f)], which is also [str(f)]: the shortest digits that read back
    as [f], in positional notation when the decimal point falls within
    [-3 .. 16] digits of the first one and in exponent notation otherwise. *)
Definition float_repr (f : spec_float) : string :=
  match f with
  | S754_nan => "nan"
  | S754_infinity s => sign_str s ++ "inf"
  | S754_zero s => sign_str s ++ "0.0"
  | S754_finite s m e =>
      let '(num, den) := if 0 <=? e then (Zpos m * 2 ^ e, 1) else (Zpos m, 2 ^ (- e)) in
      let '(d0, x0) := shortest_digits 16 1 (S754_finite false m e) num den in
      let '(d, x) := drop_trailing_zeros 17 d0 x0 in
      let ds := str_of_Z d in
      let n := Z.of_nat (String.length ds) in
      let decpt := x + n in
      sign_str s ++
      (if (decpt <=? -4) || (16 <? decpt) then
         let k := decpt - 1 in
         substring 0 1 ds
         ++ (if 1 <? n then "." ++ substring 1 (String.length ds - 1) ds else "")
         ++ "e" ++ (if k <? 0 then "-" else "+") ++ zpad 2 (Z.abs k)
       else if decpt <=? 0 then "0." ++ zeros (Z.to_nat (- decpt)) ++ ds
       else if n <=? decpt then ds ++ zeros (Z.to_nat (decpt - n)) ++ ".0"
       else substring 0 (Z.to_nat decpt) ds ++ "."
            ++ substring (Z.to_nat decpt) (Z.to_nat (n - decpt)) ds)
  end.

(** *** Dates *)

Record date := mkdate { year : Z; month : Z; day : Z }.

Record datetime := mkdatetime
  { dt_date : date; hour : Z; minute : Z; second : Z; microsecond : Z }.

Definition is_leap (y : Z) : bool :=
  (y mod 4 =? 0) && (negb (y mod 100 =? 0) || (y mod 400 =? 0)).

Definition days_in_month (y m : Z) : Z :=
  if m =? 2 then (if is_leap y then 29 else 28)
  else if (m =? 4) || (m =? 6) || (m =? 9) || (m =? 11) then 30
  else 31.

(** The checks of the [date(year, month, day)] constructor. *)
Definition valid_date (y m d : Z) : bool :=
  (1 <=? y) && (y <=? 9999) && (1 <=? m) && (m <=? 12)
  && (1 <=? d) && (d <=? days_in_month y m).

Definition date_eqb (a b : date) : bool :=
  (year a =? year b) && (month a =? month b) && (day a =? day b).

(** [date.isoformat()], which is [str(date)] *)
Definition date_str (d : date) : string :=
  zpad 4 (year d) ++ "-" ++ zpad 2 (month d) ++ "-" ++ zpad 2 (day d).

(** [str(datetime)] *)
Definition datetime_str (t : datetime) : string :=
  date_str (dt_date t) ++ " " ++ zpad 2 (hour t) ++ ":" ++ zpad 2 (minute t)
  ++ ":" ++ zpad 2 (second t)
  ++ (if microsecond t =? 0 then "" else "." ++ zpad 6 (microsecond t)).

(** The directives of [strptime] and [strftime] that the program uses. *)
Inductive directive := DY | Dm | Dd | DH | DM | DS | DLit (c : ascii).

(** [%Y] prints the year without padding, the other fields on two digits. *)
Definition strftime_item (t : datetime) (d : directive) : string :=
  match d with
  | DY => str_of_Z (year (dt_date t))
  | Dm => zpad 2 (month (dt_date t))
  | Dd => zpad 2 (day (dt_date t))
  | DH => zpad 2 (hour t)
  | DM => zpad 2 (minute t)
  | DS => zpad 2 (second t)
  | DLit c => String c EmptyString
  end.

Definition strftime (t : datetime) (fmt : list directive) : string :=
  String.concat "" (map (strftime_item t) fmt).

(** What one directive of a [strptime] format can match at the head of
    [s], in the order the regular expression tries its alternatives:
    [%Y] is [\d\d\d\d], [%m] is [1[0-2]|0[1-9]|[1-9]], [%d] is
    [3[0-1]|[1-2]\d|0[1-9]|[1-9]| [1-9]].  Each alternative gives the
    number read, if any, and the rest of the text. *)
Definition alternatives (d : directive) (s : string) : list (option Z * string) :=
  match d with
  | DLit c =>
      match s with
      | String x r => if Ascii.eqb x c then [(None, r)] else []
      | EmptyString => []
      end
  | DY =>
      match s with
      | String a (String b (String c (String e r))) =>
          if is_digit a && is_digit b && is_digit c && is_digit e
          then [(Some (digits_value 0 (substring 0 4 s)), r)] else []
      | _ => []
      end
  | Dm =>
      (match s with
       | String a (String b r) =>
           (if Ascii.eqb a "1" && in_range 48 50 b then [(Some (10 + digit_val b), r)] else [])
           ++ (if Ascii.eqb a "0" && in_range 49 57 b then [(Some (digit_val b), r)] else [])
       | _ => []
       end)
      ++ (match s with
          | String a r => if in_range 49 57 a then [(Some (digit_val a), r)] else []
          | EmptyString => []
          end)
  | Dd =>
      (match s with
       | String a (String b r) =>
           (if Ascii.eqb a "3" && in_range 48 49 b then [(Some (30 + digit_val b), r)] else [])
           ++ (if in_range 49 50 a && is_digit b
               then [(Some (10 * digit_val a + digit_val b), r)] else [])
           ++ (if Ascii.eqb a "0" && in_range 49 57 b then [(Some (digit_val b), r)] else [])
       | _ => []
       end)
      ++ (match s with
          | String a r => if in_range 49 57 a then [(Some (digit_val a), r)] else []
          | EmptyString => []
          end)
      ++ (match s with
          | String a (String b r) =>
              if Ascii.eqb a " " && in_range 49 57 b then [(Some (digit_val b), r)] else []
          | _ => []
          end)
  | _ => []
  end.

Definition set_field (d : directive) (v : option Z) (acc : date) : date :=
  match d, v with
  | DY, Some n => mkdate n (month acc) (day acc)
  | Dm, Some n => mkdate (year acc) n (day acc)
  | Dd, Some n => mkdate (year acc) (month acc) n
  | _, _ => acc
  end.

Fixpoint first_some {A B} (f : A -> option B) (l : list A) : option B :=
  match l with
  | [] => None
  | a :: l' => match f a with Some b => Some b | None => first_some f l' end
  end.

(** [re.match] of the compiled format: the first match in backtracking
    order, with the fields read and the text left over. *)
Fixpoint re_match (fmt : list directive) (acc : date) (s : string) : option (date * string) :=
  match fmt with
  | [] => Some (acc, s)
  | d :: fmt' =>
      first_some (fun '(v, r) => re_match fmt' (set_field d v acc) r) (alternatives d s)
  end.

(** [datetime.strptime(s, fmt).date()]; [None] is [ValueError]: no match,
    unconverted data, or a day that the month does not have. *)
Definition strptime (s : string) (fmt : list directive) : option date :=
  match re_match fmt (mkdate 1900 1 1) s with
  | Some (d, EmptyString) =>
      if valid_date (year d) (month d) (day d) then Some d else None
  | _ => None
  end.

(** *** Cell values *)

(** The values a worksheet cell holds: empty, boolean, number, text, date
    (cells that hold a time of day or a duration are not modelled). *)
Inductive value :=
| VNone
| VBool (b : bool)
| VInt (n : Z)
| VFloat (f : spec_float)
| VStr (s : string)
| VDate (d : date)
| VDatetime (t : datetime).

(** [bool(v)] *)
Definition truthy (v : value) : bool :=
  match v with
  | VNone => false
  | VBool b => b
  | VInt n => negb (n =? 0)
  | VFloat (S754_zero _) => false
  | VFloat _ => true
  | VStr s => str_nonempty s
  | VDate _ | VDatetime _ => true
  end.

(** [str(v)] *)
Definition str (v : value) : string :=
  match v with
  | VNone => "None"
  | VBool true => "True"
  | VBool false => "False"
  | VInt n => str_of_Z n
  | VFloat f => float_repr f
  | VStr s => s
  | VDate d => date_str d
  | VDatetime t => datetime_str t
  end.

(** [float(v)]: [TypeError] for a value that is neither a number nor
    text, [ValueError] for text that is not a number, [OverflowError] for
    an integer beyond the largest float. *)
Definition float (v : value) : result builtin_exn spec_float :=
  match v with
  | VBool b => Ok (float_of_Z (if b then 1 else 0))
  | VInt n =>
      match float_of_Z n with
      | S754_infinity _ => Raise OverflowError
      | f => Ok f
      end
  | VFloat f => Ok f
  | VStr s =>
      match float_of_string s with
      | Some f => Ok f
      | None => Raise ValueError
      end
  | VNone | VDate _ | VDatetime _ => Raise TypeError
  end.

End Py.

Import Py.

(** ** Dictionaries with text keys

    A Python [dict] keeps its keys in insertion order; assigning to a key
    that is present replaces the value in place. *)

Definition dict (V : Type) : Type := list (string * V).

Fixpoint dict_get {V} (k : string) (d : dict V) : option V :=
  match d with
  | [] => None
  | (k', v) :: d' => if String.eqb k' k then Some v else dict_get k d'
  end.

Fixpoint dict_set {V} (k : string) (v : V) (d : dict V) : dict V :=
  match d with
  | [] => [(k, v)]
  | (k', v') :: d' =>
      if String.eqb k' k then (k, v) :: d' else (k', v') :: dict_set k v d'
  end.

(** [bool(d.get(k))] for a dictionary of cell values *)
Definition get_truthy (k : string) (d : dict value) : bool :=
  match dict_get k d with
  | Some v => truthy v
  | None => false
  end.

(** ** Messages and exceptions *)

(** One constructor per f-string of the program; interpolated values are
    the arguments, a [value] argument being the text [str] gives for it. *)
Inductive message :=
(* ExcelImporter, warnings *)
| HeadersNotFound                                   (* Impossible de trouver les en-têtes de colonnes *)
| IncompleteRow (row_idx : nat)                     (* Ligne {row_idx}: Données incomplètes ignorées *)
| InvalidDate (value : string)                      (* Date invalide '{value}', utilisation de la date du jour *)
| ScoreClamped (row_num : nat) (field_name : string) (score limited : Z)
                                                    (* Ligne {row_num}: {field_name} = {score} hors limites [1-10], valeur limitée à {..} *)
(* ExcelImporter, errors *)
| ScoreUnreadable (row_num : nat) (field_name : string) (value : string)
                                                    (* Ligne {row_num}: {field_name} invalide '{value}', utilisation de la valeur par défaut 5 *)
| SystemNameMissing                                 (* Nom du système manquant *)
| NoFailureFound                                    (* Aucune défaillance trouvée dans le fichier *)
| NoSheetInWorkbook                                 (* Le fichier Excel ne contient aucune feuille *)
| ComponentMissing (idx : nat)                      (* Défaillance {idx}: Composant manquant *)
| FailureModeMissing (idx : nat)                    (* Défaillance {idx}: Mode de défaillance manquant *)
| ScoreMissing (idx : nat) (field : string)         (* Défaillance {idx}: {field} manquant *)
| ScoreNotValid (idx : nat) (field : string) (value : string)
                                                    (* Défaillance {idx}: {field}={value} invalide (doit être 1-10) *)
(* validators *)
| NotANumber (field_name : string) (value : string) (* {field_name}: La valeur '{value}' n'est pas un nombre valide ... *)
| OutOfBounds (field_name : string) (score : Z)     (* {field_name}: La valeur {score} est hors limites ... *)
| ReferenceInvalid (reference : string)             (* Référence invalide: '{reference}' ... *)
| ReferenceTooLong (len : nat)                      (* Référence trop longue: {len} caractères ... *)
| ReferenceTooShort (len : nat)                     (* Référence trop courte: {len} caractères ... *)
| VeryHighCriticality (criticality gravity occurrence detection : Z).
                                                    (* Criticité très élevée détectée: {criticality} (G=.., O=.., D=..) *)

(** An exception of a builtin, or Django's [ValidationError] with its
    message or list of messages. *)
Inductive exn :=
| Builtin (e : builtin_exn)
| ValidationError (messages : list message).

(** ** models.py: the derived criticality of [FailureMode] *)

Module FailureMode.

Record t := mk
  { component : string;
    failure_mode : string;
    potential_cause : string;
    effect : string;
    gravity : Z;
    occurrence : Z;
    detection : Z;
    preventive_actions : option string;
    responsible : option string;
    deadline : option date;
    order : Z }.

Definition criticality (self : t) : Z :=
  gravity self * occurrence self * detection self.

Definition criticality_level (self : t) : string :=
  let crit := criticality self in
  if crit <=? 60 then "FAIBLE"
  else if crit <=? 120 then "MODÉRÉE"
  else "ÉLEVÉE".

End FailureMode.

Record AMDECProject := mkProject
  { reference : string;
    name : string;
    failures : list FailureMode.t }.

(** ** validators.py *)

Module Validators.

Definition validate_score (value : value) (field_name : string) : result exn Z :=
  let value :=
    match value with
    | VStr s => VStr (replace "," "." (strip s))
    | _ => value
    end in
  match bind (float value) int_of_float with
  | Ok score =>
      if negb ((1 <=? score) && (score <=? 10))
      then Raise (ValidationError [OutOfBounds field_name score])
      else Ok score
  | Raise ValueError | Raise TypeError =>
      Raise (ValidationError [NotANumber field_name (str value)])
  | Raise e => Raise (Builtin e)
  end.

(** One [try: x = validate_score(x, label) / except ValidationError as e:
    errors.append(str(e))] block: the validated score replaces the
    argument, a [ValidationError] goes to [errors], and any other
    exception leaves the function. *)
Definition try_validate (x : value) (label : string) (errors : list message)
  : result exn (value * list message) :=
  match validate_score x label with
  | Ok score => Ok (VInt score, errors)
  | Raise (ValidationError msgs) => Ok (x, (errors ++ msgs)%list)
  | Raise e => Raise e
  end.

(** The product [gravity * occurrence * detection] of validated scores. *)
Definition int_value (v : value) : Z :=
  match v with VInt n => n | _ => 0 end.

(** Returns the three scores and the records written to the logger. *)
Definition validate_criticality_scores (gravity occurrence detection : value)
  : result exn ((Z * Z * Z) * list message) :=
  let errors := [] in
  bind (try_validate gravity "Gravité (G)" errors) (fun '(gravity, errors) =>
  bind (try_validate occurrence "Occurrence (O)" errors) (fun '(occurrence, errors) =>
  bind (try_validate detection "Détection (D)" errors) (fun '(detection, errors) =>
  match errors with
  | _ :: _ => Raise (ValidationError errors)
  | [] =>
      let '(g, o, d) := (int_value gravity, int_value occurrence, int_value detection) in
      let criticality := g * o * d in
      let log :=
        if 500 <? criticality then [VeryHighCriticality criticality g o d] else [] in
      Ok ((g, o, d), log)
  end))).

Definition reference_char (c : ascii) : bool :=
  in_range 65 90 c || in_range 48 57 c || Ascii.eqb c "-" || Ascii.eqb c "_".

(** [re.match(r'^[A-Z0-9\-_]+$', s)]: one or more characters of the class
    up to the end of the text, or up to a line feed that ends it. *)
Fixpoint reference_tail (s : string) : bool :=
  match s with
  | EmptyString => true
  | String c r =>
      (reference_char c && reference_tail r)
      || (Ascii.eqb c "010" && match r with EmptyString => true | _ => false end)
  end.

Definition reference_pattern (s : string) : bool :=
  match s with
  | String c r => reference_char c && reference_tail r
  | EmptyString => false
  end.

Definition validate_reference (now : datetime) (reference : string) : result exn string :=
  if negb (str_nonempty reference) then
    Ok ("AMDEC-" ++ strftime now [DY; Dm; Dd; DLit "-"; DH; DM; DS])
  else
    let reference := upper (strip reference) in
    if negb (reference_pattern reference) then
      Raise (ValidationError [ReferenceInvalid reference])
    else if (50 <? String.length reference)%nat then
      Raise (ValidationError [ReferenceTooLong (String.length reference)])
    else if (String.length reference <? 3)%nat then
      Raise (ValidationError [ReferenceTooShort (String.length reference)])
    else Ok reference.

Definition get_criticality_level (criticality : Z) : string :=
  if criticality <=? 60 then "FAIBLE"
  else if criticality <=? 120 then "MODÉRÉE"
  else "ÉLEVÉE".

End Validators.

(** ** excel_handler.py: [ExcelImporter] *)

(** A worksheet as [iter_rows(values_only=True)] gives it: the rows from
    the first one down, each row the values of its cells from column A. *)
Definition worksheet : Type := list (list value).

(** A workbook: its sheets by name, in the order of [wb.sheetnames]. *)
Definition workbook : Type := list (string * worksheet).

Definition LF : string := String "010" EmptyString.
Definition CR : string := String "013" EmptyString.

Module ExcelImporter.

(** The attributes of an importer object. *)
Record t := mk
  { errors : list message;
    warnings : list message;
    imported_count : Z }.

(** [__init__] *)
Definition init : t := mk [] [] 0.

(** A method body: it reads and updates the attributes, and returns a
    value or raises. *)
Definition M (A : Type) : Type := t -> result exn (A * t).

Definition ret {A} (a : A) : M A := fun self => Ok (a, self).

Definition raise {A} (e : exn) : M A := fun _ => Raise e.

Definition mbind {A B} (m : M A) (k : A -> M B) : M B :=
  fun self =>
    match m self with
    | Ok (a, self') => k a self'
    | Raise e => Raise e
    end.

(** [self.warnings.append(m)] *)
Definition warn (m : message) : M unit :=
  fun self => Ok (tt, mk (errors self) (warnings self ++ [m])%list (imported_count self)).

(** [self.errors.append(m)] *)
Definition err (m : message) : M unit :=
  fun self => Ok (tt, mk (errors self ++ [m])%list (warnings self) (imported_count self)).

(** [self.errors.clear()] *)
Definition clear_errors : M unit :=
  fun self => Ok (tt, mk [] (warnings self) (imported_count self)).

Notation "x <- m ;; k" := (mbind m (fun x => k))
  (at level 61, m at next level, right associativity).
Notation "m ;;; k" := (mbind m (fun _ => k))
  (at level 61, right associativity).

Definition COLUMN_MAPPING : dict string :=
  [ ("Composant", "component");
    ("Mode de Défaillance", "failure_mode");
    ("Cause Potentielle", "potential_cause");
    ("Effet", "effect");
    ("Gravité (G)", "gravity");
    ("Occurrence (O)", "occurrence");
    ("Détection (D)", "detection");
    ("Actions Préventives", "preventive_actions") ].

Definition METADATA_KEYWORDS : dict string :=
  [ ("système", "system_name");
    ("date", "analysis_date");
    ("équipe", "team_members");
    ("objectif", "objective");
    ("client", "client");
    ("référence", "reference") ].

(** The formats of [_parse_date], in the order they are tried:
    [%Y-%m-%d], [%d/%m/%Y], [%d-%m-%Y], [%Y/%m/%d], [%d.%m.%Y]. *)
Definition DATE_FORMATS : list (list directive) :=
  [ [DY; DLit "-"; Dm; DLit "-"; Dd];
    [Dd; DLit "/"; Dm; DLit "/"; DY];
    [Dd; DLit "-"; Dm; DLit "-"; DY];
    [DY; DLit "/"; Dm; DLit "/"; Dd];
    [Dd; DLit "."; Dm; DLit "."; DY] ].

(** The [for fmt in formats: try: return strptime(..) except ValueError:
    continue] loop; [None] when it runs to its end. *)
Fixpoint try_formats (value : string) (formats : list (list directive)) : option date :=
  match formats with
  | [] => None
  | fmt :: rest =>
      match strptime (strip value) fmt with
      | Some d => Some d
      | None => try_formats value rest
      end
  end.

(** A [datetime] is a [date] for [isinstance], so both come back as they
    are. *)
Definition _parse_date (today : date) (value : value) : M Py.value :=
  match value with
  | VDate _ | VDatetime _ => ret value
  | _ =>
      match (match value with
             | VStr s => try_formats s DATE_FORMATS
             | _ => None
             end) with
      | Some d => ret (VDate d)
      | None => warn (InvalidDate (str value)) ;;; ret (VDate today)
      end
  end.

Definition _parse_score (value : value) (field_name : string) (row_num : nat) : M Z :=
  match bind (float (VStr (str value))) int_of_float with
  | Ok score =>
      if (1 <=? score) && (score <=? 10) then ret score
      else
        warn (ScoreClamped row_num field_name score (Z.min 10 (Z.max 1 score))) ;;;
        ret (Z.min 10 (Z.max 1 score))
  | Raise ValueError | Raise TypeError =>
      err (ScoreUnreadable row_num field_name (str value)) ;;; ret 5
  | Raise e => raise (Builtin e)
  end.

Definition _clean_text (value : value) : string :=
  match value with
  | VNone => ""
  | _ =>
      let text := strip (str value) in
      let text := replace CR LF (replace (CR ++ LF) LF text) in
      join " " (split text)
  end.

(** The [for keyword, field in METADATA_KEYWORDS.items()] loop for one
    row: it stops at the first keyword found in [first_cell]. *)
Fixpoint scan_keywords (today : date) (keywords : dict string) (first_cell : string)
  (row : list value) (metadata : dict value) : M (dict value) :=
  match keywords with
  | [] => ret metadata
  | (keyword, field) :: rest =>
      if contains keyword first_cell then
        match row with
        | _ :: v1 :: _ =>
            if truthy v1 then
              let value := strip (str v1) in
              if String.eqb field "analysis_date" then
                d <- _parse_date today (VStr value) ;;
                ret (dict_set field d metadata)
              else ret (dict_set field (VStr value) metadata)
            else ret metadata
        | _ => ret metadata
        end
      else scan_keywords today rest first_cell row metadata
  end.

(** The first loop of [_extract_metadata], over the rows it is given. *)
Fixpoint scan_metadata_rows (today : date) (rows : list (list value))
  (metadata : dict value) : M (dict value) :=
  match rows with
  | [] => ret metadata
  | row :: rest =>
      match row with
      | [] => scan_metadata_rows today rest metadata
      | c0 :: _ =>
          if negb (truthy c0) then scan_metadata_rows today rest metadata
          else
            let first_cell := strip (lower (str c0)) in
            metadata <- scan_keywords today METADATA_KEYWORDS first_cell row metadata ;;
            scan_metadata_rows today rest metadata
      end
  end.

(** The second loop of [_extract_metadata]: the system name from a title
    cell; it stops at the first cell that holds STEP or AMDEC. *)
Fixpoint scan_title_rows (rows : list (list value)) (metadata : dict value) : dict value :=
  match rows with
  | [] => metadata
  | row :: rest =>
      match row with
      | c0 :: _ =>
          if truthy c0 then
            let cell_value := str c0 in
            if contains "STEP" cell_value || contains "AMDEC" cell_value then
              match split_on "010" cell_value with
              | line0 :: _ =>
                  let name := strip (replace CR "" line0) in
                  if negb (get_truthy "system_name" metadata) && str_nonempty name
                  then dict_set "system_name" (VStr name) metadata
                  else metadata
              | [] => metadata
              end
            else scan_title_rows rest metadata
          else scan_title_rows rest metadata
      | [] => scan_title_rows rest metadata
      end
  end.

Definition _extract_metadata (today : date) (now : datetime) (worksheet : worksheet)
  : M (dict value) :=
  let metadata :=
    [ ("system_name", VStr "");
      ("analysis_date", VDate today);
      ("team_members", VStr "");
      ("objective", VStr "");
      ("client", VStr "");
      ("reference", VStr ("AMDEC-" ++ strftime now [DY; Dm; Dd; DLit "-"; DH; DM])) ] in
  metadata <- scan_metadata_rows today (firstn 15 worksheet) metadata ;;
  ret (scan_title_rows (firstn 5 worksheet) metadata).

(** The header test: the non-empty cells joined by spaces name
    "Composant" and one of "Mode", "Défaillance". *)
Definition is_header_row (row : list value) : bool :=
  let row_str := join " " (map str (filter truthy row)) in
  contains "Composant" row_str
  && (contains "Mode" row_str || contains "Défaillance" row_str).

(** The [for excel_name, field_name in COLUMN_MAPPING.items()] loop for
    one header cell: the field of the first label found in the cell. *)
Fixpoint match_column (mapping : dict string) (cell_str : string) : option string :=
  match mapping with
  | [] => None
  | (excel_name, field_name) :: rest =>
      if contains excel_name cell_str || contains (lower excel_name) (lower cell_str)
      then Some field_name
      else match_column rest cell_str
  end.

(** The [for col_idx, cell in enumerate(row)] loop over the header. *)
Fixpoint map_columns (col_idx : nat) (cells : list value) (column_indices : dict nat)
  : dict nat :=
  match cells with
  | [] => column_indices
  | cell :: rest =>
      map_columns (S col_idx) rest
        (if truthy cell then
           match match_column COLUMN_MAPPING (strip (str cell)) with
           | Some field_name => dict_set field_name col_idx column_indices
           | None => column_indices
           end
         else column_indices)
  end.

(** The search for the header: its row number and the column of each
    field, from the first row that passes the header test. *)
Fixpoint find_header (row_idx : nat) (rows : list (list value)) : option (nat * dict nat) :=
  match rows with
  | [] => None
  | row :: rest =>
      match row with
      | [] => find_header (S row_idx) rest
      | _ =>
          if is_header_row row then Some (row_idx, map_columns 0 row [])
          else find_header (S row_idx) rest
      end
  end.

Definition SUMMARY_KEYWORDS : list string :=
  [ "résumé"; "total"; "criticité élevée"; "criticité modérée" ].

(** The test that ends the data: the first cell names a summary line. *)
Definition is_summary_row (row : list value) : bool :=
  let first_cell :=
    match row with
    | c0 :: _ => if truthy c0 then str c0 else ""
    | [] => ""
    end in
  existsb (fun keyword => contains keyword (lower first_cell)) SUMMARY_KEYWORDS.

Definition is_score_field (field_name : string) : bool :=
  existsb (String.eqb field_name) ["gravity"; "occurrence"; "detection"].

(** The [for field_name, col_idx in column_indices.items()] loop that
    fills [failure_data] from one row. *)
Fixpoint fill_fields (column_indices : dict nat) (row : list value) (row_idx : nat)
  (failure_data : dict value) : M (dict value) :=
  match column_indices with
  | [] => ret failure_data
  | (field_name, col_idx) :: rest =>
      match nth_error row col_idx with
      | Some value =>
          if is_score_field field_name then
            score <- _parse_score value field_name row_idx ;;
            fill_fields rest row row_idx (dict_set field_name (VInt score) failure_data)
          else
            fill_fields rest row row_idx
              (dict_set field_name
                 (VStr (if truthy value then _clean_text value else "")) failure_data)
      | None => fill_fields rest row row_idx failure_data
      end
  end.

(** The loop over the rows below the header; [failures] is the list
    built so far. *)
Fixpoint extract_rows (column_indices : dict nat) (row_idx : nat)
  (rows : list (list value)) (failures : list (dict value)) : M (list (dict value)) :=
  match rows with
  | [] => ret failures
  | row :: rest =>
      if negb (existsb truthy row) then
        extract_rows column_indices (S row_idx) rest failures
      else if is_summary_row row then ret failures
      else
        failure_data <-
          fill_fields column_indices row row_idx
            [("order", VInt (Z.of_nat (List.length failures)))] ;;
        if get_truthy "component" failure_data && get_truthy "failure_mode" failure_data
        then extract_rows column_indices (S row_idx) rest (failures ++ [failure_data])%list
        else
          warn (IncompleteRow row_idx) ;;;
          extract_rows column_indices (S row_idx) rest failures
  end.

Definition _extract_failures (worksheet : worksheet) : M (list (dict value)) :=
  match find_header 1 worksheet with
  | Some (header_row, (_ :: _) as column_indices) =>
      extract_rows column_indices (header_row + 1) (skipn header_row worksheet) []
  | _ => warn HeadersNotFound ;;; ret []
  end.

(** [failure[k]] as a number, for the keys the score parser fills. *)
Definition score_at (k : string) (failure : dict value) : option Z :=
  match dict_get k failure with
  | Some (VInt n) => Some n
  | _ => None
  end.

Definition incr (k : string) (summary : dict Z) : dict Z :=
  match dict_get k summary with
  | Some n => dict_set k (n + 1) summary
  | None => summary
  end.

Definition _calculate_summary (failures : list (dict value)) : dict Z :=
  fold_left
    (fun summary failure =>
       match score_at "gravity" failure, score_at "occurrence" failure,
             score_at "detection" failure with
       | Some g, Some o, Some d =>
           let criticality := g * o * d in
           if 120 <? criticality then incr "high" summary
           else if 60 <? criticality then incr "medium" summary
           else incr "low" summary
       | _, _, _ => summary
       end)
    failures
    [ ("total", Z.of_nat (List.length failures)); ("high", 0); ("medium", 0); ("low", 0) ].

(** What [parse_excel] returns. *)
Record data := mkData
  { metadata : dict value;
    failures : list (dict value);
    summary : dict Z }.

(** The choice of the sheet in [parse_excel]. *)
Definition select_sheet (wb : workbook) : option worksheet :=
  match first_some (fun name => dict_get name wb) ["Analyse AMDEC"; "AMDEC"; "Analysis"] with
  | Some ws => Some ws
  | None =>
      match wb with
      | (_, ws) :: _ => Some ws
      | [] => None
      end
  end.

(** [parse_excel] once the workbook is loaded; a workbook without sheets
    raises [ValidationError]. *)
Definition parse_excel (today : date) (now : datetime) (wb : workbook) : M data :=
  match select_sheet wb with
  | None => raise (ValidationError [NoSheetInWorkbook])
  | Some ws =>
      metadata <- _extract_metadata today now ws ;;
      failures <- _extract_failures ws ;;
      ret (mkData metadata failures (_calculate_summary failures))
  end.

(** The score checks of [validate_data] for one field of one failure;
    [bool] is an [int] for [isinstance]. *)
Definition check_score (idx : nat) (failure : dict value) (field : string) : M unit :=
  match dict_get field failure with
  | None | Some VNone => err (ScoreMissing idx field)
  | Some value =>
      let ok :=
        match value with
        | VInt n => (1 <=? n) && (n <=? 10)
        | VBool b => b
        | _ => false
        end in
      if negb ok then err (ScoreNotValid idx field (str value)) else ret tt
  end.

(** The [for idx, failure in enumerate(failures, 1)] loop of
    [validate_data]. *)
Fixpoint check_failures (idx : nat) (failures : list (dict value)) : M unit :=
  match failures with
  | [] => ret tt
  | failure :: rest =>
      (if negb (get_truthy "component" failure) then err (ComponentMissing idx) else ret tt) ;;;
      (if negb (get_truthy "failure_mode" failure) then err (FailureModeMissing idx) else ret tt) ;;;
      check_score idx failure "gravity" ;;;
      check_score idx failure "occurrence" ;;;
      check_score idx failure "detection" ;;;
      check_failures (S idx) rest
  end.

Definition validate_data (data : data) : M bool :=
  clear_errors ;;;
  (if negb (get_truthy "system_name" (metadata data))
   then err SystemNameMissing else ret tt) ;;;
  match failures data with
  | [] => err NoFailureFound ;;; ret false
  | failures =>
      check_failures 1 failures ;;;
      fun self => Ok (Nat.eqb (List.length (errors self)) 0, self)
  end.

End ExcelImporter.

(** ** excel_handler.py: [ExcelExporter]

    Only cell values are kept: fonts, fills, borders, widths, frozen
    panes and data validations do not change what a sheet holds. *)

Module ExcelExporter.

(** A sheet being written: the value of each cell by row and column (from
    1, [None] where nothing was written) and the extent of the cells that
    exist. *)
Record sheet := mkSheet
  { cell : nat -> nat -> value;
    max_row : nat;
    max_column : nat }.

(** [wb.create_sheet(..)] *)
Definition create_sheet : sheet := mkSheet (fun _ _ => VNone) 0 0.

(** [ws.cell(row, column)] without a value: the cell comes to exist. *)
Definition touch (ws : sheet) (row column : nat) : sheet :=
  mkSheet (cell ws) (Nat.max (max_row ws) row) (Nat.max (max_column ws) column).

(** [ws.cell(row, column).value = v] *)
Definition set_value (ws : sheet) (row column : nat) (v : value) : sheet :=
  mkSheet (fun r c => if Nat.eqb r row && Nat.eqb c column then v else cell ws r c)
          (Nat.max (max_row ws) row) (Nat.max (max_column ws) column).

(** [ws.merge_cells(..)] before any value is written in the range: its
    cells come to exist. *)
Definition merge_cells (ws : sheet) (row column row' column' : nat) : sheet :=
  touch (touch ws row column) row' column'.

(** [for col, v in enumerate(values, column): ws.cell(row, col).value = v] *)
Fixpoint write_row (ws : sheet) (row column : nat) (values : list value) : sheet :=
  match values with
  | [] => ws
  | v :: rest => write_row (set_value ws row column v) row (S column) rest
  end.

(** [for col in range(column, ..): ws.cell(row, col).border = ..] *)
Fixpoint touch_row (ws : sheet) (row column : nat) (count : nat) : sheet :=
  match count with
  | O => ws
  | S n => touch_row (touch ws row column) row (S column) n
  end.

(** [ws.iter_rows(values_only=True)] on the sheet as it was written:
    every row up to the last, every column up to the widest. *)
Definition iter_rows (ws : sheet) : worksheet :=
  map (fun r => map (fun c => cell ws r c) (seq 1 (max_column ws)))
      (seq 1 (max_row ws)).

Fixpoint insert_by {A} (le : A -> A -> bool) (x : A) (l : list A) : list A :=
  match l with
  | [] => [x]
  | y :: l' => if le x y then x :: l else y :: insert_by le x l'
  end.

(** A stable sort, for the [ORDER BY] of a query. *)
Definition sort_by {A} (le : A -> A -> bool) (l : list A) : list A :=
  fold_right (insert_by le) [] l.

(** [order_by('-gravity', '-occurrence', '-detection')] *)
Definition by_scores_desc (a b : FailureMode.t) : bool :=
  (FailureMode.gravity b <? FailureMode.gravity a)
  || ((FailureMode.gravity a =? FailureMode.gravity b)
      && ((FailureMode.occurrence b <? FailureMode.occurrence a)
          || ((FailureMode.occurrence a =? FailureMode.occurrence b)
              && (FailureMode.detection b <=? FailureMode.detection a)))).

(** The [ordering] of [FailureMode.Meta], which [failures.all()] follows:
    ['-gravity', '-occurrence', '-detection', 'order']. *)
Definition by_meta_ordering (a b : FailureMode.t) : bool :=
  (FailureMode.gravity b <? FailureMode.gravity a)
  || ((FailureMode.gravity a =? FailureMode.gravity b)
      && ((FailureMode.occurrence b <? FailureMode.occurrence a)
          || ((FailureMode.occurrence a =? FailureMode.occurrence b)
              && ((FailureMode.detection b <? FailureMode.detection a)
                  || ((FailureMode.detection a =? FailureMode.detection b)
                      && (FailureMode.order a <=? FailureMode.order b)))))).

(** [x or default] for an optional text *)
Definition or_else (x : option string) (default : string) : string :=
  match x with
  | Some s => if str_nonempty s then s else default
  | None => default
  end.

Definition FAILURE_HEADERS : list string :=
  [ "Composant"; "Mode de Défaillance"; "Cause Potentielle"; "Effet";
    "Gravité (G)"; "Occurrence (O)"; "Détection (D)"; "Criticité (C)";
    "Niveau de Criticité"; "Actions Préventives" ].

Definition row_data (failure : FailureMode.t) : list value :=
  [ VStr (FailureMode.component failure);
    VStr (FailureMode.failure_mode failure);
    VStr (FailureMode.potential_cause failure);
    VStr (FailureMode.effect failure);
    VInt (FailureMode.gravity failure);
    VInt (FailureMode.occurrence failure);
    VInt (FailureMode.detection failure);
    VInt (FailureMode.criticality failure);
    VStr (FailureMode.criticality_level failure);
    VStr (or_else (FailureMode.preventive_actions failure) "") ].

(** The [for failure in failures] loop of [generate_failures_sheet]. *)
Fixpoint write_failures (ws : sheet) (row_num : nat) (failures : list FailureMode.t) : sheet :=
  match failures with
  | [] => ws
  | failure :: rest => write_failures (write_row ws row_num 1 (row_data failure)) (S row_num) rest
  end.

Definition generate_failures_sheet (project : AMDECProject) : sheet :=
  let ws := create_sheet in
  let ws := merge_cells ws 1 1 1 10 in
  let title := reference project ++ " - " ++ name project ++ LF
               ++ "ANALYSE DES MODES DE DÉFAILLANCE" in
  let ws := set_value ws 1 1 (VStr title) in
  let ws := write_row ws 3 1 (map VStr FAILURE_HEADERS) in
  let failures := sort_by by_scores_desc (failures project) in
  write_failures ws 4 failures.

Definition ACTION_HEADERS : list string :=
  [ "Composant"; "Défaillance"; "Criticité"; "Actions Recommandées";
    "Responsable"; "Échéance" ].

Definition deadline_text (failure : FailureMode.t) : string :=
  match FailureMode.deadline failure with
  | Some d => strftime (mkdatetime d 0 0 0 0) [Dd; DLit "/"; Dm; DLit "/"; DY]
  | None => "À planifier"
  end.

(** The rows of the table of immediate actions. *)
Fixpoint write_high (ws : sheet) (row_num : nat) (failures : list FailureMode.t) : sheet * nat :=
  match failures with
  | [] => (ws, row_num)
  | failure :: rest =>
      let ws := set_value ws row_num 1 (VStr (FailureMode.component failure)) in
      let ws := set_value ws row_num 2 (VStr (FailureMode.failure_mode failure)) in
      let ws := set_value ws row_num 3 (VInt (FailureMode.criticality failure)) in
      let ws := set_value ws row_num 4
                  (VStr (or_else (FailureMode.preventive_actions failure) "À définir")) in
      let ws := set_value ws row_num 5
                  (VStr (or_else (FailureMode.responsible failure) "À assigner")) in
      let ws := set_value ws row_num 6 (VStr (deadline_text failure)) in
      let ws := touch_row ws row_num 1 6 in
      write_high ws (S row_num) rest
  end.

(** The rows of the table of medium-term actions. *)
Fixpoint write_medium (ws : sheet) (row_num : nat) (failures : list FailureMode.t) : sheet * nat :=
  match failures with
  | [] => (ws, row_num)
  | failure :: rest =>
      let ws := set_value ws row_num 1 (VStr (FailureMode.component failure)) in
      let ws := set_value ws row_num 5
                  (VStr (or_else (FailureMode.responsible failure) "À assigner")) in
      let ws := set_value ws row_num 6 (VStr (deadline_text failure)) in
      let ws := touch_row ws row_num 1 6 in
      write_medium ws (S row_num) rest
  end.

(** [generate_actions_sheet].  The local [headers] is bound in the branch
    of the immediate actions only; the table of medium-term actions reads
    it, which raises when that branch was not taken. *)
Definition generate_actions_sheet (project : AMDECProject) : result exn sheet :=
  let all := sort_by by_meta_ordering (failures project) in
  let ws := create_sheet in
  let ws := merge_cells ws 1 1 1 6 in
  let ws := set_value ws 1 1 (VStr "PLAN D'ACTIONS PRIORITAIRES") in
  let row_num := 3%nat in
  let high_failures := filter (fun f => 120 <? FailureMode.criticality f) all in
  let ws := merge_cells ws row_num 1 row_num 6 in
  let ws := set_value ws row_num 1 (VStr "ACTIONS IMMÉDIATES (Criticité > 120)") in
  let row_num := S row_num in
  let '(ws, row_num, headers) :=
    match high_failures with
    | _ :: _ =>
        let headers := ACTION_HEADERS in
        let ws := write_row ws row_num 1 (map VStr headers) in
        let '(ws, row_num) := write_high ws (S row_num) high_failures in
        (ws, row_num, Some headers)
    | [] =>
        let ws := merge_cells ws row_num 1 row_num 6 in
        let ws := set_value ws row_num 1 (VStr "Aucune défaillance de criticité élevée") in
        (ws, S row_num, None)
    end in
  let row_num := (row_num + 2)%nat in
  let medium_failures :=
    filter (fun f => (61 <=? FailureMode.criticality f) && (FailureMode.criticality f <=? 120)) all in
  let ws := merge_cells ws row_num 1 row_num 6 in
  let ws := set_value ws row_num 1 (VStr "ACTIONS À MOYEN TERME (Criticité 61-120)") in
  let row_num := S row_num in
  match medium_failures with
  | _ :: _ =>
      match headers with
      | None => Raise (Builtin UnboundLocalError)
      | Some headers =>
          let ws := write_row ws row_num 1 (map VStr headers) in
          Ok (fst (write_medium ws (S row_num) medium_failures))
      end
  | [] =>
      let ws := merge_cells ws row_num 1 row_num 6 in
      Ok (set_value ws row_num 1 (VStr "Aucune défaillance de criticité modérée"))
  end.

End ExcelExporter.

(** * Vocabulary of the properties *)

(** Sample data for the closed instances of the theorems below. *)

Definition sample_today : date := mkdate 2026 11 3.

Definition sample_now : datetime := mkdatetime sample_today 10 20 30 0.

Definition sample_pump : FailureMode.t :=
  FailureMode.mk "Pump" "Seal failure" "Wear" "Leak" 9 8 7
                 (Some "Inspect monthly") None None 0.

Definition sample_valve : FailureMode.t :=
  FailureMode.mk "Valve" "Stuck" "Corrosion" "No flow" 5 5 4 None None None 1.

Definition sample_project : AMDECProject :=
  mkProject "REF-001" "Station" [sample_valve; sample_pump].

(** What the score parser reads in a cell: the text of the cell taken as
    a float and truncated to an integer, text that is no number (or is
    NaN), or an infinite float. *)
Inductive reading :=
| Whole (n : Z)
| Unreadable
| Infinite.

Definition reading_of (value : value) : reading :=
  match float_of_string (str value) with
  | None => Unreadable
  | Some f =>
      match f with
      | S754_nan => Unreadable
      | S754_infinity _ => Infinite
      | S754_zero _ => Whole 0
      | S754_finite s m e => Whole (if s then - Z.shiftl (Zpos m) e else Z.shiftl (Zpos m) e)
      end
  end.

(** The float 10.5, as a numeric cell holds it. *)
Definition ten_and_a_half : spec_float := S754_finite false 5910974510923776 (-49).

(** The attributes after [self.warnings.append(w)] and after
    [self.errors.append(e)]. *)
Definition with_warning (self : ExcelImporter.t) (w : message) : ExcelImporter.t :=
  ExcelImporter.mk (ExcelImporter.errors self) (ExcelImporter.warnings self ++ [w])%list
                   (ExcelImporter.imported_count self).

Definition with_error (self : ExcelImporter.t) (e : message) : ExcelImporter.t :=
  ExcelImporter.mk (ExcelImporter.errors self ++ [e])%list (ExcelImporter.warnings self)
                   (ExcelImporter.imported_count self).

(** A score as the importer must leave it: an integer from 1 to 10. *)
Definition valid_score (v : value) : Prop :=
  exists n, v = VInt n /\ 1 <= n <= 10.

Definition scores_valid (failure : dict value) : Prop :=
  forall field v,
    ExcelImporter.is_score_field field = true ->
    dict_get field failure = Some v -> valid_score v.

Definition sample_header : list value :=
  [ VStr "Composant"; VStr "Mode de Défaillance"; VStr "Cause Potentielle"; VStr "Effet";
    VStr "Gravité (G)"; VStr "Occurrence (O)"; VStr "Détection (D)";
    VStr "Actions Préventives" ].

(** A sheet with metadata, the header, two complete rows with scores out
    of range or unreadable, one row without component, and a summary. *)
Definition sample_sheet : worksheet :=
  [ [VStr "Système"; VStr "Station de pompage"];
    [VStr "Client"; VStr "ACME"];
    [VNone; VNone];
    sample_header;
    [VStr "Pump"; VStr "Seal failure"; VStr "Wear"; VStr "Leak";
     VInt 9; VInt 8; VInt 7; VStr "Inspect monthly"];
    [VNone; VStr "Stuck"; VNone; VNone; VInt 3; VInt 3; VInt 3; VNone];
    [VStr "Valve"; VStr "Stuck"; VNone; VNone; VInt 15; VStr "abc"; VFloat ten_and_a_half; VNone];
    [VStr "Total"; VInt 2] ].

Definition sample_workbook : workbook := [("Analyse AMDEC", sample_sheet)].

(** The record the importer builds from the "Valve" row of the sample. *)
Definition sample_parsed_valve : dict value :=
  [ ("order", VInt 1); ("component", VStr "Valve"); ("failure_mode", VStr "Stuck");
    ("potential_cause", VStr ""); ("effect", VStr ""); ("gravity", VInt 10);
    ("occurrence", VInt 5); ("detection", VInt 10); ("preventive_actions", VStr "") ].

(** A cell that holds a date with a time of day. *)
Definition sample_datetime : datetime := mkdatetime (mkdate 2020 1 1) 0 0 0 0.

(** No format of the list reads the text. *)
Definition no_format_reads (text : string) (formats : list (list directive)) : Prop :=
  Forall (fun fmt => strptime (strip text) fmt = None) formats.

(** A reading of the clock: a year of four digits and fields in range. *)
Definition valid_clock (now : datetime) : bool :=
  (1000 <=? year (dt_date now)) && (year (dt_date now) <=? 9999)
  && (1 <=? month (dt_date now)) && (month (dt_date now) <=? 12)
  && (1 <=? day (dt_date now)) && (day (dt_date now) <=? 31)
  && (0 <=? hour now) && (hour now <=? 23)
  && (0 <=? minute now) && (minute now <=? 59)
  && (0 <=? second now) && (second now <=? 59).


Fixpoint string_forall (p : ascii -> bool) (s : string) : bool :=
  match s with
  | EmptyString => true
  | String c r => p c && string_forall p r
  end.

(** The whole text is one or more characters of [[A-Z0-9_-]]. *)
Definition reference_text (s : string) : bool :=
  str_nonempty s && string_forall Validators.reference_char s.

Fixpoint last_char (s : string) : option ascii :=
  match s with
  | EmptyString => None
  | String c EmptyString => Some c
  | String _ r => last_char r
  end.

(** The integers [lo], [lo + 1], .. ([count] of them). *)
Definition Zrange (lo : Z) (count : nat) : list Z :=
  map (fun i => lo + Z.of_nat i) (seq 0 count).

(** The field a row of the metadata block speaks of: the field of the
    first keyword, in the order of [METADATA_KEYWORDS], that the lower-cased
    first cell holds. *)
Fixpoint keyword_field (keywords : dict string) (first_cell : string) : option string :=
  match keywords with
  | [] => None
  | (keyword, field) :: rest =>
      if contains keyword first_cell then Some field else keyword_field rest first_cell
  end.

Definition row_field (row : list value) : option string :=
  match row with
  | c0 :: _ =>
      if truthy c0
      then keyword_field ExcelImporter.METADATA_KEYWORDS (strip (lower (str c0)))
      else None
  | [] => None
  end.

(** The raw value a row gives: the stripped text of its second cell, when
    that cell is not empty. *)
Definition row_value (row : list value) : option string :=
  match row with
  | _ :: v1 :: _ => if truthy v1 then Some (strip (str v1)) else None
  | _ => None
  end.


(** What is stored for a raw value: the date it reads as (today's when it
    reads as none) for the analysis date, the text itself otherwise. *)
Definition stored (today : date) (field text : string) : value :=
  if String.eqb field "analysis_date" then
    VDate (match ExcelImporter.try_formats text ExcelImporter.DATE_FORMATS with
           | Some d => d
           | None => today
           end)
  else VStr text.

(** The effect of one row of the metadata block on the dictionary. *)
Definition apply_row (today : date) (metadata : dict value) (row : list value) : dict value :=
  match row_field row, row_value row with
  | Some field, Some text => dict_set field (stored today field text) metadata
  | _, _ => metadata
  end.

(** Two rows that both name the client. *)
Definition sample_two_clients : worksheet :=
  [ [VStr "Client"; VStr "ACME"];
    [VStr "Date"; VStr "31/12/2025"];
    [VStr "Client :"; VStr "Other"] ].


(** The text the importer keeps for a text field of a row: the cleaned
    cell of its column (empty for an empty cell); nothing when the field
    has no column or the row stops before it. *)
Definition field_text (column_indices : dict nat) (field : string) (row : list value)
  : option string :=
  match dict_get field column_indices with
  | Some col_idx =>
      match nth_error row col_idx with
      | Some v => Some (if truthy v then ExcelImporter._clean_text v else "")
      | None => None
      end
  | None => None
  end.




(** The row numbers that the incomplete-row warnings of a list name. *)
Fixpoint incomplete_warnings (msgs : list message) : list nat :=
  match msgs with
  | [] => []
  | IncompleteRow row_idx :: rest => row_idx :: incomplete_warnings rest
  | _ :: rest => incomplete_warnings rest
  end.


(** A parsed failure has its three scores. *)
Definition has_scores (failure : dict value) : bool :=
  match dict_get "gravity" failure, dict_get "occurrence" failure,
        dict_get "detection" failure with
  | Some _, Some _, Some _ => true
  | _, _, _ => false
  end.

(** The checks of [validate_data] on one failure. *)
Definition score_checks (field : string) (failure : dict value) : bool :=
  match dict_get field failure with
  | Some (VInt n) => (1 <=? n) && (n <=? 10)
  | Some (VBool b) => b
  | _ => false
  end.

Definition failure_checks (failure : dict value) : bool :=
  get_truthy "component" failure && get_truthy "failure_mode" failure
  && score_checks "gravity" failure && score_checks "occurrence" failure
  && score_checks "detection" failure.

(** The attributes after some errors are appended. *)
Definition with_errors (self : ExcelImporter.t) (added : list message) : ExcelImporter.t :=
  ExcelImporter.mk (ExcelImporter.errors self ++ added)%list (ExcelImporter.warnings self)
                   (ExcelImporter.imported_count self).

(** A sheet without a system name: the header, a complete row, and a row
    without component. *)
Definition sample_unnamed_sheet : worksheet :=
  [ sample_header;
    [VStr "Pump"; VStr "Seal failure"; VStr "Wear"; VStr "Leak";
     VInt 9; VInt 8; VInt 7; VStr "Inspect monthly"];
    [VNone; VStr "Stuck"; VNone; VNone; VInt 3; VInt 3; VInt 3; VNone] ].




Definition some_failure (failures : list (dict value)) : bool :=
  match failures with
  | [] => false
  | _ :: _ => true
  end.


(** The title cell of the failure sheet. *)
Definition sheet_title (project : AMDECProject) : string :=
  reference project ++ " - " ++ name project ++ LF ++ "ANALYSE DES MODES DE DÉFAILLANCE".



(** The (component, failure_mode, gravity, occurrence, detection) of a
    parsed failure and of a failure record. *)
Definition parsed_tuple (failure : dict value)
  : option value * option value * option value * option value * option value :=
  (dict_get "component" failure, dict_get "failure_mode" failure,
   dict_get "gravity" failure, dict_get "occurrence" failure,
   dict_get "detection" failure).



From Stdlib Require Import Sorted.

(** * Further vocabulary *)

(** What [s.replace(',', '.')] does to one character. *)
Definition comma_to_dot (c : ascii) : ascii :=
  if Ascii.eqb c "," then "."%char else c.

(** A word of [s.split()]: not empty, no white space. *)
Definition is_word (w : string) : bool :=
  str_nonempty w && string_forall (fun c => negb (isspace c)) w.

(** The reference that [_extract_metadata] starts from. *)
Definition default_reference (now : datetime) : string :=
  "AMDEC-" ++ strftime now [DY; Dm; Dd; DLit "-"; DH; DM].

(** The metadata an import returns: the six keys in this order, a date
    for the analysis date and text for the others. *)
Definition metadata_shape (metadata : dict value) : Prop :=
  exists system_name analysis_date team_members objective client reference,
    metadata = [ ("system_name", VStr system_name);
                 ("analysis_date", VDate analysis_date);
                 ("team_members", VStr team_members);
                 ("objective", VStr objective);
                 ("client", VStr client);
                 ("reference", VStr reference) ].

(** The criticality of a parsed failure that has its three scores. *)
Definition parsed_criticality (failure : dict value) : option Z :=
  match ExcelImporter.score_at "gravity" failure, ExcelImporter.score_at "occurrence" failure,
        ExcelImporter.score_at "detection" failure with
  | Some g, Some o, Some d => Some (g * o * d)
  | _, _, _ => None
  end.

Definition at_level (level : string) (failure : dict value) : bool :=
  match parsed_criticality failure with
  | Some c => String.eqb (Validators.get_criticality_level c) level
  | None => false
  end.

(** How many parsed failures are at a level of criticality. *)
Definition level_count (level : string) (failures : list (dict value)) : Z :=
  Z.of_nat (List.length (filter (at_level level) failures)).






(** A text to look for: not empty, no white space in it. *)
Definition solid (needle : string) : bool :=
  str_nonempty needle && string_forall (fun c => negb (isspace c)) needle.

(** The sample sheet down to its last data row, its summary line, and a
    row that could follow it. *)
Definition sample_top : worksheet := firstn 7 sample_sheet.

Definition sample_summary_row : list value := [VStr "Total"; VInt 2].

Definition sample_late_row : list value :=
  [ VStr "Motor"; VStr "Overheating"; VNone; VNone; VInt 2; VInt 2; VInt 2; VNone ].

(** The data that [validate_data] accepts: the system name is set, there
    is a failure, and every failure passes the checks. *)
Definition data_valid (data : ExcelImporter.data) : bool :=
  get_truthy "system_name" (ExcelImporter.metadata data)
  && some_failure (ExcelImporter.failures data)
  && forallb failure_checks (ExcelImporter.failures data).

(** * More of the program *)

(** ** models.py: the counts of a project, the colour and the checks of
    a failure *)

Module Models.

(** [FailureMode.criticality_color] *)
Definition criticality_color (self : FailureMode.t) : string :=
  let level := FailureMode.criticality_level self in
  let colors : dict string :=
    [ ("FAIBLE", "#27ae60"); ("MODÉRÉE", "#f39c12"); ("ÉLEVÉE", "#e74c3c") ] in
  match dict_get level colors with
  | Some color => color
  | None => "#95a5a6"
  end.

(** [FailureMode.is_critical] *)
Definition is_critical (self : FailureMode.t) : bool :=
  120 <? FailureMode.criticality self.

(** The [ValidationError] of [FailureMode.clean]: it names one field and
    the value it holds. *)
Inductive clean_error :=
| ScoreOutOfRange (field : string) (value : Z).
      (* {field: La valeur doit être comprise entre 1 et 10 (valeur actuelle: {value})} *)

(** The [for field, value in [..]] loop of [FailureMode.clean]; the three
    scores are integers, so [value is not None] holds. *)
Fixpoint clean_fields (fields : list (string * Z)) : result clean_error unit :=
  match fields with
  | [] => Ok tt
  | (field, value) :: rest =>
      if negb ((1 <=? value) && (value <=? 10))
      then Raise (ScoreOutOfRange field value)
      else clean_fields rest
  end.

Definition clean (self : FailureMode.t) : result clean_error unit :=
  clean_fields [ ("gravity", FailureMode.gravity self);
                 ("occurrence", FailureMode.occurrence self);
                 ("detection", FailureMode.detection self) ].

(** [AMDECProject.total_failures]: [self.failures.count()] *)
Definition total_failures (self : AMDECProject) : Z :=
  Z.of_nat (List.length (failures self)).

(** [AMDECProject.high_criticality_count]: a query that keeps the rows
    with the three scores at 1 or more, then the rows where no score is
    null (every row: the columns are not nullable), computes the product
    and counts the rows where it is above 120. *)
Definition high_criticality_count (self : AMDECProject) : Z :=
  let rows :=
    filter (fun f => (1 <=? FailureMode.gravity f) && (1 <=? FailureMode.occurrence f)
                     && (1 <=? FailureMode.detection f))
           (failures self) in
  let rows :=
    map (fun f => (f, FailureMode.gravity f * FailureMode.occurrence f * FailureMode.detection f))
        rows in
  Z.of_nat (List.length (filter (fun '(_, crit) => 120 <? crit) rows)).

(** [AMDECProject.medium_criticality_count] *)
Definition medium_criticality_count (self : AMDECProject) : Z :=
  Z.of_nat (List.length
              (filter (fun f => (61 <=? FailureMode.criticality f)
                                && (FailureMode.criticality f <=? 120))
                      (failures self))).

(** [AMDECProject.low_criticality_count] *)
Definition low_criticality_count (self : AMDECProject) : Z :=
  Z.of_nat (List.length (filter (fun f => FailureMode.criticality f <=? 60) (failures self))).

End Models.

(** ** validators.py: colours, files, workbooks and dates *)

Module MoreValidators.

Definition get_criticality_color (criticality : Z) : string :=
  let level := Validators.get_criticality_level criticality in
  let colors : dict string :=
    [ ("FAIBLE", "#27ae60"); ("MODÉRÉE", "#f39c12"); ("ÉLEVÉE", "#e74c3c") ] in
  match dict_get level colors with
  | Some color => color
  | None => "#95a5a6"
  end.

(** *** [validate_excel_file] *)

(** [s.endswith(suffix)] *)
Definition endswith (suffix s : string) : bool :=
  (String.length suffix <=? String.length s)%nat
  && String.eqb (substring (String.length s - String.length suffix)
                           (String.length suffix) s)
                suffix.

(** A file object as [validate_excel_file] uses it: the attributes [name]
    and [size], which not every file object has, the bytes it holds and
    the position of the next read. *)
Record upload := mkUpload
  { upload_name : option string;
    upload_size : option Z;
    content : string;
    position : nat }.

(** [file.read(n)] *)
Definition read (n : nat) (file : upload) : string * upload :=
  let chunk := substring (position file) n (content file) in
  (chunk, mkUpload (upload_name file) (upload_size file) (content file)
                   (position file + String.length chunk)).

(** [file.seek(0)] *)
Definition rewind (file : upload) : upload :=
  mkUpload (upload_name file) (upload_size file) (content file) 0.

Inductive file_message :=
| NameMissing                         (* Fichier invalide: nom de fichier manquant *)
| UnsupportedFormat (name : string)   (* Format non supporté: '{file.name}' ... *)
| TooLarge (size : Z)                 (* Fichier trop volumineux: {size_mb:.1f}MB ... *)
| NotExcel (file_type : string).      (* Le fichier ne semble pas être un vrai fichier Excel ... *)

(** What leaves the function or its [try] block: a [ValidationError], the
    [AttributeError] of a missing attribute, or an exception of the
    [magic] library. *)
Inductive file_exn :=
| FileValidationError (m : file_message)
| AttributeError
| MagicError.

Definition VALID_TYPES : list string :=
  [ "application/vnd.ms-excel";
    "application/vnd.openxmlformats-officedocument.spreadsheetml.sheet";
    "application/octet-stream" ].

(** The body of the [try] block: [from_buffer] is [magic.from_buffer(..,
    mime=True)], [None] when it raises. *)
Definition check_content (from_buffer : string -> option string) (file : upload)
  : result file_exn unit * upload :=
  let '(head, file) := read 1024 file in
  match from_buffer head with
  | None => (Raise MagicError, file)
  | Some file_type =>
      let file := rewind file in
      if negb (existsb (String.eqb file_type) VALID_TYPES)
      then (Raise (FileValidationError (NotExcel file_type)), file)
      else (Ok tt, file)
  end.

(** [validate_excel_file]: the file as the call leaves it, or the
    exception.  The [except Exception] of the content check catches
    whatever the [try] block raises, its own [ValidationError] too. *)
Definition validate_excel_file (from_buffer : string -> option string) (file : upload)
  : result file_exn upload :=
  match upload_name file with
  | None => Raise (FileValidationError NameMissing)
  | Some name =>
      if negb (endswith ".xlsx" name || endswith ".xls" name)
      then Raise (FileValidationError (UnsupportedFormat name))
      else
        match upload_size file with
        | None => Raise AttributeError
        | Some size =>
            if 10 * 1024 * 1024 <? size
            then Raise (FileValidationError (TooLarge size))
            else
              match check_content from_buffer file with
              | (Ok _, file) => Ok file
              | (Raise _, file) => Ok file
              end
        end
  end.

(** *** [validate_excel_structure] *)

Inductive structure_warning :=
| NoAnalysisSheet (first : string)    (* Aucune feuille 'Analyse AMDEC' trouvée, utilisation de '{..}' *)
| ColumnsNotFound.                    (* Structure de colonnes AMDEC non trouvée. ... *)

Inductive structure_message :=
| NoSheet.                            (* Le fichier Excel ne contient aucune feuille *)

(** The dictionary that [validate_excel_structure] returns. *)
Record structure := mkStructure
  { has_analysis_sheet : bool;
    has_required_columns : bool;
    found_sheets : list string;
    found_columns : list string;
    warnings : list structure_warning }.

Definition ANALYSIS_SHEETS : list string :=
  [ "Analyse AMDEC"; "AMDEC"; "Analysis"; "Analyse" ].

Definition REQUIRED_COLUMNS : list string :=
  [ "Composant"; "Mode"; "Défaillance"; "Cause"; "Effet";
    "Gravité"; "Occurrence"; "Détection" ].

(** The [for sheet_name in wb.sheetnames] loop: the first sheet whose
    name holds one of the keywords. *)
Fixpoint find_analysis_sheet (wb : workbook) : option worksheet :=
  match wb with
  | [] => None
  | (sheet_name, ws) :: rest =>
      if existsb (fun keyword => contains keyword sheet_name) ANALYSIS_SHEETS
      then Some ws
      else find_analysis_sheet rest
  end.

(** The loop over the rows: the required columns that the first row with
    five of them or more names. *)
Fixpoint find_columns (rows : list (list value)) : option (list string) :=
  match rows with
  | [] => None
  | row :: rest =>
      match row with
      | [] => find_columns rest
      | _ =>
          let row_text := join " " (map str (filter truthy row)) in
          let found_cols :=
            filter (fun col => contains (lower col) (lower row_text)) REQUIRED_COLUMNS in
          if (5 <=? List.length found_cols)%nat then Some found_cols
          else find_columns rest
      end
  end.

Definition validate_excel_structure (wb : workbook) : result structure_message structure :=
  match wb with
  | [] => Raise NoSheet
  | (first, first_sheet) :: _ =>
      let found_sheets := map fst wb in
      let '(analysis_sheet, has_analysis_sheet, warnings) :=
        match find_analysis_sheet wb with
        | Some ws => (ws, true, [])
        | None => (first_sheet, false, [NoAnalysisSheet first])
        end in
      match find_columns (firstn 20 analysis_sheet) with
      | Some found_cols =>
          Ok (mkStructure has_analysis_sheet true found_sheets found_cols warnings)
      | None =>
          Ok (mkStructure has_analysis_sheet false found_sheets []
                          (warnings ++ [ColumnsNotFound])%list)
      end
  end.

(** *** [parse_date_fr] *)

(** The pieces of the formats of [parse_date_fr]: the directives of
    [DATE_FORMATS] and literal characters, [%y], [%B], [%b], and white
    space, which [strptime] reads as one or more white-space
    characters. *)
Inductive token :=
| Plain (d : directive)
| Dy
| DB
| Db
| DSpace.

(** The month names of the C locale, in the order the regular expression
    of [%B] and [%b] lists them: longest first. *)
Definition MONTH_NAMES : list (string * Z) :=
  [ ("september", 9); ("february", 2); ("november", 11); ("december", 12);
    ("january", 1); ("october", 10); ("august", 8); ("march", 3); ("april", 4);
    ("june", 6); ("july", 7); ("may", 5) ].

Definition MONTH_ABBREVIATIONS : list (string * Z) :=
  [ ("jan", 1); ("feb", 2); ("mar", 3); ("apr", 4); ("may", 5); ("jun", 6);
    ("jul", 7); ("aug", 8); ("sep", 9); ("oct", 10); ("nov", 11); ("dec", 12) ].

Definition lower_char (c : ascii) : ascii :=
  if in_range 65 90 c then chr (code c + 32) else c.

(** [name] read at the head of [s] without regard to case: the rest. *)
Fixpoint read_name (name s : string) : option string :=
  match name with
  | EmptyString => Some s
  | String n name' =>
      match s with
      | String c s' => if Ascii.eqb (lower_char c) n then read_name name' s' else None
      | EmptyString => None
      end
  end.

(** What [\s+] can match at the head of [s], longest first: the rests. *)
Fixpoint space_alternatives (s : string) : list string :=
  match s with
  | String c r => if isspace c then (space_alternatives r ++ [r])%list else []
  | EmptyString => []
  end.

Definition set_month (m : Z) (acc : date) : date := mkdate (year acc) m (day acc).

(** [%y]: 00 to 68 are the years 2000 to 2068, 69 to 99 the years 1969 to
    1999. *)
Definition set_short_year (n : Z) (acc : date) : date :=
  mkdate (if n <=? 68 then 2000 + n else 1900 + n) (month acc) (day acc).

(** What one token can match at the head of [s], in the order of the
    regular expression: the field it sets and the rest of the text. *)
Definition token_alternatives (t : token) (s : string) : list ((date -> date) * string) :=
  match t with
  | Plain d => map (fun '(v, r) => (set_field d v, r)) (alternatives d s)
  | Dy =>
      match s with
      | String a (String b r) =>
          if is_digit a && is_digit b
          then [(set_short_year (10 * digit_val a + digit_val b), r)] else []
      | _ => []
      end
  | DB =>
      flat_map (fun '(name, m) =>
                  match read_name name s with
                  | Some r => [(set_month m, r)]
                  | None => []
                  end) MONTH_NAMES
  | Db =>
      flat_map (fun '(name, m) =>
                  match read_name name s with
                  | Some r => [(set_month m, r)]
                  | None => []
                  end) MONTH_ABBREVIATIONS
  | DSpace => map (fun r => (fun acc : date => acc, r)) (space_alternatives s)
  end.

Fixpoint match_tokens (fmt : list token) (acc : date) (s : string) : option (date * string) :=
  match fmt with
  | [] => Some (acc, s)
  | t :: fmt' =>
      first_some (fun '(set, r) => match_tokens fmt' (set acc) r) (token_alternatives t s)
  end.

(** [datetime.strptime(s, fmt).date()] for these formats; [None] is
    [ValueError]. *)
Definition strptime_tokens (s : string) (fmt : list token) : option date :=
  match match_tokens fmt (mkdate 1900 1 1) s with
  | Some (d, EmptyString) =>
      if valid_date (year d) (month d) (day d) then Some d else None
  | _ => None
  end.

Definition numeric (fmt : list directive) : list token := map Plain fmt.

(** The formats of [parse_date_fr], in the order they are tried. *)
Definition FORMATS : list (list token) :=
  [ numeric [Dd; DLit "/"; Dm; DLit "/"; DY];
    numeric [Dd; DLit "-"; Dm; DLit "-"; DY];
    numeric [Dd; DLit "."; Dm; DLit "."; DY];
    numeric [DY; DLit "-"; Dm; DLit "-"; Dd];
    numeric [DY; DLit "/"; Dm; DLit "/"; Dd];
    [Plain Dd; Plain (DLit "/"); Plain Dm; Plain (DLit "/"); Dy];
    [Plain Dd; Plain (DLit "-"); Plain Dm; Plain (DLit "-"); Dy];
    [Plain Dd; DSpace; DB; DSpace; Plain DY];
    [Plain Dd; DSpace; Db; DSpace; Plain DY];
    [DB; DSpace; Plain Dd; Plain (DLit ","); DSpace; Plain DY];
    [Db; DSpace; Plain Dd; Plain (DLit ","); DSpace; Plain DY] ].

(** The dictionary literal [french_months]: a key written twice keeps its
    first place and its last value. *)
Definition french_months : dict string :=
  fold_left (fun d '(k, v) => dict_set k v d)
    [ ("janvier", "January"); ("février", "February"); ("mars", "March");
      ("avril", "April"); ("mai", "May"); ("juin", "June");
      ("juillet", "July"); ("août", "August"); ("septembre", "September");
      ("octobre", "October"); ("novembre", "November"); ("décembre", "December");
      ("janv", "Jan"); ("févr", "Feb"); ("mars", "Mar");
      ("avr", "Apr"); ("mai", "May"); ("juin", "Jun");
      ("juil", "Jul"); ("août", "Aug"); ("sept", "Sep");
      ("oct", "Oct"); ("nov", "Nov"); ("déc", "Dec") ]
    [].

(** The [for fr_month, en_month in french_months.items()] loop. *)
Definition anglicise (date_string : string) : string :=
  fold_left (fun s '(fr_month, en_month) => replace fr_month en_month s)
            french_months date_string.

Inductive date_message :=
| DateMissing                          (* Date manquante *)
| DateEmpty                            (* Date vide *)
| DateNotRecognised (date_string : string).
                                       (* Format de date non reconnu: '{date_string}' ... *)

(** The [for fmt in formats] loop: each format is tried on the text, then
    on the text with the French month names replaced. *)
Fixpoint try_formats (date_string date_string_en : string) (formats : list (list token))
  : option date :=
  match formats with
  | [] => None
  | fmt :: rest =>
      match strptime_tokens date_string fmt with
      | Some d => Some d
      | None =>
          match strptime_tokens date_string_en fmt with
          | Some d => Some d
          | None => try_formats date_string date_string_en rest
          end
      end
  end.

(** [parse_date_fr].  A [datetime] is a [date] for [isinstance], so it
    comes back as it is. *)
Definition parse_date_fr (date_string : value) : result date_message value :=
  match date_string with
  | VDate _ | VDatetime _ => Ok date_string
  | VNone => Raise DateMissing
  | _ =>
      let date_string := strip (str date_string) in
      if negb (str_nonempty date_string) then Raise DateEmpty
      else
        let date_string_en := anglicise date_string in
        match try_formats date_string date_string_en FORMATS with
        | Some d => Ok (VDate d)
        | None => Raise (DateNotRecognised date_string)
        end
  end.

End MoreValidators.

(** * Vocabulary for the rest of the program *)

(** A file that passes the checks of [validate_excel_file] on its name
    and its size. *)
Definition name_and_size_accepted (file : MoreValidators.upload) : Prop :=
  exists name size,
    MoreValidators.upload_name file = Some name
    /\ (MoreValidators.endswith ".xlsx" name || MoreValidators.endswith ".xls" name) = true
    /\ MoreValidators.upload_size file = Some size
    /\ size <= 10485760.

(** A text file under an Excel name, and a detector that sees it as
    text. *)
Definition sample_text_upload : MoreValidators.upload :=
  MoreValidators.mkUpload (Some "notes.xlsx") (Some 11) "hello world" 0.

Definition sample_detector (head : string) : option string := Some "text/plain".

(** A file object as [open] gives it: it has a name and no size. *)
Definition sample_opened_file : MoreValidators.upload :=
  MoreValidators.mkUpload (Some "/data/pump.xlsx") None "PK" 0.

(** A project with a score below 1. *)
Definition sample_negative_project : AMDECProject :=
  mkProject "REF-003" "Station"
    [FailureMode.mk "Pump" "Seal failure" "Wear" "Leak" (-5) (-5) 5 None None None 0].

(** The characters of a date written with numbers: digits and blanks, and
    the separators of the formats. *)
Definition digit_or_blank (c : ascii) : bool := is_digit c || Ascii.eqb c " ".

Definition is_separator (c : ascii) : bool :=
  Ascii.eqb c "/" || Ascii.eqb c "-" || Ascii.eqb c ".".

Definition date_text_char (c : ascii) : bool := digit_or_blank c || is_separator c.

(** The first character of a text that is neither a digit nor a blank,
    and how many characters come before it. *)
Fixpoint first_sep (s : string) : option (nat * ascii) :=
  match s with
  | EmptyString => None
  | String a r =>
      if digit_or_blank a
      then match first_sep r with
           | Some (i, c) => Some (S i, c)
           | None => None
           end
      else Some (O, a)
  end.

(** A directive of the numeric formats. *)
Definition numeric_directive (d : directive) : bool :=
  match d with
  | DY | Dm | Dd => true
  | DLit c => is_separator c
  | _ => false
  end.

(** ** excel_handler.py: [ExcelImporter.create_project] *)

Module Creation.

(** [d.get(k, default)] *)
Definition get (k : string) (default : value) (d : dict value) : value :=
  match dict_get k d with
  | Some v => v
  | None => default
  end.

(** The keyword arguments of [AMDECProject.objects.create]; the user is
    known by name. *)
Record project_fields := mkProjectFields
  { name : value;
    reference : value;
    client : value;
    analysis_date : value;
    team_members : value;
    objective : value;
    description : string;
    created_by : string;
    modified_by : string }.

(** The keyword arguments of [FailureMode.objects.create], the project
    apart. *)
Record failure_fields := mkFailureFields
  { component : value;
    failure_mode : value;
    potential_cause : value;
    effect : value;
    gravity : value;
    occurrence : value;
    detection : value;
    preventive_actions : value;
    order : value;
    status : string }.

(** The database as [create_project] uses it: a state, the model object
    that creating a project gives, and the two [objects.create] calls,
    each of which gives the next state or raises; of an exception only
    the text [str(e)] is kept. *)
Record orm := mkOrm
  { database : Type;
    project : Type;
    create_project_row : project_fields -> database -> result string (project * database);
    create_failure_row : project -> failure_fields -> database -> result string database }.

(** The [ValidationError]s of [create_project], and an exception that
    comes out of [validate_data]. *)
Inductive create_error :=
| DataInvalid (errors : list message)   (* Données invalides: {'; '.join(self.errors)} *)
| CreationFailed (e : string)           (* Erreur lors de la création: {str(e)} *)
| Escaped (e : exn).

Definition project_row (now : datetime) (today : date) (metadata : dict value) (user : string)
  : project_fields :=
  mkProjectFields
    (get "system_name" (VStr "Projet importé") metadata)
    (get "reference" VNone metadata)
    (get "client" (VStr "Non spécifié") metadata)
    (get "analysis_date" (VDate today) metadata)
    (get "team_members" (VStr "") metadata)
    (get "objective" (VStr "") metadata)
    ("Importé depuis Excel le " ++ strftime now [Dd; DLit "/"; Dm; DLit "/"; DY]
     ++ " à " ++ strftime now [DH; DLit ":"; DM])
    user user.

Definition failure_row (failure_data : dict value) : failure_fields :=
  mkFailureFields
    (get "component" (VStr "") failure_data)
    (get "failure_mode" (VStr "") failure_data)
    (get "potential_cause" (VStr "") failure_data)
    (get "effect" (VStr "") failure_data)
    (get "gravity" (VInt 5) failure_data)
    (get "occurrence" (VInt 5) failure_data)
    (get "detection" (VInt 5) failure_data)
    (get "preventive_actions" (VStr "") failure_data)
    (get "order" (VInt 0) failure_data)
    "PENDING".

(** [self.imported_count += 1] *)
Definition count_one (self : ExcelImporter.t) : ExcelImporter.t :=
  ExcelImporter.mk (ExcelImporter.errors self) (ExcelImporter.warnings self)
                   (ExcelImporter.imported_count self + 1).

(** The [for failure_data in failures] loop: the importer and the
    database as the loop leaves them, also when a row raises. *)
Fixpoint create_failures (O : orm) (p : project O) (failures : list (dict value))
  (self : ExcelImporter.t) (db : database O)
  : result string unit * ExcelImporter.t * database O :=
  match failures with
  | [] => (Ok tt, self, db)
  | failure_data :: rest =>
      match create_failure_row O p (failure_row failure_data) db with
      | Ok db => create_failures O p rest (count_one self) db
      | Raise e => (Raise e, self, db)
      end
  end.

(** [create_project]: what it returns or raises, and the importer and the
    database as it leaves them.  [transaction.atomic] undoes the writes
    of a call that raises; the attributes of the importer are not
    undone. *)
Definition create_project (O : orm) (now : datetime) (today : date)
  (data : ExcelImporter.data) (user : string) (self : ExcelImporter.t) (db : database O)
  : result create_error (project O) * ExcelImporter.t * database O :=
  match ExcelImporter.validate_data data self with
  | Raise e => (Raise (Escaped e), self, db)
  | Ok (valid, self) =>
      if negb valid then (Raise (DataInvalid (ExcelImporter.errors self)), self, db)
      else
        let metadata := ExcelImporter.metadata data in
        let failures := ExcelImporter.failures data in
        match create_project_row O (project_row now today metadata user) db with
        | Raise e => (Raise (CreationFailed e), self, db)
        | Ok (p, db1) =>
            match create_failures O p failures self db1 with
            | (Ok _, self, db2) => (Ok p, self, db2)
            | (Raise e, self, _) => (Raise (CreationFailed e), self, db)
            end
        end
  end.

End Creation.

(** ** management/commands/import_amdec.py

    What the command prints is left out; the clock and the files do not
    change while it runs. *)

Module Command.

(** A [Path]: [str(filepath)] and [filepath.name]. *)
Record path := mkPath
  { full : string;
    base : string }.

(** The options that the processing of a file reads ([verbose] only adds
    output). *)
Record options := mkOptions
  { skip_validation : bool;
    client : option string;
    dry_run : bool;
    batch : bool;
    max_errors : Z }.

(** What the command runs in: the database, [open(path, 'rb')] as the
    bytes of the file or the text of its [OSError], [load_workbook] on
    these bytes, and [magic.from_buffer]. *)
Record environment := mkEnvironment
  { orm : Creation.orm;
    open_file : string -> result string string;
    load_workbook : string -> result string workbook;
    from_buffer : string -> option string }.

(** The exception that makes a file fail. *)
Inductive cause :=
| OpenFailed (e : string)                        (* the OSError of open *)
| ValidationFailed (e : MoreValidators.file_exn) (* CommandError: Validation échouée: {e} *)
| FileInvalid (e : string)                       (* ValidationError: Fichier Excel invalide: {e} *)
| ParseFailed (e : exn)                          (* an exception of the parse *)
| NotCreated (e : Creation.create_error).        (* the ValidationError of create_project *)

Inductive command_error :=
| ImportFailed (name : string) (e : cause).      (* CommandError: Import échoué pour {filepath.name}: {e} *)

(** An entry of [stats['errors']]. *)
Inductive error_entry :=
| FileError (name : string) (e : cause)          (* {filepath.name}: {e} *)
| LoopError (e : command_error).                 (* str(e), appended by handle *)

Record stats := mkStats
  { files_processed : Z;
    files_success : Z;
    files_failed : Z;
    projects_created : Z;
    failures_imported : Z;
    warnings : list message;
    errors : list error_entry }.

(** [__init__] *)
Definition no_stats : stats := mkStats 0 0 0 0 0 [] [].

(** The file object that [open(filepath, 'rb')] gives: its [name] is the
    path, and it has no [size]. *)
Definition opened (filepath : path) (bytes : string) : MoreValidators.upload :=
  MoreValidators.mkUpload (Some (full filepath)) None bytes 0.

(** What a file that did not fail gives. *)
Inductive imported :=
| DryRun
| Created (imported_count : Z) (warnings : list message).

(** The first [with open(..)] block of [_process_file]. *)
Definition validate (E : environment) (opts : options) (filepath : path)
  : result cause unit :=
  if negb (skip_validation opts) then
    match open_file E (full filepath) with
    | Raise e => Raise (OpenFailed e)
    | Ok bytes =>
        match MoreValidators.validate_excel_file (from_buffer E) (opened filepath bytes) with
        | Ok _ => Ok tt
        | Raise e => Raise (ValidationFailed e)
        end
    end
  else Ok tt.

(** [data['metadata']['client'] = options['client']] when the option is
    set *)
Definition force_client (opts : options) (data : ExcelImporter.data) : ExcelImporter.data :=
  match client opts with
  | Some c =>
      if str_nonempty c
      then ExcelImporter.mkData (dict_set "client" (VStr c) (ExcelImporter.metadata data))
                                (ExcelImporter.failures data) (ExcelImporter.summary data)
      else data
  | None => data
  end.

(** The body of the [try] of [_process_file]: what the file gives, or the
    exception that ends it, and the database after it. *)
Definition attempt (E : environment) (now : datetime) (today : date) (user : string)
  (opts : options) (filepath : path) (db : Creation.database (orm E))
  : result cause imported * Creation.database (orm E) :=
  match validate E opts filepath with
  | Raise e => (Raise e, db)
  | Ok _ =>
      let importer := ExcelImporter.init in
      match open_file E (full filepath) with
      | Raise e => (Raise (OpenFailed e), db)
      | Ok bytes =>
          match load_workbook E bytes with
          | Raise e => (Raise (FileInvalid e), db)
          | Ok wb =>
              match ExcelImporter.parse_excel today now wb importer with
              | Raise e => (Raise (ParseFailed e), db)
              | Ok (data, importer) =>
                  let data := force_client opts data in
                  if dry_run opts then (Ok DryRun, db)
                  else
                    match Creation.create_project (orm E) now today data user importer db with
                    | (Ok _, importer, db) =>
                        (Ok (Created (ExcelImporter.imported_count importer)
                                     (ExcelImporter.warnings importer)), db)
                    | (Raise e, _, db) => (Raise (NotCreated e), db)
                    end
              end
          end
      end
  end.

(** [_process_file]: it returns or raises [CommandError], and leaves the
    statistics and the database. *)
Definition _process_file (E : environment) (now : datetime) (today : date) (user : string)
  (opts : options) (filepath : path) (st : stats) (db : Creation.database (orm E))
  : result command_error unit * stats * Creation.database (orm E) :=
  let st := mkStats (files_processed st + 1) (files_success st) (files_failed st)
                    (projects_created st) (failures_imported st) (warnings st) (errors st) in
  match attempt E now today user opts filepath db with
  | (Ok DryRun, db) =>
      (Ok tt,
       mkStats (files_processed st) (files_success st + 1) (files_failed st)
               (projects_created st) (failures_imported st) (warnings st) (errors st),
       db)
  | (Ok (Created imported_count importer_warnings), db) =>
      (Ok tt,
       mkStats (files_processed st) (files_success st + 1) (files_failed st)
               (projects_created st + 1) (failures_imported st + imported_count)
               (warnings st ++ importer_warnings)%list (errors st),
       db)
  | (Raise e, db) =>
      let st := mkStats (files_processed st) (files_success st) (files_failed st + 1)
                        (projects_created st) (failures_imported st) (warnings st)
                        (errors st ++ [FileError (base filepath) e])%list in
      if negb (batch opts) then (Raise (ImportFailed (base filepath) e), st, db)
      else (Ok tt, st, db)
  end.

(** The [for filepath in files_to_process] loop of [handle]. *)
Fixpoint process_files (E : environment) (now : datetime) (today : date) (user : string)
  (opts : options) (files : list path) (st : stats) (db : Creation.database (orm E))
  : result command_error unit * stats * Creation.database (orm E) :=
  match files with
  | [] => (Ok tt, st, db)
  | filepath :: rest =>
      match _process_file E now today user opts filepath st db with
      | (Ok _, st, db) =>
          if max_errors opts <=? Z.of_nat (List.length (errors st)) then (Ok tt, st, db)
          else process_files E now today user opts rest st db
      | (Raise e, st, db) =>
          if negb (batch opts) then (Raise e, st, db)
          else
            process_files E now today user opts rest
              (mkStats (files_processed st) (files_success st) (files_failed st)
                       (projects_created st) (failures_imported st) (warnings st)
                       (errors st ++ [LoopError e])%list)
              db
      end
  end.

(** The exit code at the end of [handle]. *)
Definition exit_code (st : stats) : Z :=
  if 0 <? files_failed st then 1 else 0.

End Command.

(** * Vocabulary for the creation and the command *)

(** A row for the database whose scores are those read from the file,
    each an integer from 1 to 10, and not the default 5. *)
Definition row_from_file (failure_data : dict value) : Prop :=
  exists g o d,
    dict_get "gravity" failure_data = Some (VInt g)
    /\ dict_get "occurrence" failure_data = Some (VInt o)
    /\ dict_get "detection" failure_data = Some (VInt d)
    /\ Creation.gravity (Creation.failure_row failure_data) = VInt g
    /\ Creation.occurrence (Creation.failure_row failure_data) = VInt o
    /\ Creation.detection (Creation.failure_row failure_data) = VInt d
    /\ 1 <= g <= 10 /\ 1 <= o <= 10 /\ 1 <= d <= 10.

(** A database that keeps the rows it is given and refuses the
    failures beyond a number of rows. *)
Definition sample_orm (capacity : nat) : Creation.orm :=
  Creation.mkOrm
    (list Creation.project_fields * list Creation.failure_fields)%type
    nat
    (fun fields db => Ok (List.length (fst db), (fst db ++ [fields], snd db)%list))
    (fun p fields db =>
       if (List.length (snd db) <? capacity)%nat
       then Ok (fst db, (snd db ++ [fields])%list)
       else Raise "database is full").

Definition sample_environment : Command.environment :=
  Command.mkEnvironment (sample_orm 100) (fun _ => Ok "PK") (fun _ => Ok sample_workbook)
                        (fun _ => Some "application/octet-stream").

Definition sample_path : Command.path := Command.mkPath "/data/pump.xlsx" "pump.xlsx".

Definition sample_options (skip_validation batch : bool) : Command.options :=
  Command.mkOptions skip_validation None false batch 10.

(** The data of the sample workbook, and those of the sheet without a
    system name. *)
Definition sample_data : ExcelImporter.data :=
  match ExcelImporter.parse_excel sample_today sample_now sample_workbook ExcelImporter.init with
  | Ok (data, _) => data
  | Raise _ => ExcelImporter.mkData [] [] []
  end.

Definition sample_unnamed_data : ExcelImporter.data :=
  match ExcelImporter.parse_excel sample_today sample_now
          [("Analyse AMDEC", sample_unnamed_sheet)] ExcelImporter.init with
  | Ok (data, _) => data
  | Raise _ => ExcelImporter.mkData [] [] []
  end.

(** The statistics after a file has failed. *)
Definition failed_file (st : Command.stats) (filepath : Command.path) (e : Command.cause)
  : Command.stats :=
  Command.mkStats (Command.files_processed st + 1) (Command.files_success st)
                  (Command.files_failed st + 1) (Command.projects_created st)
                  (Command.failures_imported st) (Command.warnings st)
                  (Command.errors st ++ [Command.FileError (Command.base filepath) e])%list.

(** Statistics that add up: every file processed has succeeded or
    failed, and every failure has left one error, none of them appended
    by the loop of [handle]. *)
Definition is_file_error (entry : Command.error_entry) : bool :=
  match entry with
  | Command.FileError _ _ => true
  | Command.LoopError _ => false
  end.

Definition consistent (st : Command.stats) : Prop :=
  Command.files_processed st = Command.files_success st + Command.files_failed st
  /\ Z.of_nat (List.length (Command.errors st)) = Command.files_failed st
  /\ forallb is_file_error (Command.errors st) = true.



(** * Plain text, and sheets read back from a file *)

(** The white space, the digits and the letters of [Py] are those of
    Python on the text of the Latin-1 range whose blanks are the ASCII
    ones: the code points U+0000..U+00FF without the next-line control
    U+0085 and the no-break space U+00A0, which [str.strip] and
    [str.split] take for white space, and without the micro sign U+00B5
    and the y with diaeresis U+00FF, whose capitals lie beyond the range.
    Beyond such text Python knows further blanks, digits and letters that
    [isspace], [is_digit], [lower] and [upper] do not.  [plain_text]
    recognises the UTF-8 bytes of such text. *)
Fixpoint plain_text (s : string) : bool :=
  match s with
  | EmptyString => true
  | String c s' =>
      if code c <? 128 then plain_text s'
      else
        match s' with
        | String d s'' =>
            in_range 128 191 d
            && (((code c =? 194) && negb (code d =? 133) && negb (code d =? 160)
                 && negb (code d =? 181))
                || ((code c =? 195) && negb (code d =? 191)))
            && plain_text s''
        | EmptyString => false
        end
  end.

(** A cell that holds no text, or plain text. *)
Definition plain_value (v : value) : bool :=
  match v with
  | VStr s => plain_text s
  | _ => true
  end.


(** The no-break space, which is no plain text. *)
Definition NBSP : string := String (chr 194) (String (chr 160) EmptyString).










(** The failure rows that the database takes before it refuses one. *)
Fixpoint rows_taken (O : Creation.orm) (p : Creation.project O)
  (failures : list (dict value)) (db : Creation.database O) : nat :=
  match failures with
  | [] => 0
  | failure_data :: rest =>
      match Creation.create_failure_row O p (Creation.failure_row failure_data) db with
      | Ok db => S (rows_taken O p rest db)
      | Raise _ => 0
      end
  end.

(** The failure rows written by a call of [create_project] on valid
    data, kept or undone: none when the project itself is refused. *)
Definition rows_written (O : Creation.orm) (now : datetime) (today : date)
  (data : ExcelImporter.data) (user : string) (db : Creation.database O) : nat :=
  match Creation.create_project_row O
          (Creation.project_row now today (ExcelImporter.metadata data) user) db with
  | Ok (p, db1) => rows_taken O p (ExcelImporter.failures data) db1
  | Raise _ => 0
  end.

(** Cells that read as an infinite float, and a sheet with one of them
    as the gravity of its second data row. *)
Definition sample_infinite_cells : list value :=
  [ VStr "inf"; VStr "1e999"; VStr " -Infinity " ].

Definition sample_infinite_sheet : worksheet :=
  [ [VStr "Système"; VStr "Station de pompage"];
    sample_header;
    [VStr "Pump"; VStr "Seal failure"; VStr "Wear"; VStr "Leak";
     VInt 9; VInt 8; VInt 7; VStr "Inspect monthly"];
    [VStr "Valve"; VStr "Stuck"; VNone; VNone; VStr "inf"; VInt 5; VInt 4; VNone] ].

(** * Properties *)

(** ** The model on concrete data *)

Example float_of_text_decimal :
  float_of_string "10.5" = Some ten_and_a_half
  /\ float_of_string " 7 " = Some (float_of_Z 7)
  /\ float_of_string "1_0" = Some (float_of_Z 10)
  /\ float_of_string "0.1" = Some (S754_finite false 7205759403792794 (-56)).
Proof. repeat split; vm_compute; reflexivity. Qed.

Example float_of_text_special :
  float_of_string "inf" = Some (S754_infinity false)
  /\ float_of_string "-Infinity" = Some (S754_infinity true)
  /\ float_of_string "1e999" = Some (S754_infinity false)
  /\ float_of_string "NaN" = Some S754_nan
  /\ float_of_string "abc" = None
  /\ float_of_string "1,5" = None
  /\ float_of_string "" = None.
Proof. repeat split; vm_compute; reflexivity. Qed.

Example int_of_float_truncates :
  int_of_float ten_and_a_half = Ok 10
  /\ int_of_float (float_of_decimal true 5 (-1)) = Ok 0
  /\ int_of_float (float_of_decimal true 79 (-1)) = Ok (-7)
  /\ int_of_float (S754_infinity false) = Raise OverflowError
  /\ int_of_float S754_nan = Raise ValueError.
Proof. repeat split; vm_compute; reflexivity. Qed.

Example str_of_values :
  str VNone = "None" /\ str (VBool true) = "True" /\ str (VInt (-12)) = "-12"
  /\ str (VFloat ten_and_a_half) = "10.5"
  /\ str (VFloat (float_of_Z 5)) = "5.0"
  /\ str (VFloat (float_of_decimal false 1 22)) = "1e+22"
  /\ str (VFloat (float_of_decimal false 15 (-6))) = "1.5e-05"
  /\ str (VDate (mkdate 2025 1 2)) = "2025-01-02"
  /\ str (VDatetime sample_datetime) = "2020-01-01 00:00:00".
Proof. repeat split; vm_compute; reflexivity. Qed.

Example strptime_samples :
  strptime "2025-12-31" [DY; DLit "-"; Dm; DLit "-"; Dd] = Some (mkdate 2025 12 31)
  /\ strptime "3/1/2025" [Dd; DLit "/"; Dm; DLit "/"; DY] = Some (mkdate 2025 1 3)
  /\ strptime "29/02/2023" [Dd; DLit "/"; Dm; DLit "/"; DY] = None
  /\ strptime "29/02/2024" [Dd; DLit "/"; Dm; DLit "/"; DY] = Some (mkdate 2024 2 29)
  /\ strptime "2025-12-315" [DY; DLit "-"; Dm; DLit "-"; Dd] = None
  /\ strptime "0000-01-01" [DY; DLit "-"; Dm; DLit "-"; Dd] = None.
Proof. repeat split; vm_compute; reflexivity. Qed.

Example text_samples :
  strip "  Pompe  " = "Pompe"
  /\ lower "Équipe AMDEC" = "équipe amdec"
  /\ upper " ref-001" = " REF-001"
  /\ contains "date" "date d'analyse" = true
  /\ split " a  b " = ["a"; "b"]
  /\ ExcelImporter._clean_text (VStr "  Pump   A ") = "Pump A".
Proof. repeat split; vm_compute; reflexivity. Qed.

(** The end-to-end scenario: the header and one data row
    ["Pump", "Seal failure", "Wear", "Leak", 9, 8, 7, "Inspect monthly"]
    give one failure, of criticality 504, counted as high. *)
Example import_one_row :
  exists failure self',
    ExcelImporter.parse_excel sample_today sample_now
      [("Feuil1",
        [ sample_header;
          [VStr "Pump"; VStr "Seal failure"; VStr "Wear"; VStr "Leak";
           VInt 9; VInt 8; VInt 7; VStr "Inspect monthly"] ])]
      ExcelImporter.init
    = Ok (ExcelImporter.mkData
            [("system_name", VStr ""); ("analysis_date", VDate sample_today);
             ("team_members", VStr ""); ("objective", VStr ""); ("client", VStr "");
             ("reference", VStr "AMDEC-20261103-1020")]
            [failure]
            [("total", 1); ("high", 1); ("medium", 0); ("low", 0)], self')
    /\ parsed_tuple failure
       = (Some (VStr "Pump"), Some (VStr "Seal failure"),
          Some (VInt 9), Some (VInt 8), Some (VInt 7))
    /\ FailureMode.criticality sample_pump = 504
    /\ FailureMode.criticality_level sample_pump = "ÉLEVÉE".
Proof.
  eexists. eexists. split; [vm_compute; reflexivity |].
  repeat split; reflexivity.
Qed.

(** The failure sheet of the sample project, as a reader sees it. *)
Example export_sample_rows :
  ExcelExporter.iter_rows (ExcelExporter.generate_failures_sheet sample_project)
  = [ VStr (sheet_title sample_project) :: repeat VNone 9;
      repeat VNone 10;
      map VStr ExcelExporter.FAILURE_HEADERS;
      [VStr "Pump"; VStr "Seal failure"; VStr "Wear"; VStr "Leak";
       VInt 9; VInt 8; VInt 7; VInt 504; VStr "ÉLEVÉE"; VStr "Inspect monthly"];
      [VStr "Valve"; VStr "Stuck"; VStr "Corrosion"; VStr "No flow";
       VInt 5; VInt 5; VInt 4; VInt 100; VStr "MODÉRÉE"; VStr ""] ].
Proof. vm_compute. reflexivity. Qed.

(** ** Criticality bands *)

Lemma level_bands (c : Z) (level : string) :
  level = (if c <=? 60 then "FAIBLE" else if c <=? 120 then "MODÉRÉE" else "ÉLEVÉE") ->
  (level = "FAIBLE" <-> c <= 60)
  /\ (level = "MODÉRÉE" <-> 61 <= c <= 120)
  /\ (level = "ÉLEVÉE" <-> 120 < c).
Proof.
  intros ->.
  destruct (Z.leb_spec c 60); [| destruct (Z.leb_spec c 120)];
    repeat split; intros; try lia; try discriminate; reflexivity.
Qed.

(** C4. For scores in 1..10, the level of the product is FAIBLE exactly
    up to 60, MODÉRÉE exactly from 61 to 120 and ÉLEVÉE exactly above
    120, for [get_criticality_level] of the validators and for the
    [criticality_level] property of a failure record alike. *)
Theorem C4_criticality_level_bands :
  forall f : FailureMode.t,
    1 <= FailureMode.gravity f <= 10 ->
    1 <= FailureMode.occurrence f <= 10 ->
    1 <= FailureMode.detection f <= 10 ->
    let c := FailureMode.gravity f * FailureMode.occurrence f * FailureMode.detection f in
    ((Validators.get_criticality_level c = "FAIBLE" <-> c <= 60)
     /\ (Validators.get_criticality_level c = "MODÉRÉE" <-> 61 <= c <= 120)
     /\ (Validators.get_criticality_level c = "ÉLEVÉE" <-> 120 < c))
    /\ ((FailureMode.criticality_level f = "FAIBLE" <-> c <= 60)
        /\ (FailureMode.criticality_level f = "MODÉRÉE" <-> 61 <= c <= 120)
        /\ (FailureMode.criticality_level f = "ÉLEVÉE" <-> 120 < c))
    /\ 1 <= c <= 1000.
Proof.
  intros f Hg Ho Hd c.
  split; [apply level_bands; reflexivity |].
  split; [apply level_bands; reflexivity |].
  subst c.
  assert (1 <= FailureMode.gravity f * FailureMode.occurrence f <= 100) by nia.
  nia.
Qed.

Lemma C4_criticality_level_bands_witness :
  FailureMode.criticality_level sample_pump = "ÉLEVÉE"
  /\ FailureMode.criticality_level sample_valve = "MODÉRÉE"
  /\ Validators.get_criticality_level 60 = "FAIBLE".
Proof.
  assert (Hp := C4_criticality_level_bands sample_pump).
  assert (Hv := C4_criticality_level_bands sample_valve).
  assert (Hl := C4_criticality_level_bands
                  (FailureMode.mk "" "" "" "" 3 4 5 None None None 0)).
  cbv zeta in Hp, Hv, Hl.
  destruct Hp as (_ & (_ & _ & Hp) & _); [simpl; lia ..|].
  destruct Hv as (_ & (_ & Hv & _) & _); [simpl; lia ..|].
  destruct Hl as ((Hl & _ & _) & _ & _); [simpl; lia ..|].
  split; [apply Hp; simpl; lia |].
  split; [apply Hv; simpl; lia |].
  apply Hl. simpl. lia.
Defined.

(** ** Validators *)

Lemma try_validate_cases x label errors :
  (exists score, Validators.validate_score x label = Ok score
                 /\ 1 <= score <= 10
                 /\ Validators.try_validate x label errors = Ok (VInt score, errors))
  \/ (exists m, Validators.validate_score x label = Raise (ValidationError [m])
                /\ Validators.try_validate x label errors = Ok (x, (errors ++ [m])%list))
  \/ (exists e, Validators.validate_score x label = Raise (Builtin e)
                /\ Validators.try_validate x label errors = Raise (Builtin e)).
Proof.
  unfold Validators.try_validate, Validators.validate_score.
  destruct (bind (float match x with
                        | VStr s => VStr (replace "," "." (strip s))
                        | _ => x
                        end) int_of_float) as [score | []].
  - destruct (negb ((1 <=? score) && (score <=? 10))) eqn:Hin.
    + right. left. eauto.
    + left. exists score. apply negb_false_iff, andb_true_iff in Hin.
      destruct Hin as [H1 H2]. apply Z.leb_le in H1. apply Z.leb_le in H2. auto.
  - right. left. eauto.
  - right. left. eauto.
  - right. right. eauto.
  - right. right. eauto.
Qed.

(** Away from the overflow, [validate_criticality_scores] does what C9
    says: with no conversion that raises a builtin exception, it either
    returns the three validated scores (logging once above 500), or raises
    one [ValidationError] that holds the message of every bad field. *)
Lemma validate_criticality_scores_aggregates gravity occurrence detection :
  (forall e, Validators.validate_score gravity "Gravité (G)" <> Raise (Builtin e)) ->
  (forall e, Validators.validate_score occurrence "Occurrence (O)" <> Raise (Builtin e)) ->
  (forall e, Validators.validate_score detection "Détection (D)" <> Raise (Builtin e)) ->
  (exists g o d,
      Validators.validate_score gravity "Gravité (G)" = Ok g
      /\ Validators.validate_score occurrence "Occurrence (O)" = Ok o
      /\ Validators.validate_score detection "Détection (D)" = Ok d
      /\ Validators.validate_criticality_scores gravity occurrence detection
         = Ok ((g, o, d),
               if 500 <? g * o * d then [VeryHighCriticality (g * o * d) g o d] else []))
  \/ (exists m rest,
         Validators.validate_criticality_scores gravity occurrence detection
         = Raise (ValidationError (m :: rest))
         /\ forall x label m',
              In (x, label) [(gravity, "Gravité (G)"); (occurrence, "Occurrence (O)");
                             (detection, "Détection (D)")] ->
              Validators.validate_score x label = Raise (ValidationError [m']) ->
              In m' (m :: rest)).
Proof.
  intros Hg Ho Hd. unfold Validators.validate_criticality_scores.
  destruct (try_validate_cases gravity "Gravité (G)" [])
    as [(g & Vg & _ & Tg) | [(mg & Vg & Tg) | (e & Vg & _)]];
    [| | exfalso; exact (Hg e Vg)]; rewrite Tg; cbn [bind app].
  - destruct (try_validate_cases occurrence "Occurrence (O)" [])
      as [(o & Vo & _ & To) | [(mo & Vo & To) | (e & Vo & _)]];
      [| | exfalso; exact (Ho e Vo)]; rewrite To; cbn [bind app].
    + destruct (try_validate_cases detection "Détection (D)" [])
        as [(d & Vd & _ & Td) | [(md & Vd & Td) | (e & Vd & _)]];
        [| | exfalso; exact (Hd e Vd)]; rewrite Td; cbn [bind app].
      * left. exists g, o, d. auto.
      * right. exists md, []. split; [reflexivity |].
        intros x label m' [Hx | [Hx | [Hx | []]]] Hv; inversion Hx; subst;
          try congruence.
        rewrite Vd in Hv. inversion Hv. left. reflexivity.
    + destruct (try_validate_cases detection "Détection (D)" [mo])
        as [(d & Vd & _ & Td) | [(md & Vd & Td) | (e & Vd & _)]];
        [| | exfalso; exact (Hd e Vd)]; rewrite Td; cbn [bind app].
      * right. exists mo, []. split; [reflexivity |].
        intros x label m' [Hx | [Hx | [Hx | []]]] Hv; inversion Hx; subst;
          try congruence.
        rewrite Vo in Hv. inversion Hv. left. reflexivity.
      * right. exists mo, [md]. split; [reflexivity |].
        intros x label m' [Hx | [Hx | [Hx | []]]] Hv; inversion Hx; subst;
          try congruence.
        -- rewrite Vo in Hv. inversion Hv. left. reflexivity.
        -- rewrite Vd in Hv. inversion Hv. right. left. reflexivity.
  - destruct (try_validate_cases occurrence "Occurrence (O)" [mg])
      as [(o & Vo & _ & To) | [(mo & Vo & To) | (e & Vo & _)]];
      [| | exfalso; exact (Ho e Vo)]; rewrite To; cbn [bind app].
    + destruct (try_validate_cases detection "Détection (D)" [mg])
        as [(d & Vd & _ & Td) | [(md & Vd & Td) | (e & Vd & _)]];
        [| | exfalso; exact (Hd e Vd)]; rewrite Td; cbn [bind app].
      * right. exists mg, []. split; [reflexivity |].
        intros x label m' [Hx | [Hx | [Hx | []]]] Hv; inversion Hx; subst;
          try congruence.
        rewrite Vg in Hv. inversion Hv. left. reflexivity.
      * right. exists mg, [md]. split; [reflexivity |].
        intros x label m' [Hx | [Hx | [Hx | []]]] Hv; inversion Hx; subst;
          try congruence.
        -- rewrite Vg in Hv. inversion Hv. left. reflexivity.
        -- rewrite Vd in Hv. inversion Hv. right. left. reflexivity.
    + destruct (try_validate_cases detection "Détection (D)" [mg; mo])
        as [(d & Vd & _ & Td) | [(md & Vd & Td) | (e & Vd & _)]];
        [| | exfalso; exact (Hd e Vd)]; rewrite Td; cbn [bind app].
      * right. exists mg, [mo]. split; [reflexivity |].
        intros x label m' [Hx | [Hx | [Hx | []]]] Hv; inversion Hx; subst;
          try congruence.
        -- rewrite Vg in Hv. inversion Hv. left. reflexivity.
        -- rewrite Vo in Hv. inversion Hv. right. left. reflexivity.
      * right. exists mg, [mo; md]. split; [reflexivity |].
        intros x label m' [Hx | [Hx | [Hx | []]]] Hv; inversion Hx; subst;
          try congruence.
        -- rewrite Vg in Hv. inversion Hv. left. reflexivity.
        -- rewrite Vo in Hv. inversion Hv. right. left. reflexivity.
        -- rewrite Vd in Hv. inversion Hv. right. right. left. reflexivity.
Qed.

(** C9, at the input where the code departs from it: gravity is the text
    "inf" and occurrence is not a number.  The conversion of gravity
    overflows, the exception is not a [ValidationError], and it leaves
    [validate_criticality_scores] before occurrence and detection are
    looked at. *)
Theorem C9_overflow_short_circuits :
  Validators.validate_criticality_scores (VStr "inf") (VStr "abc") (VInt 5)
  = Raise (Builtin OverflowError).
Proof. vm_compute. reflexivity. Qed.

(** ** The action plan sheet *)

(** C2, at a project with one failure of criticality 504 and one of
    criticality 100: the row of the immediate table has its six values,
    the row of the medium-term table has the component, the responsible
    and the deadline only. *)
Theorem C2_medium_term_row_lacks_columns :
  exists ws,
    ExcelExporter.generate_actions_sheet sample_project = Ok ws
    /\ nth_error (ExcelExporter.iter_rows ws) 4
       = Some [VStr "Pump"; VStr "Seal failure"; VInt 504; VStr "Inspect monthly";
               VStr "À assigner"; VStr "À planifier"]
    /\ nth_error (ExcelExporter.iter_rows ws) 9
       = Some [VStr "Valve"; VNone; VNone; VNone; VStr "À assigner"; VStr "À planifier"].
Proof.
  eexists. split; [reflexivity |].
  split; vm_compute; reflexivity.
Qed.

(** ** The importer: running a method *)

Lemma mbind_ok {A B} (m : ExcelImporter.M A) (k : A -> ExcelImporter.M B) self b self' :
  ExcelImporter.mbind m k self = Ok (b, self') ->
  exists a self1, m self = Ok (a, self1) /\ k a self1 = Ok (b, self').
Proof.
  unfold ExcelImporter.mbind. destruct (m self) as [[a self1] | e]; [eauto | discriminate].
Qed.

Lemma mbind_run {A B} (m : ExcelImporter.M A) (k : A -> ExcelImporter.M B) self a self1 :
  m self = Ok (a, self1) -> ExcelImporter.mbind m k self = k a self1.
Proof. unfold ExcelImporter.mbind. intros ->. reflexivity. Qed.

(** ** Dictionaries *)

Lemma dict_get_set {V} (k j : string) (v : V) (d : dict V) :
  dict_get k (dict_set j v d) = if String.eqb j k then Some v else dict_get k d.
Proof.
  induction d as [| [k' v'] d IH]; simpl.
  - reflexivity.
  - destruct (String.eqb_spec k' j) as [-> | Hne]; simpl.
    + destruct (String.eqb j k); reflexivity.
    + rewrite IH. destruct (String.eqb_spec k' k) as [-> | Hne'].
      * destruct (String.eqb_spec j k) as [-> | _]; [congruence | reflexivity].
      * reflexivity.
Qed.

(** ** The score parser *)

Lemma reading_of_run (value : value) :
  bind (float (VStr (str value))) int_of_float
  = match reading_of value with
    | Whole n => Ok n
    | Unreadable => Raise ValueError
    | Infinite => Raise OverflowError
    end.
Proof.
  unfold reading_of. simpl.
  destruct (float_of_string (str value)) as [[s | s | | s m e] |]; simpl; try reflexivity.
  all: try (destruct s; reflexivity).
Qed.

Lemma parse_score_whole value field_name row_num self n :
  reading_of value = Whole n ->
  ExcelImporter._parse_score value field_name row_num self
  = if (1 <=? n) && (n <=? 10) then Ok (n, self)
    else Ok (Z.min 10 (Z.max 1 n),
             with_warning self (ScoreClamped row_num field_name n (Z.min 10 (Z.max 1 n)))).
Proof.
  intros Hr. unfold ExcelImporter._parse_score. rewrite reading_of_run, Hr.
  destruct ((1 <=? n) && (n <=? 10)); reflexivity.
Qed.

Lemma parse_score_unreadable value field_name row_num self :
  reading_of value = Unreadable ->
  ExcelImporter._parse_score value field_name row_num self
  = Ok (5, with_error self (ScoreUnreadable row_num field_name (str value))).
Proof.
  intros Hr. unfold ExcelImporter._parse_score. rewrite reading_of_run, Hr. reflexivity.
Qed.


Lemma parse_score_range value field_name row_num self n self' :
  ExcelImporter._parse_score value field_name row_num self = Ok (n, self') -> 1 <= n <= 10.
Proof.
  unfold ExcelImporter._parse_score. rewrite reading_of_run.
  destruct (reading_of value) as [score | |]; simpl.
  - destruct ((1 <=? score) && (score <=? 10)) eqn:Hin.
    + intros H. inversion H. subst.
      apply andb_true_iff in Hin. destruct Hin as [H1 H2].
      apply Z.leb_le in H1. apply Z.leb_le in H2. lia.
    + intros H. inversion H. lia.
  - intros H. inversion H. lia.
  - discriminate.
Qed.

(** C3, at the cells where the code departs from it: the texts "inf",
    "1e999" and " -Infinity " are read as infinite floats.  The conversion
    to an integer overflows, the exception is neither a [ValueError] nor a
    [TypeError], and it leaves [_parse_score]: no score comes back and
    nothing is appended.  The parse of a sheet that holds such a cell in
    a score column stops there, with the same exception. *)
Theorem C3_infinite_score_raises :
  forall (field_name : string) (row_num : nat) (self : ExcelImporter.t),
    Forall (fun value =>
              reading_of value = Infinite
              /\ ExcelImporter._parse_score value field_name row_num self
                 = Raise (Builtin OverflowError))
           sample_infinite_cells
    /\ ExcelImporter.parse_excel sample_today sample_now
         [("Analyse AMDEC", sample_infinite_sheet)] self
       = Raise (Builtin OverflowError).
Proof.
  intros field_name row_num self. split.
  - repeat constructor; vm_compute; reflexivity.
  - destruct self as [errors warnings imported_count]. vm_compute. reflexivity.
Qed.

(** ** Scores of the parsed failures *)

Lemma score_field_cases field :
  ExcelImporter.is_score_field field = true <->
  In field ["gravity"; "occurrence"; "detection"].
Proof.
  unfold ExcelImporter.is_score_field. rewrite existsb_exists. split.
  - intros (x & Hin & Heq). apply String.eqb_eq in Heq. subst x. exact Hin.
  - intros Hin. exists field. split; [exact Hin | apply String.eqb_refl].
Qed.

Lemma scores_valid_set_score failure field n :
  scores_valid failure -> 1 <= n <= 10 ->
  scores_valid (dict_set field (VInt n) failure).
Proof.
  intros Hv Hn k v Hk. rewrite dict_get_set.
  destruct (String.eqb field k).
  - intros H. inversion H. exists n. split; [reflexivity | exact Hn].
  - apply Hv, Hk.
Qed.

Lemma scores_valid_set_text failure field s :
  scores_valid failure -> ExcelImporter.is_score_field field = false ->
  scores_valid (dict_set field (VStr s) failure).
Proof.
  intros Hv Hf k v Hk. rewrite dict_get_set.
  destruct (String.eqb_spec field k) as [-> | _].
  - congruence.
  - apply Hv, Hk.
Qed.

Lemma fill_fields_scores_valid column_indices row row_idx :
  forall failure_data self failure_data' self',
    ExcelImporter.fill_fields column_indices row row_idx failure_data self
    = Ok (failure_data', self') ->
    scores_valid failure_data -> scores_valid failure_data'.
Proof.
  induction column_indices as [| [field_name col_idx] rest IH];
    intros failure_data self failure_data' self' Hrun Hv; simpl in Hrun.
  - inversion Hrun. subst. exact Hv.
  - destruct (nth_error row col_idx) as [value |].
    + destruct (ExcelImporter.is_score_field field_name) eqn:Hs.
      * apply mbind_ok in Hrun. destruct Hrun as (score & self1 & Hp & Hrun).
        apply (IH _ _ _ _ Hrun).
        apply scores_valid_set_score; [exact Hv |].
        exact (parse_score_range _ _ _ _ _ _ Hp).
      * apply (IH _ _ _ _ Hrun). apply scores_valid_set_text; assumption.
    + exact (IH _ _ _ _ Hrun Hv).
Qed.

Lemma scores_valid_order n : scores_valid [("order", VInt n)].
Proof.
  intros field v Hf Hget. unfold dict_get in Hget.
  destruct (String.eqb_spec "order" field) as [<- | _]; [| discriminate].
  vm_compute in Hf. discriminate.
Qed.

Lemma extract_rows_scores_valid column_indices :
  forall rows row_idx failures self failures' self',
    ExcelImporter.extract_rows column_indices row_idx rows failures self
    = Ok (failures', self') ->
    Forall scores_valid failures -> Forall scores_valid failures'.
Proof.
  induction rows as [| row rest IH]; intros row_idx failures self failures' self' Hrun Hv;
    simpl in Hrun.
  - inversion Hrun. subst. exact Hv.
  - destruct (negb (existsb truthy row)); [exact (IH _ _ _ _ _ Hrun Hv) |].
    destruct (ExcelImporter.is_summary_row row).
    + inversion Hrun. subst. exact Hv.
    + apply mbind_ok in Hrun. destruct Hrun as (failure_data & self1 & Hfill & Hrun).
      destruct (get_truthy "component" failure_data && get_truthy "failure_mode" failure_data).
      * apply (IH _ _ _ _ _ Hrun). apply Forall_app. split; [exact Hv |].
        constructor; [| constructor].
        exact (fill_fields_scores_valid _ _ _ _ _ _ _ Hfill (scores_valid_order _)).
      * apply mbind_ok in Hrun. destruct Hrun as (u & self2 & _ & Hrun).
        exact (IH _ _ _ _ _ Hrun Hv).
Qed.

Lemma extract_failures_scores_valid ws self failures self' :
  ExcelImporter._extract_failures ws self = Ok (failures, self') ->
  Forall scores_valid failures.
Proof.
  unfold ExcelImporter._extract_failures.
  destruct (ExcelImporter.find_header 1 ws) as [[header_row [| c column_indices]] |].
  - intros H. inversion H. constructor.
  - intros H. exact (extract_rows_scores_valid _ _ _ _ _ _ _ H (Forall_nil _)).
  - intros H. inversion H. constructor.
Qed.

(** C10. In every failure record that the importer's parse returns, a
    gravity, occurrence or detection that is present is an integer from 1
    to 10. *)
Theorem C10_parsed_scores_in_range :
  forall today now (wb : workbook) self data self',
    ExcelImporter.parse_excel today now wb self = Ok (data, self') ->
    forall failure field v,
      In failure (ExcelImporter.failures data) ->
      In field ["gravity"; "occurrence"; "detection"] ->
      dict_get field failure = Some v ->
      exists n, v = VInt n /\ 1 <= n <= 10.
Proof.
  intros today now wb self data self' Hrun failure field v Hin Hfield Hget.
  unfold ExcelImporter.parse_excel in Hrun.
  destruct (ExcelImporter.select_sheet wb) as [ws |]; [| discriminate].
  apply mbind_ok in Hrun. destruct Hrun as (metadata & self1 & _ & Hrun).
  apply mbind_ok in Hrun. destruct Hrun as (failures & self2 & Hext & Hrun).
  inversion Hrun. subst. simpl in Hin.
  pose proof (extract_failures_scores_valid _ _ _ _ Hext) as Hall.
  rewrite Forall_forall in Hall.
  exact (Hall failure Hin field v (proj2 (score_field_cases field) Hfield) Hget).
Qed.

(** The sample sheet: the scores 15, "abc" and 10.5 of its last data row
    come out as 10, 5 and 10. *)
Lemma C10_parsed_scores_in_range_witness :
  exists data self',
    ExcelImporter.parse_excel sample_today sample_now sample_workbook ExcelImporter.init
    = Ok (data, self')
    /\ In sample_parsed_valve (ExcelImporter.failures data)
    /\ In "gravity" ["gravity"; "occurrence"; "detection"]
    /\ dict_get "gravity" sample_parsed_valve = Some (VInt 10)
    /\ exists n, VInt 10 = VInt n /\ 1 <= n <= 10.
Proof.
  eexists. eexists.
  split; [vm_compute; reflexivity |].
  split; [right; left; reflexivity |].
  split; [left; reflexivity |].
  split; [reflexivity |].
  eapply (C10_parsed_scores_in_range sample_today sample_now sample_workbook
            ExcelImporter.init _ _ eq_refl sample_parsed_valve "gravity" (VInt 10)).
  - right. left. reflexivity.
  - left. reflexivity.
  - reflexivity.
Defined.

(** ** The date parser *)

Lemma try_formats_first value formats :
  match ExcelImporter.try_formats value formats with
  | Some d =>
      exists before fmt after,
        formats = (before ++ fmt :: after)%list
        /\ no_format_reads value before
        /\ strptime (strip value) fmt = Some d
  | None => no_format_reads value formats
  end.
Proof.
  induction formats as [| fmt rest IH]; simpl.
  - constructor.
  - destruct (strptime (strip value) fmt) as [d |] eqn:Hfmt.
    + exists [], fmt, rest. split; [reflexivity |]. split; [constructor | exact Hfmt].
    + destruct (ExcelImporter.try_formats value rest) as [d |].
      * destruct IH as (before & fmt' & after & -> & Hnone & Hsome).
        exists (fmt :: before), fmt', after.
        split; [reflexivity |]. split; [constructor; assumption | exact Hsome].
      * constructor; assumption.
Qed.



(** ** References *)

Lemma Zrange_forallb (p : Z -> bool) lo count :
  forallb p (Zrange lo count) = true ->
  forall z, lo <= z < lo + Z.of_nat count -> p z = true.
Proof.
  intros Hall z Hz. rewrite forallb_forall in Hall. apply Hall.
  unfold Zrange. apply in_map_iff. exists (Z.to_nat (z - lo)).
  split; [lia |]. apply in_seq. lia.
Qed.

Lemma two_digits z :
  0 <= z <= 99 -> all_digits (zpad 2 z) = true /\ String.length (zpad 2 z) = 2%nat.
Proof.
  intros Hz.
  pose proof (Zrange_forallb
                (fun z => all_digits (zpad 2 z) && Nat.eqb (String.length (zpad 2 z)) 2)
                0 100) as H.
  specialize (H ltac:(vm_compute; reflexivity) z ltac:(lia)). simpl in H.
  apply andb_true_iff in H. destruct H as [H1 H2]. apply Nat.eqb_eq in H2. auto.
Qed.

Lemma four_digits z :
  1000 <= z <= 9999 ->
  all_digits (str_of_Z z) = true /\ String.length (str_of_Z z) = 4%nat.
Proof.
  intros Hz.
  pose proof (Zrange_forallb
                (fun z => all_digits (str_of_Z z) && Nat.eqb (String.length (str_of_Z z)) 4)
                1000 (Z.to_nat 9000)) as H.
  specialize (H ltac:(vm_compute; reflexivity) z ltac:(lia)). simpl in H.
  apply andb_true_iff in H. destruct H as [H1 H2]. apply Nat.eqb_eq in H2. auto.
Qed.

Lemma length_app (a b : string) :
  String.length (a ++ b) = (String.length a + String.length b)%nat.
Proof. induction a as [| c a IH]; simpl; [reflexivity | rewrite IH; reflexivity]. Qed.




(** [rstrip] leaves no trailing character of the stripped class. *)
Lemma rstrip_by_last sp s c :
  last_char (rstrip_by sp s) = Some c -> sp c = false.
Proof.
  revert c. induction s as [| a s IH]; simpl; intros c; [discriminate |].
  destruct (rstrip_by sp s) as [| b r] eqn:Hr.
  - destruct (sp a) eqn:Ha; simpl; [discriminate |].
    intros H. inversion H. subst. exact Ha.
  - intros H. apply IH. exact H.
Qed.

Lemma last_char_cons_inv x t y :
  last_char (String x t) = Some y ->
  (t = "" /\ x = y) \/ (t <> "" /\ last_char t = Some y).
Proof.
  destruct t as [| a t]; simpl.
  - intros H. inversion H. left. auto.
  - intros H. right. split; [discriminate | exact H].
Qed.

Lemma last_char_cons_nonempty x t :
  t <> "" -> last_char (String x t) = last_char t.
Proof. destruct t; [congruence | reflexivity]. Qed.

Lemma upper_nonempty s : upper s = "" -> s = "".
Proof.
  destruct s as [| c s]; [reflexivity |]. cbn [upper].
  destruct (in_range 97 122 c); [discriminate |].
  destruct (code c =? 195); [| discriminate].
  destruct s as [| d s]; [discriminate |].
  destruct (in_range 160 190 d && negb (code d =? 183)); [discriminate |].
  destruct (code d =? 159); discriminate.
Qed.

(** The letters that [upper] writes are not line feeds. *)
Lemma upper_letters_not_lf (c : ascii) :
  (negb (in_range 97 122 c) || negb (Ascii.eqb (chr (code c - 32)) "010"))
  && (negb (in_range 160 190 c) || negb (Ascii.eqb (chr (code c - 32)) "010"))
  && (negb (code c =? 195) || negb (Ascii.eqb c "010")) = true.
Proof. destruct c as [[] [] [] [] [] [] [] []]; vm_compute; reflexivity. Qed.

(** [upper] does not bring a line feed to the end of a text. *)
Lemma upper_last_lf_bounded n :
  forall s, (String.length s <= n)%nat ->
            last_char (upper s) = Some "010"%char -> last_char s = Some "010"%char.
Proof.
  induction n as [| n IH]; intros s Hlen.
  - destruct s; [discriminate | simpl in Hlen; lia].
  - destruct s as [| c s]; [discriminate |].
    simpl in Hlen.
    pose proof (upper_letters_not_lf c) as Hc.
    apply andb_true_iff in Hc. destruct Hc as [Hc Hc3].
    apply andb_true_iff in Hc. destruct Hc as [Hc1 _].
    cbn [upper].
    destruct (in_range 97 122 c) eqn:Hlow.
    { intros H. apply last_char_cons_inv in H. destruct H as [[_ H] | [Hne H]].
      - rewrite H in Hc1. discriminate.
      - apply IH in H; [| lia].
        rewrite last_char_cons_nonempty; [exact H |].
        intros ->. apply Hne. reflexivity. }
    destruct (code c =? 195) eqn:H195.
    2:{ intros H. apply last_char_cons_inv in H. destruct H as [[He H] | [Hne H]].
        - apply upper_nonempty in He. subst. reflexivity.
        - apply IH in H; [| lia].
          rewrite last_char_cons_nonempty; [exact H |].
          intros ->. apply Hne. reflexivity. }
    destruct s as [| d s].
    { intros H. inversion H as [Hlf]. rewrite Hlf in Hc3. discriminate. }
    simpl in Hlen.
    assert (Htail : forall x, x <> "010"%char ->
                              last_char (String x (upper s)) = Some "010"%char ->
                              last_char (String c (String d s)) = Some "010"%char).
    { intros x Hx H. apply last_char_cons_inv in H. destruct H as [[_ H] | [Hne H]].
      - congruence.
      - apply IH in H; [| lia].
        assert (s <> "") by (intros ->; apply Hne; reflexivity).
        rewrite !last_char_cons_nonempty by (assumption || discriminate). exact H. }
    pose proof (upper_letters_not_lf d) as Hd.
    apply andb_true_iff in Hd. destruct Hd as [Hd _].
    apply andb_true_iff in Hd. destruct Hd as [_ Hd2].
    destruct (in_range 160 190 d && negb (code d =? 183)) eqn:Hmap.
    { apply andb_true_iff in Hmap. destruct Hmap as [Hmap _]. rewrite Hmap in Hd2.
      intros H. rewrite last_char_cons_nonempty in H by discriminate.
      apply (Htail (chr (code d - 32))); [| exact H].
      intros E. rewrite E in Hd2. discriminate. }
    destruct (code d =? 159).
    { intros H. rewrite last_char_cons_nonempty in H by discriminate.
      apply (Htail "S"%char ltac:(discriminate) H). }
    intros H. rewrite last_char_cons_nonempty in H by discriminate.
    apply last_char_cons_inv in H. destruct H as [[He H] | [Hne H]].
    + apply upper_nonempty in He. subst. reflexivity.
    + apply IH in H; [| lia].
      assert (s <> "") by (intros ->; apply Hne; reflexivity).
      rewrite !last_char_cons_nonempty by (assumption || discriminate). exact H.
Qed.

Lemma reference_tail_text r :
  last_char r <> Some "010"%char ->
  Validators.reference_tail r = string_forall Validators.reference_char r.
Proof.
  induction r as [| a r IH]; [reflexivity |]. intros Hlast. cbn [Validators.reference_tail string_forall].
  destruct r as [| b r].
  - destruct (Ascii.eqb_spec a "010") as [-> | _]; [exfalso; apply Hlast; reflexivity |].
    simpl. rewrite orb_false_r. reflexivity.
  - rewrite andb_false_r, orb_false_r. rewrite IH; [reflexivity | exact Hlast].
Qed.

Lemma stripped_upper_pattern reference :
  Validators.reference_pattern (upper (strip reference))
  = reference_text (upper (strip reference)).
Proof.
  assert (Hlast : last_char (upper (strip reference)) <> Some "010"%char).
  { intros H. apply (upper_last_lf_bounded _ _ (le_n _)) in H.
    apply rstrip_by_last in H. vm_compute in H. discriminate. }
  destruct (upper (strip reference)) as [| c r]; [reflexivity |].
  unfold Validators.reference_pattern, reference_text. cbn [str_nonempty string_forall andb].
  rewrite reference_tail_text; [reflexivity |].
  destruct r as [| b r]; [simpl; discriminate | exact Hlast].
Qed.





(** ** Metadata *)

Lemma parse_date_text today text self :
  exists self',
    ExcelImporter._parse_date today (VStr text) self
    = Ok (stored today "analysis_date" text, self').
Proof.
  unfold ExcelImporter._parse_date, stored. cbn [String.eqb Ascii.eqb Bool.eqb].
  change (String.eqb "analysis_date" "analysis_date") with true. cbv iota.
  destruct (ExcelImporter.try_formats text ExcelImporter.DATE_FORMATS);
    eexists; reflexivity.
Qed.

Lemma scan_keywords_run today row :
  forall keywords first_cell metadata self,
    exists self',
      ExcelImporter.scan_keywords today keywords first_cell row metadata self
      = Ok (match keyword_field keywords first_cell, row_value row with
            | Some field, Some text => dict_set field (stored today field text) metadata
            | _, _ => metadata
            end, self').
Proof.
  induction keywords as [| [keyword field] rest IH]; intros first_cell metadata self;
    cbn [ExcelImporter.scan_keywords keyword_field].
  - eexists. reflexivity.
  - destruct (contains keyword first_cell); [| apply IH].
    unfold row_value.
    destruct row as [| c0 [| v1 row]]; try (eexists; reflexivity).
    destruct (truthy v1); [| eexists; reflexivity].
    unfold stored at 1.
    destruct (String.eqb_spec field "analysis_date") as [-> | Hne].
    + destruct (parse_date_text today (strip (str v1)) self) as [self' Hd].
      exists self'. rewrite (mbind_run _ _ _ _ _ Hd). reflexivity.
    + eexists. reflexivity.
Qed.

Lemma scan_metadata_rows_run today :
  forall rows metadata self,
    exists self',
      ExcelImporter.scan_metadata_rows today rows metadata self
      = Ok (fold_left (apply_row today) rows metadata, self').
Proof.
  induction rows as [| row rest IH]; intros metadata self;
    cbn [ExcelImporter.scan_metadata_rows fold_left].
  - eexists. reflexivity.
  - unfold apply_row at 2, row_field.
    destruct row as [| c0 row]; [apply IH |].
    destruct (truthy c0); cbn [negb]; [| apply IH].
    destruct (scan_keywords_run today (c0 :: row) ExcelImporter.METADATA_KEYWORDS
                (strip (lower (str c0))) metadata self) as [self1 Hk].
    rewrite (mbind_run _ _ _ _ _ Hk). apply IH.
Qed.









(** ** Failure rows *)

Lemma dict_set_keys {V} (k : string) (v : V) (d : dict V) (x : string) :
  In x (map fst (dict_set k v d)) <-> x = k \/ In x (map fst d).
Proof.
  induction d as [| [k' v'] d IH]; simpl.
  - intuition.
  - destruct (String.eqb_spec k' k) as [-> | Hne]; simpl.
    + intuition.
    + rewrite IH. intuition.
Qed.

Lemma dict_set_nodup {V} (k : string) (v : V) (d : dict V) :
  NoDup (map fst d) -> NoDup (map fst (dict_set k v d)).
Proof.
  induction d as [| [k' v'] d IH]; simpl; intros Hd.
  - constructor; [intros [] | constructor].
  - inversion Hd as [| ? ? Hnotin Hd']. subst.
    destruct (String.eqb_spec k' k) as [-> | Hne]; simpl.
    + constructor; assumption.
    + constructor; [| apply IH, Hd'].
      rewrite dict_set_keys. intros [-> | Hin]; [congruence | contradiction].
Qed.

Lemma dict_get_notin {V} (k : string) (d : dict V) :
  ~ In k (map fst d) -> dict_get k d = None.
Proof.
  induction d as [| [k' v'] d IH]; simpl; intros Hnotin; [reflexivity |].
  destruct (String.eqb_spec k' k) as [-> | _]; [exfalso; auto | apply IH; auto].
Qed.

Lemma map_columns_nodup cells :
  forall col_idx column_indices,
    NoDup (map fst column_indices) ->
    NoDup (map fst (ExcelImporter.map_columns col_idx cells column_indices)).
Proof.
  induction cells as [| cell rest IH]; intros col_idx column_indices Hd;
    cbn [ExcelImporter.map_columns]; [exact Hd |].
  apply IH. destruct (truthy cell); [| exact Hd].
  destruct (ExcelImporter.match_column ExcelImporter.COLUMN_MAPPING (strip (str cell)));
    [apply dict_set_nodup, Hd | exact Hd].
Qed.

Lemma find_header_nodup rows :
  forall row_idx header_row column_indices,
    ExcelImporter.find_header row_idx rows = Some (header_row, column_indices) ->
    NoDup (map fst column_indices).
Proof.
  induction rows as [| row rest IH]; intros row_idx header_row column_indices;
    cbn [ExcelImporter.find_header]; [discriminate |].
  destruct row as [| c row]; [apply IH |].
  destruct (ExcelImporter.is_header_row (c :: row)); [| apply IH].
  intros H.
  assert (Hc : column_indices = ExcelImporter.map_columns 0 (c :: row) []) by congruence.
  rewrite Hc. apply map_columns_nodup. constructor.
Qed.

Lemma incomplete_warnings_app l l' :
  incomplete_warnings (l ++ l') = (incomplete_warnings l ++ incomplete_warnings l')%list.
Proof.
  induction l as [| m l IH]; simpl; [reflexivity |].
  destruct m; simpl; rewrite IH; reflexivity.
Qed.

Lemma parse_score_incomplete_warnings value field_name row_num self n self' :
  ExcelImporter._parse_score value field_name row_num self = Ok (n, self') ->
  incomplete_warnings (ExcelImporter.warnings self')
  = incomplete_warnings (ExcelImporter.warnings self).
Proof.
  unfold ExcelImporter._parse_score. rewrite reading_of_run.
  destruct (reading_of value) as [score | |]; simpl.
  - destruct ((1 <=? score) && (score <=? 10)); intros H; inversion H; subst; simpl.
    + reflexivity.
    + rewrite incomplete_warnings_app. simpl. apply app_nil_r.
  - intros H. inversion H. reflexivity.
  - discriminate.
Qed.


Lemma field_text_cons field col_idx rest k row :
  field_text ((field, col_idx) :: rest) k row
  = if String.eqb field k
    then match nth_error row col_idx with
         | Some v => Some (if truthy v then ExcelImporter._clean_text v else "")
         | None => None
         end
    else field_text rest k row.
Proof. unfold field_text. simpl. destruct (String.eqb field k); reflexivity. Qed.

Lemma field_text_notin column_indices k row :
  ~ In k (map fst column_indices) -> field_text column_indices k row = None.
Proof. intros H. unfold field_text. rewrite (dict_get_notin _ _ H). reflexivity. Qed.

(** What [fill_fields] leaves for a text field, and that it appends no
    incomplete-row warning. *)
Lemma fill_fields_text row row_idx :
  forall column_indices failure_data self failure_data' self',
    NoDup (map fst column_indices) ->
    ExcelImporter.fill_fields column_indices row row_idx failure_data self
    = Ok (failure_data', self') ->
    (forall k, ExcelImporter.is_score_field k = false ->
               dict_get k failure_data'
               = match field_text column_indices k row with
                 | Some s => Some (VStr s)
                 | None => dict_get k failure_data
                 end)
    /\ incomplete_warnings (ExcelImporter.warnings self')
       = incomplete_warnings (ExcelImporter.warnings self).
Proof.
  induction column_indices as [| [field col_idx] rest IH];
    intros failure_data self failure_data' self' Hnodup Hrun; simpl in Hrun.
  - inversion Hrun. subst. split; [intros k _; reflexivity | reflexivity].
  - simpl in Hnodup. inversion Hnodup as [| ? ? Hnotin Hnodup']. subst.
    assert (Hrest : forall k, field = k -> field_text rest k row = None)
      by (intros k <-; apply field_text_notin, Hnotin).
    destruct (nth_error row col_idx) as [value |] eqn:Hcell.
    + destruct (ExcelImporter.is_score_field field) eqn:Hscore.
      * apply mbind_ok in Hrun. destruct Hrun as (score & self1 & Hp & Hrun).
        destruct (IH _ _ _ _ Hnodup' Hrun) as [Htext Hwarn].
        split.
        -- intros k Hk. rewrite (Htext k Hk), field_text_cons, dict_get_set.
           destruct (String.eqb_spec field k) as [-> | _]; [congruence | reflexivity].
        -- rewrite Hwarn. exact (parse_score_incomplete_warnings _ _ _ _ _ _ Hp).
      * destruct (IH _ _ _ _ Hnodup' Hrun) as [Htext Hwarn].
        split; [| exact Hwarn].
        intros k Hk. rewrite (Htext k Hk), field_text_cons, dict_get_set, Hcell.
        destruct (String.eqb_spec field k) as [Heq | _]; [| reflexivity].
        rewrite (Hrest k Heq). reflexivity.
    + destruct (IH _ _ _ _ Hnodup' Hrun) as [Htext Hwarn].
      split; [| exact Hwarn].
      intros k Hk. rewrite (Htext k Hk), field_text_cons, Hcell.
      destruct (String.eqb_spec field k) as [Heq | _]; [| reflexivity].
      rewrite (Hrest k Heq). reflexivity.
Qed.




(** ** The validate step *)

Lemma with_errors_nil self : with_errors self [] = self.
Proof. destruct self. unfold with_errors. simpl. rewrite app_nil_r. reflexivity. Qed.

Lemma with_errors_app self a b :
  with_errors (with_errors self a) b = with_errors self (a ++ b).
Proof. unfold with_errors. simpl. rewrite app_assoc. reflexivity. Qed.

Lemma guard_run (ok : bool) (m : message) self :
  exists added,
    (if negb ok then ExcelImporter.err m else ExcelImporter.ret tt) self
    = Ok (tt, with_errors self added)
    /\ (added = [] <-> ok = true).
Proof.
  destruct ok; cbn [negb].
  - exists []. rewrite with_errors_nil. split; [reflexivity | tauto].
  - exists [m]. split; [reflexivity |]. split; discriminate.
Qed.

Lemma check_score_run idx failure field self :
  exists added,
    ExcelImporter.check_score idx failure field self = Ok (tt, with_errors self added)
    /\ (added = [] <-> score_checks field failure = true).
Proof.
  unfold ExcelImporter.check_score, score_checks.
  destruct (dict_get field failure) as [v |].
  - destruct v as [| b | n | f | s | d | t];
      try (eexists [_]; split; [reflexivity | split; discriminate]).
    + apply guard_run.
    + apply guard_run.
  - eexists [_]. split; [reflexivity | split; discriminate].
Qed.

Lemma seq_errors (m k : ExcelImporter.M unit) self a1 (c1 : Prop) :
  m self = Ok (tt, with_errors self a1) ->
  (a1 = [] <-> c1) ->
  forall c2 : Prop,
    (forall self1, exists a2, k self1 = Ok (tt, with_errors self1 a2) /\ (a2 = [] <-> c2)) ->
    exists added,
      ExcelImporter.mbind m (fun _ => k) self = Ok (tt, with_errors self added)
      /\ (added = [] <-> c1 /\ c2).
Proof.
  intros Hm H1 c2 Hk. destruct (Hk (with_errors self a1)) as (a2 & Hk2 & H2).
  exists (a1 ++ a2)%list. rewrite (mbind_run _ _ _ _ _ Hm), Hk2, with_errors_app.
  split; [reflexivity |].
  split.
  - intros H. apply app_eq_nil in H. tauto.
  - intros [Hc1 Hc2]. apply H1 in Hc1. apply H2 in Hc2. subst. reflexivity.
Qed.

Lemma check_failures_run failures :
  forall idx self,
    exists added,
      ExcelImporter.check_failures idx failures self = Ok (tt, with_errors self added)
      /\ (added = [] <-> forallb failure_checks failures = true).
Proof.
  induction failures as [| failure rest IH]; intros idx self;
    cbn [ExcelImporter.check_failures forallb].
  - exists []. rewrite with_errors_nil. split; [reflexivity | tauto].
  - destruct (guard_run (get_truthy "component" failure) (ComponentMissing idx) self)
      as (a1 & H1 & E1).
    destruct (seq_errors _
                (ExcelImporter.mbind
                   (if negb (get_truthy "failure_mode" failure)
                    then ExcelImporter.err (FailureModeMissing idx)
                    else ExcelImporter.ret tt)
                   (fun _ =>
                      ExcelImporter.mbind (ExcelImporter.check_score idx failure "gravity")
                        (fun _ =>
                           ExcelImporter.mbind
                             (ExcelImporter.check_score idx failure "occurrence")
                             (fun _ =>
                                ExcelImporter.mbind
                                  (ExcelImporter.check_score idx failure "detection")
                                  (fun _ => ExcelImporter.check_failures (S idx) rest)))))
                self a1 _ H1 E1
                (get_truthy "failure_mode" failure = true
                 /\ score_checks "gravity" failure = true
                 /\ score_checks "occurrence" failure = true
                 /\ score_checks "detection" failure = true
                 /\ forallb failure_checks rest = true))
      as (added & Hrun & Hadded).
    { intros self1.
      destruct (guard_run (get_truthy "failure_mode" failure) (FailureModeMissing idx) self1)
        as (a2 & H2 & E2).
      apply (seq_errors _ _ _ _ _ H2 E2). intros self2.
      destruct (check_score_run idx failure "gravity" self2) as (a3 & H3 & E3).
      apply (seq_errors _ _ _ _ _ H3 E3). intros self3.
      destruct (check_score_run idx failure "occurrence" self3) as (a4 & H4 & E4).
      apply (seq_errors _ _ _ _ _ H4 E4). intros self4.
      destruct (check_score_run idx failure "detection" self4) as (a5 & H5 & E5).
      apply (seq_errors _ _ _ _ _ H5 E5). intros self5.
      apply IH. }
    exists added. split; [exact Hrun |].
    rewrite Hadded. unfold failure_checks. rewrite !andb_true_iff. tauto.
Qed.








(** ** The sheet that the exporter writes *)

Lemma write_row_cell values :
  forall ws row column r c,
    ExcelExporter.cell (ExcelExporter.write_row ws row column values) r c
    = if Nat.eqb r row && Nat.leb column c && Nat.ltb c (column + List.length values)
      then nth (c - column) values VNone
      else ExcelExporter.cell ws r c.
Proof.
  induction values as [| v rest IH]; intros ws row column r c;
    cbn [ExcelExporter.write_row List.length].
  - destruct (Nat.eqb r row); cbn [andb]; [| reflexivity].
    destruct (Nat.leb_spec column c); cbn [andb]; [| reflexivity].
    destruct (Nat.ltb_spec c (column + 0)); [lia | reflexivity].
  - rewrite IH. cbn [ExcelExporter.set_value ExcelExporter.cell].
    destruct (Nat.eqb_spec r row) as [-> | Hr]; cbn [andb]; [| reflexivity].
    destruct (Nat.leb_spec (S column) c) as [H1 | H1];
      destruct (Nat.ltb_spec c (S column + List.length rest)) as [H2 | H2];
      destruct (Nat.leb_spec column c) as [H3 | H3];
      destruct (Nat.ltb_spec c (column + S (List.length rest))) as [H4 | H4];
      destruct (Nat.eqb_spec c column) as [H5 | H5];
      cbn [andb]; try lia; try reflexivity.
    + replace (c - column)%nat with (S (c - S column)) by lia. reflexivity.
    + subst c. rewrite Nat.sub_diag. reflexivity.
Qed.

Lemma write_row_extent values :
  forall ws row column,
    values <> [] ->
    ExcelExporter.max_row (ExcelExporter.write_row ws row column values)
    = Nat.max (ExcelExporter.max_row ws) row
    /\ ExcelExporter.max_column (ExcelExporter.write_row ws row column values)
       = Nat.max (ExcelExporter.max_column ws) (column + List.length values - 1).
Proof.
  induction values as [| v rest IH]; intros ws row column Hne; [congruence |].
  cbn [ExcelExporter.write_row List.length].
  destruct rest as [| v' rest].
  - cbn [ExcelExporter.write_row ExcelExporter.set_value ExcelExporter.max_row
           ExcelExporter.max_column List.length].
    split; [reflexivity | f_equal; lia].
  - destruct (IH (ExcelExporter.set_value ws row column v) row (S column) ltac:(discriminate))
      as [Hr Hc].
    rewrite Hr, Hc.
    cbn [ExcelExporter.set_value ExcelExporter.max_row ExcelExporter.max_column List.length].
    split; lia.
Qed.

Lemma map_nth_seq_from (l : list value) :
  forall start,
    map (fun c => nth (c - start) l VNone) (seq start (List.length l)) = l.
Proof.
  induction l as [| v l IH]; intros start; [reflexivity |].
  cbn [List.length seq map]. rewrite Nat.sub_diag. cbn [nth]. f_equal.
  rewrite <- (IH (S start)) at 2.
  apply map_ext_in. intros c Hin. apply in_seq in Hin.
  replace (c - start)%nat with (S (c - S start)) by lia. reflexivity.
Qed.

Lemma map_nth_seq (l : list value) :
  map (fun c => nth (c - 1) l VNone) (seq 1 (List.length l)) = l.
Proof. apply map_nth_seq_from. Qed.

(** Writing a full-width row just below the last one adds it to what a
    reader sees. *)
Lemma iter_rows_append ws values :
  values <> [] ->
  List.length values = ExcelExporter.max_column ws ->
  ExcelExporter.iter_rows
    (ExcelExporter.write_row ws (S (ExcelExporter.max_row ws)) 1 values)
  = (ExcelExporter.iter_rows ws ++ [values])%list.
Proof.
  intros Hne Hlen. unfold ExcelExporter.iter_rows.
  destruct (write_row_extent values ws (S (ExcelExporter.max_row ws)) 1 Hne) as [Hr Hc].
  rewrite Hr, Hc.
  replace (Nat.max (ExcelExporter.max_row ws) (S (ExcelExporter.max_row ws)))
    with (S (ExcelExporter.max_row ws)) by lia.
  replace (Nat.max (ExcelExporter.max_column ws) (1 + List.length values - 1))
    with (ExcelExporter.max_column ws) by lia.
  rewrite seq_S, map_app. cbn [map]. f_equal.
  - apply map_ext_in. intros r Hin. apply in_seq in Hin.
    apply map_ext. intros c. rewrite write_row_cell.
    destruct (Nat.eqb_spec r (S (ExcelExporter.max_row ws))); [lia | reflexivity].
  - f_equal. cbn [Nat.add]. rewrite <- Hlen. rewrite <- (map_nth_seq values) at 2.
    apply map_ext_in. intros c Hin. apply in_seq in Hin.
    rewrite write_row_cell, Nat.eqb_refl.
    destruct (Nat.leb_spec 1 c); [| lia].
    destruct (Nat.ltb_spec c (1 + List.length values)); [| lia].
    reflexivity.
Qed.

Lemma write_failures_rows failures :
  forall ws,
    ExcelExporter.max_column ws = 10%nat ->
    ExcelExporter.iter_rows
      (ExcelExporter.write_failures ws (S (ExcelExporter.max_row ws)) failures)
    = (ExcelExporter.iter_rows ws ++ map ExcelExporter.row_data failures)%list.
Proof.
  induction failures as [| failure rest IH]; intros ws Hwidth;
    cbn [ExcelExporter.write_failures map].
  - rewrite app_nil_r. reflexivity.
  - destruct (write_row_extent (ExcelExporter.row_data failure) ws
                (S (ExcelExporter.max_row ws)) 1 ltac:(discriminate)) as [Hr Hc].
    pose proof (iter_rows_append ws (ExcelExporter.row_data failure)
                  ltac:(discriminate) ltac:(rewrite Hwidth; reflexivity)) as Happ.
    set (ws1 := ExcelExporter.write_row ws (S (ExcelExporter.max_row ws)) 1
                                        (ExcelExporter.row_data failure)) in *.
    assert (Hr' : ExcelExporter.max_row ws1 = S (ExcelExporter.max_row ws))
      by (rewrite Hr; lia).
    rewrite <- Hr'. rewrite IH.
    + rewrite Happ, <- app_assoc. reflexivity.
    + rewrite Hc, Hwidth. reflexivity.
Qed.

(** What a reader sees of the failure sheet: the title row, an empty row,
    the header, and one row per failure in the order of the export. *)
Lemma failures_sheet_rows project :
  ExcelExporter.iter_rows (ExcelExporter.generate_failures_sheet project)
  = ((VStr (sheet_title project) :: repeat VNone 9)
     :: repeat VNone 10
     :: map VStr ExcelExporter.FAILURE_HEADERS
     :: map ExcelExporter.row_data
          (ExcelExporter.sort_by ExcelExporter.by_scores_desc (failures project))).
Proof.
  unfold ExcelExporter.generate_failures_sheet. fold (sheet_title project).
  generalize (sheet_title project) as title. intros title.
  set (ws := ExcelExporter.write_row _ 3 1 _).
  assert (Hrows : ExcelExporter.iter_rows ws
                  = [VStr title :: repeat VNone 9; repeat VNone 10;
                     map VStr ExcelExporter.FAILURE_HEADERS])
    by (vm_compute; reflexivity).
  assert (Hmax : ExcelExporter.max_row ws = 3%nat) by reflexivity.
  assert (Hwidth : ExcelExporter.max_column ws = 10%nat) by reflexivity.
  change 4%nat with (S 3). rewrite <- Hmax.
  rewrite (write_failures_rows _ ws Hwidth), Hrows. reflexivity.
Qed.

(** ** Reading back an exported sheet *)




(** ** What a file gives back *)


















(** * Further properties *)

(** ** Scores in the validators *)

Lemma replace_comma_cons c s :
  replace "," "." (String c s) = String (comma_to_dot c) (replace "," "." s).
Proof.
  unfold replace, comma_to_dot. cbn [replace_from prefix String.length Nat.pred].
  destruct (Ascii.ascii_dec "," c) as [<- | Hne].
  - destruct s; reflexivity.
  - destruct (Ascii.eqb_spec c ","); [congruence | reflexivity].
Qed.

Lemma comma_to_dot_space c : isspace (comma_to_dot c) = isspace c.
Proof. destruct c as [[] [] [] [] [] [] [] []]; reflexivity. Qed.

Lemma comma_to_dot_twice c : comma_to_dot (comma_to_dot c) = comma_to_dot c.
Proof. destruct c as [[] [] [] [] [] [] [] []]; reflexivity. Qed.

Lemma replace_comma_twice s :
  replace "," "." (replace "," "." s) = replace "," "." s.
Proof.
  induction s as [| c s IH]; [reflexivity |].
  rewrite !replace_comma_cons, comma_to_dot_twice, IH. reflexivity.
Qed.

Lemma lstrip_replace_comma s :
  lstrip_by isspace (replace "," "." s) = replace "," "." (lstrip_by isspace s).
Proof.
  induction s as [| c s IH]; [reflexivity |].
  rewrite replace_comma_cons. cbn [lstrip_by]. rewrite comma_to_dot_space.
  destruct (isspace c); [exact IH | rewrite replace_comma_cons; reflexivity].
Qed.

Lemma rstrip_replace_comma s :
  rstrip_by isspace (replace "," "." s) = replace "," "." (rstrip_by isspace s).
Proof.
  induction s as [| c s IH]; [reflexivity |].
  rewrite replace_comma_cons. cbn [rstrip_by]. rewrite IH, comma_to_dot_space.
  destruct (rstrip_by isspace s) as [| d r].
  - cbn. destruct (isspace c); [reflexivity | rewrite replace_comma_cons; reflexivity].
  - rewrite !replace_comma_cons. reflexivity.
Qed.

Lemma strip_replace_comma s :
  strip (replace "," "." s) = replace "," "." (strip s).
Proof. unfold strip. rewrite lstrip_replace_comma, rstrip_replace_comma. reflexivity. Qed.

(** A score that [validate_score] returns is an integer from 1 to 10, and
    validating it again, under any field name, returns it unchanged. *)
Theorem validate_score_stable :
  forall (value : value) (field_name : string) (score : Z),
    Validators.validate_score value field_name = Ok score ->
    1 <= score <= 10
    /\ forall label, Validators.validate_score (VInt score) label = Ok score.
Proof.
  intros value field_name score H.
  assert (Hrange : 1 <= score <= 10).
  { destruct (try_validate_cases value field_name [])
      as [(n & Hn & Hr & _) | [(m & Hm & _) | (e & He & _)]]; congruence. }
  split; [exact Hrange |].
  intros label.
  assert (Hcases : score = 1 \/ score = 2 \/ score = 3 \/ score = 4 \/ score = 5
                   \/ score = 6 \/ score = 7 \/ score = 8 \/ score = 9 \/ score = 10) by lia.
  destruct Hcases as [-> | [-> | [-> | [-> | [-> | [-> | [-> | [-> | [-> | ->]]]]]]]]];
    vm_compute; reflexivity.
Qed.

Lemma validate_score_stable_witness :
  Validators.validate_score (VStr " 7,9 ") "Gravité (G)" = Ok 7
  /\ 1 <= 7 <= 10
  /\ Validators.validate_score (VInt 7) "Occurrence (O)" = Ok 7.
Proof.
  assert (H : Validators.validate_score (VStr " 7,9 ") "Gravité (G)" = Ok 7)
    by (vm_compute; reflexivity).
  destruct (validate_score_stable _ _ _ H) as [Hr Hs].
  split; [exact H |]. split; [exact Hr | exact (Hs "Occurrence (O)")].
Defined.

(** In a text score the decimal comma counts as a decimal point:
    [validate_score] gives the same result, or raises the same error,
    for a text and for the text with each comma turned into a point. *)
Theorem validate_score_decimal_comma :
  forall (s field_name : string),
    Validators.validate_score (VStr s) field_name
    = Validators.validate_score (VStr (replace "," "." s)) field_name.
Proof.
  intros s field_name. unfold Validators.validate_score.
  rewrite strip_replace_comma, replace_comma_twice. reflexivity.
Qed.

(** When [validate_criticality_scores] returns, each of the three scores
    is the one [validate_score] gives for its argument, so each is from 1
    to 10 and their product from 1 to 1000; the logger gets one record,
    and only when the product is above 500. *)
Theorem validate_criticality_scores_result :
  forall (gravity occurrence detection : value) (g o d : Z) (log : list message),
    Validators.validate_criticality_scores gravity occurrence detection = Ok ((g, o, d), log) ->
    Validators.validate_score gravity "Gravité (G)" = Ok g
    /\ Validators.validate_score occurrence "Occurrence (O)" = Ok o
    /\ Validators.validate_score detection "Détection (D)" = Ok d
    /\ 1 <= g <= 10 /\ 1 <= o <= 10 /\ 1 <= d <= 10
    /\ 1 <= g * o * d <= 1000
    /\ log = (if 500 <? g * o * d then [VeryHighCriticality (g * o * d) g o d] else []).
Proof.
  intros gravity occurrence detection g o d log.
  unfold Validators.validate_criticality_scores.
  destruct (try_validate_cases gravity "Gravité (G)" [])
    as [(g' & Vg & Rg & Tg) | [(mg & Vg & Tg) | (e & Vg & Tg)]]; rewrite Tg; cbn [bind app];
    [| | discriminate].
  - destruct (try_validate_cases occurrence "Occurrence (O)" [])
      as [(o' & Vo & Ro & To) | [(mo & Vo & To) | (e & Vo & To)]]; rewrite To; cbn [bind app];
      [| | discriminate].
    + destruct (try_validate_cases detection "Détection (D)" [])
        as [(d' & Vd & Rd & Td) | [(md & Vd & Td) | (e & Vd & Td)]]; rewrite Td; cbn [bind app];
        [| discriminate | discriminate].
      cbn [Validators.int_value]. intros H. inversion H. subst g' o' d'.
      assert (1 <= g * o <= 100) by nia.
      repeat split; try assumption; try lia; nia.
    + destruct (try_validate_cases detection "Détection (D)" [mo])
        as [(d' & Vd & Rd & Td) | [(md & Vd & Td) | (e & Vd & Td)]]; rewrite Td; cbn [bind app];
        discriminate.
  - destruct (try_validate_cases occurrence "Occurrence (O)" [mg])
      as [(o' & Vo & Ro & To) | [(mo & Vo & To) | (e & Vo & To)]]; rewrite To; cbn [bind app];
      [| | discriminate].
    + destruct (try_validate_cases detection "Détection (D)" [mg])
        as [(d' & Vd & Rd & Td) | [(md & Vd & Td) | (e & Vd & Td)]]; rewrite Td; cbn [bind app];
        discriminate.
    + destruct (try_validate_cases detection "Détection (D)" [mg; mo])
        as [(d' & Vd & Rd & Td) | [(md & Vd & Td) | (e & Vd & Td)]]; rewrite Td; cbn [bind app];
        discriminate.
Qed.

Lemma validate_criticality_scores_result_witness :
  Validators.validate_score (VStr "9,5") "Gravité (G)" = Ok 9
  /\ 1 <= 9 * 8 * 7 <= 1000
  /\ [VeryHighCriticality 504 9 8 7]
     = (if 500 <? 9 * 8 * 7 then [VeryHighCriticality (9 * 8 * 7) 9 8 7] else []).
Proof.
  assert (H : Validators.validate_criticality_scores (VStr "9,5") (VInt 8) (VInt 7)
              = Ok ((9, 8, 7), [VeryHighCriticality 504 9 8 7]))
    by (vm_compute; reflexivity).
  destruct (validate_criticality_scores_result _ _ _ _ _ _ _ H)
    as (Hg & _ & _ & _ & _ & _ & Hp & Hl).
  split; [exact Hg |]. split; [exact Hp | exact Hl].
Defined.

(** Away from the overflow, one call reports every bad score: with 11 for
    the gravity and a text that is no number for the occurrence, the
    error raised holds the message of each. *)
Lemma validate_criticality_scores_aggregates_witness :
  exists m rest,
    Validators.validate_criticality_scores (VInt 11) (VStr "abc") (VInt 5)
    = Raise (ValidationError (m :: rest))
    /\ In (OutOfBounds "Gravité (G)" 11) (m :: rest)
    /\ In (NotANumber "Occurrence (O)" "abc") (m :: rest).
Proof.
  destruct (validate_criticality_scores_aggregates (VInt 11) (VStr "abc") (VInt 5))
    as [(g & o & d & Hg & _) | (m & rest & Hr & Hall)].
  - intros e H. vm_compute in H. discriminate.
  - intros e H. vm_compute in H. discriminate.
  - intros e H. vm_compute in H. discriminate.
  - vm_compute in Hg. discriminate.
  - exists m, rest. split; [exact Hr |]. split.
    + apply (Hall (VInt 11) "Gravité (G)"); [left; reflexivity | vm_compute; reflexivity].
    + apply (Hall (VStr "abc") "Occurrence (O)");
        [right; left; reflexivity | vm_compute; reflexivity].
Defined.

(** ** References, once validated *)

Lemma string_forall_app p a b :
  string_forall p (a ++ b) = string_forall p a && string_forall p b.
Proof.
  induction a as [| c a IH]; [reflexivity |].
  cbn [append string_forall]. rewrite IH, andb_assoc. reflexivity.
Qed.

Lemma string_forall_impl (p q : ascii -> bool) s :
  (forall c, p c = true -> q c = true) ->
  string_forall p s = true -> string_forall q s = true.
Proof.
  intros Hpq. induction s as [| c s IH]; [reflexivity |].
  cbn [string_forall]. rewrite !andb_true_iff. intros [Hc Hs]. auto.
Qed.

Lemma all_digits_forall s : all_digits s = string_forall is_digit s.
Proof. induction s as [| c s IH]; [reflexivity |]. simpl. rewrite IH. reflexivity. Qed.

Lemma reference_char_facts c :
  Validators.reference_char c = true ->
  isspace c = false /\ in_range 97 122 c = false /\ (code c =? 195) = false.
Proof. destruct c as [[] [] [] [] [] [] [] []]; vm_compute; intuition congruence. Qed.

Lemma digit_reference_char c : is_digit c = true -> Validators.reference_char c = true.
Proof. destruct c as [[] [] [] [] [] [] [] []]; vm_compute; intuition congruence. Qed.

Lemma lstrip_nonspace sp s :
  string_forall (fun c => negb (sp c)) s = true -> lstrip_by sp s = s.
Proof.
  destruct s as [| c s]; [reflexivity |]. cbn [string_forall lstrip_by].
  rewrite andb_true_iff, negb_true_iff. intros [-> _]. reflexivity.
Qed.

Lemma rstrip_nonspace sp s :
  string_forall (fun c => negb (sp c)) s = true -> rstrip_by sp s = s.
Proof.
  induction s as [| c s IH]; [reflexivity |]. cbn [string_forall rstrip_by].
  rewrite andb_true_iff, negb_true_iff. intros [Hc Hs]. rewrite (IH Hs), Hc.
  destruct s; reflexivity.
Qed.

Lemma strip_nonspace s :
  string_forall (fun c => negb (isspace c)) s = true -> strip s = s.
Proof.
  intros H. unfold strip. rewrite (lstrip_nonspace _ _ H). apply rstrip_nonspace, H.
Qed.

Lemma strip_reference_text s :
  string_forall Validators.reference_char s = true -> strip s = s.
Proof.
  intros H. apply strip_nonspace. revert H. apply string_forall_impl.
  intros c Hc. destruct (reference_char_facts c Hc) as [-> _]. reflexivity.
Qed.

Lemma upper_reference_text s :
  string_forall Validators.reference_char s = true -> upper s = s.
Proof.
  induction s as [| c s IH]; [reflexivity |]. cbn [string_forall upper].
  rewrite andb_true_iff. intros [Hc Hs].
  destruct (reference_char_facts c Hc) as (_ & -> & ->). rewrite (IH Hs). reflexivity.
Qed.

Lemma reference_text_pattern s :
  reference_text s = true -> Validators.reference_pattern s = true.
Proof.
  unfold reference_text. destruct s as [| c s]; [discriminate |].
  cbn [str_nonempty andb string_forall Validators.reference_pattern].
  rewrite !andb_true_iff. intros [Hc Hs]. split; [exact Hc |].
  clear c Hc. induction s as [| c s IH]; [reflexivity |].
  cbn [string_forall Validators.reference_tail] in *.
  apply andb_true_iff in Hs. destruct Hs as [Hc Hs].
  rewrite Hc, (IH Hs). reflexivity.
Qed.

(** A text of the class, of 3 to 50 characters, is a reference that
    validation returns as it is. *)
Lemma validate_reference_fixed now r :
  reference_text r = true ->
  (3 <= String.length r <= 50)%nat ->
  Validators.validate_reference now r = Ok r.
Proof.
  intros Htext Hlen. unfold Validators.validate_reference.
  pose proof Htext as Hboth. unfold reference_text in Hboth.
  apply andb_true_iff in Hboth. destruct Hboth as [Hne Hchars].
  rewrite Hne. cbn [negb]. cbv zeta.
  rewrite (strip_reference_text _ Hchars), (upper_reference_text _ Hchars).
  rewrite (reference_text_pattern _ Htext). cbn [negb].
  destruct (Nat.ltb_spec 50 (String.length r)); [lia |].
  destruct (Nat.ltb_spec (String.length r) 3); [lia |]. reflexivity.
Qed.

(** A reference that [validate_reference] returns for a non-empty text is
    stable: validating it again, at any time, returns it unchanged. *)
Theorem validate_reference_stable :
  forall (now now' : datetime) (reference r : string),
    str_nonempty reference = true ->
    Validators.validate_reference now reference = Ok r ->
    Validators.validate_reference now' r = Ok r.
Proof.
  intros now now' reference r Hne. unfold Validators.validate_reference at 1.
  rewrite Hne. cbn [negb]. cbv zeta. rewrite stripped_upper_pattern.
  set (u := upper (strip reference)).
  destruct (reference_text u) eqn:Htext; cbn [negb]; [| discriminate].
  destruct (Nat.ltb_spec 50 (String.length u)) as [| Hlong]; [discriminate |].
  destruct (Nat.ltb_spec (String.length u) 3) as [| Hshort]; [discriminate |].
  intros Hr. inversion Hr. subst r. apply validate_reference_fixed; [exact Htext | lia].
Qed.

Lemma validate_reference_stable_witness :
  Validators.validate_reference sample_now " ref-001 " = Ok "REF-001"
  /\ Validators.validate_reference sample_datetime "REF-001" = Ok "REF-001".
Proof.
  assert (H : Validators.validate_reference sample_now " ref-001 " = Ok "REF-001")
    by (vm_compute; reflexivity).
  split; [exact H |].
  exact (validate_reference_stable sample_now sample_datetime " ref-001 " "REF-001" eq_refl H).
Defined.

Lemma clock_fields now :
  valid_clock now = true ->
  (1000 <= year (dt_date now) <= 9999) /\ (0 <= month (dt_date now) <= 99)
  /\ (0 <= day (dt_date now) <= 99) /\ (0 <= hour now <= 99)
  /\ (0 <= minute now <= 99) /\ (0 <= second now <= 99).
Proof.
  unfold valid_clock. rewrite !andb_true_iff, !Z.leb_le. lia.
Qed.

(** The references the program makes up are valid ones.  With the clock
    at a four-digit year, the reference that [validate_reference] gives
    for an empty text and the one the importer starts from (which a sheet
    without a reference row keeps) both pass [validate_reference]
    unchanged. *)
Theorem default_references_valid :
  forall (now now' : datetime) (today : date) self,
    valid_clock now = true ->
    (exists generated,
        Validators.validate_reference now "" = Ok generated
        /\ Validators.validate_reference now' generated = Ok generated)
    /\ (exists metadata,
           ExcelImporter._extract_metadata today now [] self = Ok (metadata, self)
           /\ dict_get "reference" metadata = Some (VStr (default_reference now))
           /\ Validators.validate_reference now' (default_reference now)
              = Ok (default_reference now)).
Proof.
  intros now now' today self Hclock.
  destruct (clock_fields now Hclock) as (Hy & Hm & Hd & HH & HM & HS).
  destruct (four_digits _ Hy) as [Yd Yl].
  destruct (two_digits _ Hm) as [md ml]. destruct (two_digits _ Hd) as [dd dl].
  destruct (two_digits _ HH) as [Hd' Hl]. destruct (two_digits _ HM) as [Md Ml].
  destruct (two_digits _ HS) as [Sd Sl].
  rewrite all_digits_forall in Yd, md, dd, Hd', Md, Sd.
  pose proof (fun s H => string_forall_impl is_digit Validators.reference_char s
                           digit_reference_char H) as Hdig.
  split.
  - eexists. split; [reflexivity |].
    apply validate_reference_fixed.
    + unfold reference_text. cbn [strftime map strftime_item String.concat append str_nonempty andb].
      repeat (progress (rewrite ?string_forall_app; cbn [string_forall append])).
      rewrite !Hdig by assumption. vm_compute. reflexivity.
    + cbn [strftime map strftime_item String.concat append String.length].
      repeat (progress (rewrite ?length_app; cbn [String.length])).
      rewrite Yl, ml, dl, Hl, Ml, Sl. cbn. lia.
  - eexists. split; [reflexivity |]. split; [reflexivity |].
    apply validate_reference_fixed.
    + unfold reference_text, default_reference.
      cbn [strftime map strftime_item String.concat append str_nonempty andb].
      repeat (progress (rewrite ?string_forall_app; cbn [string_forall append])).
      rewrite !Hdig by assumption. vm_compute. reflexivity.
    + unfold default_reference.
      cbn [strftime map strftime_item String.concat append String.length].
      repeat (progress (rewrite ?length_app; cbn [String.length])).
      rewrite Yl, ml, dl, Hl, Ml. cbn. lia.
Qed.

Lemma default_references_valid_witness :
  valid_clock sample_now = true
  /\ Validators.validate_reference sample_datetime "AMDEC-20261103-102030"
     = Ok "AMDEC-20261103-102030"
  /\ Validators.validate_reference sample_datetime "AMDEC-20261103-1020"
     = Ok "AMDEC-20261103-1020".
Proof.
  destruct (default_references_valid sample_now sample_datetime sample_today
              ExcelImporter.init eq_refl)
    as ((g & Hg & Hv) & (md & _ & _ & Hd)).
  split; [reflexivity |].
  split.
  - assert (Hgen : g = "AMDEC-20261103-102030").
    { assert (E : Ok g = @Ok exn string "AMDEC-20261103-102030") by (rewrite <- Hg; reflexivity).
      inversion E. reflexivity. }
    rewrite Hgen in Hv. exact Hv.
  - exact Hd.
Defined.

(** ** Cleaned text *)

Lemma is_word_cons c w :
  is_word (String c w) = negb (isspace c) && string_forall (fun c => negb (isspace c)) w.
Proof. reflexivity. Qed.

Lemma split_words s : Forall (fun w => is_word w = true) (split s).
Proof.
  induction s as [| c s IH]; cbn [split]; [constructor |].
  destruct (isspace c) eqn:Hc; [exact IH |].
  assert (Hone : is_word (String c "") = true) by (rewrite is_word_cons, Hc; reflexivity).
  destruct s as [| d s]; [constructor; [exact Hone | constructor] |].
  destruct (isspace d) eqn:Hd; [constructor; [exact Hone | exact IH] |].
  destruct (split (String d s)) as [| w ws]; [constructor; [exact Hone | constructor] |].
  inversion IH as [| ? ? Hw Hws]. subst. constructor; [| exact Hws].
  rewrite is_word_cons, Hc. cbn [negb andb].
  unfold is_word in Hw. apply andb_true_iff in Hw. exact (proj2 Hw).
Qed.

(** A word at the head of a text, when the text ends there or white space
    follows, is the first word that [split] gives. *)
Lemma split_word_app w :
  is_word w = true ->
  forall rest,
    match rest with String d _ => isspace d = true | EmptyString => True end ->
    split (w ++ rest) = w :: split rest.
Proof.
  induction w as [| c w IH]; [discriminate |].
  rewrite is_word_cons, andb_true_iff, negb_true_iff. intros [Hc Hw] rest Hrest.
  cbn [append split]. rewrite Hc.
  destruct w as [| e w].
  - cbn [append]. destruct rest as [| d rest]; [reflexivity |]. rewrite Hrest. reflexivity.
  - assert (He : is_word (String e w) = true) by (rewrite is_word_cons; exact Hw).
    pose proof (IH He rest Hrest) as Hsplit. cbn [append] in *.
    cbn [string_forall] in Hw. apply andb_true_iff in Hw. destruct Hw as [Hne _].
    apply negb_true_iff in Hne. rewrite Hne, Hsplit. reflexivity.
Qed.

Lemma append_empty (s : string) : s ++ "" = s.
Proof. induction s as [| c s IH]; [reflexivity |]. cbn [append]. rewrite IH. reflexivity. Qed.

Lemma split_join ws :
  Forall (fun w => is_word w = true) ws -> split (join " " ws) = ws.
Proof.
  unfold join. induction ws as [| w ws IH]; intros Hall; [reflexivity |].
  inversion Hall as [| ? ? Hw Hws]. subst. cbn [String.concat].
  destruct ws as [| w' ws].
  - rewrite <- (append_empty w) at 1. rewrite (split_word_app w Hw "" I). reflexivity.
  - rewrite (split_word_app w Hw); [| reflexivity].
    change (split (" " ++ String.concat " " (w' :: ws)))
      with (split (String.concat " " (w' :: ws))).
    rewrite (IH Hws). reflexivity.
Qed.

Lemma join_nonspace_or_blank ws :
  Forall (fun w => is_word w = true) ws ->
  string_forall (fun c => negb (isspace c) || Ascii.eqb c " ") (join " " ws) = true.
Proof.
  unfold join. induction ws as [| w ws IH]; intros Hall; [reflexivity |].
  inversion Hall as [| ? ? Hw Hws]. subst. cbn [String.concat].
  assert (Hchars : string_forall (fun c => negb (isspace c) || Ascii.eqb c " ") w = true).
  { unfold is_word in Hw. apply andb_true_iff in Hw. destruct Hw as [_ Hw].
    revert Hw. apply string_forall_impl. intros c ->. reflexivity. }
  destruct ws as [| w' ws]; [exact Hchars |].
  rewrite string_forall_app, Hchars. cbn [append string_forall andb]. apply IH, Hws.
Qed.

Lemma rstrip_app sp (a b : string) :
  rstrip_by sp b <> "" -> rstrip_by sp (a ++ b) = a ++ rstrip_by sp b.
Proof.
  intros Hb. induction a as [| c a IH]; [reflexivity |].
  cbn [append rstrip_by]. rewrite IH.
  destruct (a ++ rstrip_by sp b) as [| d r] eqn:Hr; [| reflexivity].
  exfalso. destruct a; [exact (Hb Hr) | discriminate].
Qed.

Lemma rstrip_word w : is_word w = true -> rstrip_by isspace w = w.
Proof.
  unfold is_word. rewrite andb_true_iff. intros [_ Hw]. apply rstrip_nonspace, Hw.
Qed.

Lemma strip_join ws :
  Forall (fun w => is_word w = true) ws -> strip (join " " ws) = join " " ws.
Proof.
  intros Hall. unfold strip.
  assert (Hl : lstrip_by isspace (join " " ws) = join " " ws).
  { unfold join. destruct ws as [| w ws]; [reflexivity |].
    inversion Hall as [| ? ? Hw _]. subst. cbn [String.concat].
    destruct w as [| c w]; [discriminate |].
    rewrite is_word_cons, andb_true_iff, negb_true_iff in Hw. destruct Hw as [Hc _].
    destruct ws; cbn [append lstrip_by]; rewrite Hc; reflexivity. }
  rewrite Hl. clear Hl. unfold join.
  induction ws as [| w ws IH]; [reflexivity |].
  inversion Hall as [| ? ? Hw Hws]. subst. cbn [String.concat].
  destruct ws as [| w' ws]; [apply rstrip_word, Hw |].
  specialize (IH Hws).
  assert (Hne : String.concat " " (w' :: ws) <> "").
  { inversion Hws as [| ? ? Hw' _]. subst. cbn [String.concat].
    destruct w' as [| c w']; [discriminate |]. destruct ws; discriminate. }
  rewrite rstrip_app.
  - rewrite (rstrip_app isspace " ") by (rewrite IH; exact Hne). rewrite IH. reflexivity.
  - rewrite (rstrip_app isspace " ") by (rewrite IH; exact Hne). discriminate.
Qed.

(** [s.replace(old, new)] leaves a text without the first character of
    [old] as it is. *)
Lemma replace_absent h old new s :
  string_forall (fun c => negb (Ascii.eqb c h)) s = true ->
  replace (String h old) new s = s.
Proof.
  unfold replace. induction s as [| c s IH]; [reflexivity |].
  cbn [string_forall]. rewrite andb_true_iff, negb_true_iff. intros [Hc Hs].
  cbn [replace_from prefix].
  destruct (Ascii.ascii_dec h c) as [-> | _].
  - rewrite Ascii.eqb_refl in Hc. discriminate.
  - rewrite (IH Hs). reflexivity.
Qed.

Lemma blank_or_nonspace_not_cr c :
  negb (isspace c) || Ascii.eqb c " " = true -> negb (Ascii.eqb c "013") = true.
Proof. destruct c as [[] [] [] [] [] [] [] []]; vm_compute; intuition congruence. Qed.

(** What [_clean_text] returns is in normal form: it has no white space
    at either end, its words are separated by single blanks (splitting it
    and joining the words gives it back), and cleaning it again changes
    nothing. *)
Theorem clean_text_normal_form :
  forall value : value,
    let text := ExcelImporter._clean_text value in
    strip text = text
    /\ join " " (split text) = text
    /\ ExcelImporter._clean_text (VStr text) = text.
Proof.
  intros value.
  assert (Hwords : exists ws, Forall (fun w => is_word w = true) ws
                              /\ ExcelImporter._clean_text value = join " " ws).
  { unfold ExcelImporter._clean_text.
    destruct value; try (eexists; split; [apply split_words | reflexivity]).
    exists []. split; [constructor | reflexivity]. }
  destruct Hwords as (ws & Hws & Htext). cbv zeta. rewrite Htext.
  assert (Hcr : string_forall (fun c => negb (Ascii.eqb c "013")) (join " " ws) = true).
  { pose proof (join_nonspace_or_blank ws Hws) as H. revert H.
    apply string_forall_impl. exact blank_or_nonspace_not_cr. }
  split; [apply strip_join, Hws |].
  split; [rewrite (split_join ws Hws); reflexivity |].
  unfold ExcelImporter._clean_text. cbn [str].
  rewrite (strip_join ws Hws).
  change (CR ++ LF) with (String "013" LF). unfold CR at 1.
  rewrite (replace_absent "013" LF LF _ Hcr).
  rewrite (replace_absent "013" "" LF _ Hcr).
  rewrite (split_join ws Hws). reflexivity.
Qed.

(** ** What the parse returns *)

Lemma match_column_in cell_str :
  forall mapping field_name,
    ExcelImporter.match_column mapping cell_str = Some field_name ->
    In field_name (map snd mapping).
Proof.
  induction mapping as [| [excel_name field] rest IH]; intros field_name;
    cbn [ExcelImporter.match_column map snd]; [discriminate |].
  destruct (contains excel_name cell_str || contains (lower excel_name) (lower cell_str)).
  - intros H. left. congruence.
  - intros H. right. apply IH, H.
Qed.

Lemma map_columns_keys cells :
  forall col_idx column_indices k,
    In k (map fst (ExcelImporter.map_columns col_idx cells column_indices)) ->
    In k (map fst column_indices) \/ In k (map snd ExcelImporter.COLUMN_MAPPING).
Proof.
  induction cells as [| cell rest IH]; intros col_idx column_indices k;
    cbn [ExcelImporter.map_columns]; [auto |].
  intros H. apply IH in H. destruct H as [H | H]; [| auto].
  destruct (truthy cell); [| auto].
  destruct (ExcelImporter.match_column ExcelImporter.COLUMN_MAPPING (strip (str cell)))
    as [field_name |] eqn:Hm; [| auto].
  apply dict_set_keys in H. destruct H as [-> | H]; [| auto].
  right. exact (match_column_in _ _ _ Hm).
Qed.

Lemma find_header_keys rows :
  forall row_idx header_row column_indices k,
    ExcelImporter.find_header row_idx rows = Some (header_row, column_indices) ->
    In k (map fst column_indices) -> In k (map snd ExcelImporter.COLUMN_MAPPING).
Proof.
  induction rows as [| row rest IH]; intros row_idx header_row column_indices k;
    cbn [ExcelImporter.find_header]; [discriminate |].
  destruct row as [| c row]; [apply IH |].
  destruct (ExcelImporter.is_header_row (c :: row)); [| apply IH].
  intros H Hin.
  assert (Hc : column_indices = ExcelImporter.map_columns 0 (c :: row) []) by congruence.
  rewrite Hc in Hin. apply map_columns_keys in Hin. destruct Hin as [[] | Hin]. exact Hin.
Qed.

Lemma extract_rows_order column_indices :
  NoDup (map fst column_indices) ->
  ~ In "order" (map fst column_indices) ->
  forall rows row_idx failures self failures' self',
    ExcelImporter.extract_rows column_indices row_idx rows failures self
    = Ok (failures', self') ->
    (forall i failure, nth_error failures i = Some failure ->
                       dict_get "order" failure = Some (VInt (Z.of_nat i))) ->
    forall i failure, nth_error failures' i = Some failure ->
                      dict_get "order" failure = Some (VInt (Z.of_nat i)).
Proof.
  intros Hnodup Hnotin.
  induction rows as [| row rest IH]; intros row_idx failures self failures' self' Hrun Hacc;
    cbn [ExcelImporter.extract_rows] in Hrun.
  - inversion Hrun. subst. exact Hacc.
  - destruct (negb (existsb truthy row)); [exact (IH _ _ _ _ _ Hrun Hacc) |].
    destruct (ExcelImporter.is_summary_row row).
    { inversion Hrun. subst. exact Hacc. }
    apply mbind_ok in Hrun. destruct Hrun as (failure_data & self1 & Hfill & Hrun).
    destruct (get_truthy "component" failure_data && get_truthy "failure_mode" failure_data).
    + apply (IH _ _ _ _ _ Hrun). intros i failure Hi.
      destruct (Nat.lt_ge_cases i (List.length failures)) as [Hlt | Hge].
      * rewrite nth_error_app1 in Hi by exact Hlt. exact (Hacc i failure Hi).
      * rewrite nth_error_app2 in Hi by exact Hge.
        destruct (i - List.length failures)%nat as [| j] eqn:Hj;
          [| destruct j; discriminate].
        inversion Hi. subst failure.
        destruct (fill_fields_text _ _ _ _ _ _ _ Hnodup Hfill) as [Htext _].
        rewrite (Htext "order" eq_refl), (field_text_notin _ _ _ Hnotin).
        replace i with (List.length failures) by lia. reflexivity.
    + apply mbind_ok in Hrun. destruct Hrun as (u & self2 & _ & Hrun).
      exact (IH _ _ _ _ _ Hrun Hacc).
Qed.

(** The failures an extraction returns are numbered in the order they
    are kept: the one at position [i], counting from 0, has [order = i].
    A row that is dropped takes no number. *)
Theorem parsed_order_is_position :
  forall (ws : worksheet) self failures self',
    ExcelImporter._extract_failures ws self = Ok (failures, self') ->
    forall i failure,
      nth_error failures i = Some failure ->
      dict_get "order" failure = Some (VInt (Z.of_nat i)).
Proof.
  intros ws self failures self'. unfold ExcelImporter._extract_failures.
  destruct (ExcelImporter.find_header 1 ws) as [[header_row column_indices] |] eqn:Hh.
  - destruct column_indices as [| c column_indices].
    + intros H. inversion H. intros [| i] failure; discriminate.
    + intros Hrun.
      assert (Hnotin : ~ In "order" (map fst (c :: column_indices))).
      { intros Hin. apply (find_header_keys _ _ _ _ _ Hh) in Hin.
        vm_compute in Hin. intuition discriminate. }
      apply (extract_rows_order _ (find_header_nodup _ _ _ _ Hh) Hnotin _ _ _ _ _ _ Hrun).
      intros [| i] failure; discriminate.
  - intros H. inversion H. intros [| i] failure; discriminate.
Qed.

Lemma parsed_order_is_position_witness :
  exists failures self',
    ExcelImporter._extract_failures sample_sheet ExcelImporter.init = Ok (failures, self')
    /\ nth_error failures 1 = Some sample_parsed_valve
    /\ dict_get "order" sample_parsed_valve = Some (VInt 1).
Proof.
  eexists. eexists.
  split; [vm_compute; reflexivity |].
  split; [reflexivity |].
  eapply (parsed_order_is_position sample_sheet ExcelImporter.init _ _ eq_refl 1%nat).
  reflexivity.
Defined.

(** A sheet in which no row passes the header test gives no failure and
    one warning, and neither an error nor an exception. *)
Theorem no_header_no_failures :
  forall (ws : worksheet) self,
    (forall row, In row ws -> ExcelImporter.is_header_row row = false) ->
    ExcelImporter._extract_failures ws self = Ok ([], with_warning self HeadersNotFound).
Proof.
  intros ws self Hnone. unfold ExcelImporter._extract_failures.
  assert (Hfind : forall row_idx, ExcelImporter.find_header row_idx ws = None).
  { induction ws as [| row rest IH]; intros row_idx; cbn [ExcelImporter.find_header];
      [reflexivity |].
    assert (Hrest : forall r, In r rest -> ExcelImporter.is_header_row r = false)
      by (intros r Hr; apply Hnone; right; exact Hr).
    destruct row as [| c row]; [apply IH, Hrest |].
    rewrite (Hnone (c :: row)) by (left; reflexivity). apply IH, Hrest. }
  rewrite Hfind. reflexivity.
Qed.

Lemma no_header_no_failures_witness :
  ExcelImporter._extract_failures sample_two_clients ExcelImporter.init
  = Ok ([], with_warning ExcelImporter.init HeadersNotFound).
Proof.
  apply (no_header_no_failures sample_two_clients ExcelImporter.init).
  intros row [<- | [<- | [<- | []]]]; vm_compute; reflexivity.
Defined.

(** *** Metadata *)

Lemma keyword_field_in first_cell :
  forall keywords field,
    keyword_field keywords first_cell = Some field -> In field (map snd keywords).
Proof.
  induction keywords as [| [keyword f] rest IH]; intros field; cbn [keyword_field map snd];
    [discriminate |].
  destruct (contains keyword first_cell).
  - intros H. left. congruence.
  - intros H. right. apply IH, H.
Qed.

Lemma apply_row_shape today metadata row :
  metadata_shape metadata -> metadata_shape (apply_row today metadata row).
Proof.
  intros Hshape. unfold apply_row.
  destruct (row_field row) as [field |] eqn:Hfield; [| exact Hshape].
  destruct (row_value row) as [text |]; [| exact Hshape].
  assert (Hin : In field (map snd ExcelImporter.METADATA_KEYWORDS)).
  { unfold row_field in Hfield. destruct row as [| c0 row]; [discriminate |].
    destruct (truthy c0); [| discriminate]. exact (keyword_field_in _ _ _ Hfield). }
  destruct Hshape as (a & b & c & d & e & f & ->).
  cbn [map snd ExcelImporter.METADATA_KEYWORDS In] in Hin.
  destruct Hin as [<- | [<- | [<- | [<- | [<- | [<- | []]]]]]];
    unfold metadata_shape; do 6 eexists; reflexivity.
Qed.

Lemma fold_rows_shape today rows :
  forall metadata,
    metadata_shape metadata -> metadata_shape (fold_left (apply_row today) rows metadata).
Proof.
  induction rows as [| row rest IH]; intros metadata Hshape; cbn [fold_left];
    [exact Hshape |].
  apply IH, apply_row_shape, Hshape.
Qed.

Lemma scan_title_rows_shape rows :
  forall metadata,
    metadata_shape metadata -> metadata_shape (ExcelImporter.scan_title_rows rows metadata).
Proof.
  induction rows as [| row rest IH]; intros metadata Hshape;
    cbn [ExcelImporter.scan_title_rows]; [exact Hshape |].
  destruct row as [| c0 row]; [apply IH, Hshape |].
  destruct (truthy c0); [| apply IH, Hshape].
  destruct (contains "STEP" (str c0) || contains "AMDEC" (str c0)); [| apply IH, Hshape].
  destruct (split_on "010" (str c0)) as [| line0 lines]; [exact Hshape |].
  destruct (negb (get_truthy "system_name" metadata)
            && str_nonempty (strip (replace CR "" line0))); [| exact Hshape].
  destruct Hshape as (a & b & c & d & e & f & ->).
  unfold metadata_shape. do 6 eexists. reflexivity.
Qed.

Lemma parse_date_errors today value self v self' :
  ExcelImporter._parse_date today value self = Ok (v, self') ->
  ExcelImporter.errors self' = ExcelImporter.errors self.
Proof.
  unfold ExcelImporter._parse_date.
  destruct value; try (intros H; inversion H; reflexivity).
  destruct (ExcelImporter.try_formats s ExcelImporter.DATE_FORMATS);
    intros H; inversion H; reflexivity.
Qed.

Lemma scan_keywords_errors today row :
  forall keywords first_cell metadata self metadata' self',
    ExcelImporter.scan_keywords today keywords first_cell row metadata self
    = Ok (metadata', self') ->
    ExcelImporter.errors self' = ExcelImporter.errors self.
Proof.
  induction keywords as [| [keyword field] rest IH];
    intros first_cell metadata self metadata' self';
    cbn [ExcelImporter.scan_keywords].
  - intros H. inversion H. reflexivity.
  - destruct (contains keyword first_cell); [| apply IH].
    destruct row as [| c0 [| v1 row]]; try (intros H; inversion H; reflexivity).
    destruct (truthy v1); [| intros H; inversion H; reflexivity].
    destruct (String.eqb field "analysis_date"); [| intros H; inversion H; reflexivity].
    intros H. apply mbind_ok in H. destruct H as (d & self1 & Hd & H).
    inversion H. subst. exact (parse_date_errors _ _ _ _ _ Hd).
Qed.

Lemma scan_metadata_rows_errors today :
  forall rows metadata self metadata' self',
    ExcelImporter.scan_metadata_rows today rows metadata self = Ok (metadata', self') ->
    ExcelImporter.errors self' = ExcelImporter.errors self.
Proof.
  induction rows as [| row rest IH]; intros metadata self metadata' self';
    cbn [ExcelImporter.scan_metadata_rows].
  - intros H. inversion H. reflexivity.
  - destruct row as [| c0 row]; [apply IH |].
    destruct (negb (truthy c0)); [apply IH |].
    intros H. apply mbind_ok in H. destruct H as (m1 & self1 & Hk & H).
    rewrite (IH _ _ _ _ H). exact (scan_keywords_errors _ _ _ _ _ _ _ _ Hk).
Qed.

(** Reading the metadata never fails and never records an error, and what
    it returns always has the six keys [system_name], [analysis_date],
    [team_members], [objective], [client] and [reference], in this order,
    with a date for the analysis date and text for the others, whatever
    the sheet holds. *)
Theorem extract_metadata_shape :
  forall today now (ws : worksheet) self,
    exists metadata self',
      ExcelImporter._extract_metadata today now ws self = Ok (metadata, self')
      /\ metadata_shape metadata
      /\ ExcelImporter.errors self' = ExcelImporter.errors self.
Proof.
  intros today now ws self. unfold ExcelImporter._extract_metadata.
  set (metadata0 := [("system_name", VStr ""); _; _; _; _; _]).
  destruct (scan_metadata_rows_run today (firstn 15 ws) metadata0 self) as [self1 Hscan].
  rewrite (mbind_run _ _ _ _ _ Hscan).
  eexists. eexists. split; [reflexivity |]. split.
  - apply scan_title_rows_shape, fold_rows_shape.
    unfold metadata_shape, metadata0. do 6 eexists. reflexivity.
  - exact (scan_metadata_rows_errors _ _ _ _ _ _ Hscan).
Qed.

(** *** The summary *)

Lemma incr_counts (k : string) (t h m l : Z) :
  In k ["high"; "medium"; "low"] ->
  ExcelImporter.incr k [("total", t); ("high", h); ("medium", m); ("low", l)]
  = [ ("total", t);
      ("high", h + (if String.eqb k "high" then 1 else 0));
      ("medium", m + (if String.eqb k "medium" then 1 else 0));
      ("low", l + (if String.eqb k "low" then 1 else 0)) ].
Proof.
  intros [<- | [<- | [<- | []]]]; cbn; rewrite ?Z.add_0_r; reflexivity.
Qed.

Lemma level_count_cons level failure failures :
  level_count level (failure :: failures)
  = (if at_level level failure then 1 else 0) + level_count level failures.
Proof.
  unfold level_count. cbn [filter]. destruct (at_level level failure); cbn [List.length]; lia.
Qed.

Ltac eval_string_eqb :=
  repeat match goal with
         | |- context [String.eqb ?a ?b] =>
             let v := eval vm_compute in (String.eqb a b) in
             change (String.eqb a b) with v
         end;
  cbv iota.

Lemma calculate_summary_fold failures :
  forall t h m l,
    fold_left
      (fun summary failure =>
         match ExcelImporter.score_at "gravity" failure,
               ExcelImporter.score_at "occurrence" failure,
               ExcelImporter.score_at "detection" failure with
         | Some g, Some o, Some d =>
             let criticality := g * o * d in
             if 120 <? criticality then ExcelImporter.incr "high" summary
             else if 60 <? criticality then ExcelImporter.incr "medium" summary
             else ExcelImporter.incr "low" summary
         | _, _, _ => summary
         end)
      failures [("total", t); ("high", h); ("medium", m); ("low", l)]
    = [ ("total", t);
        ("high", h + level_count "ÉLEVÉE" failures);
        ("medium", m + level_count "MODÉRÉE" failures);
        ("low", l + level_count "FAIBLE" failures) ].
Proof.
  induction failures as [| failure rest IH]; intros t h m l; cbn [fold_left].
  - unfold level_count. cbn. rewrite !Z.add_0_r. reflexivity.
  - rewrite !level_count_cons. unfold at_level, parsed_criticality.
    destruct (ExcelImporter.score_at "gravity" failure) as [g |];
      [| rewrite IH; reflexivity].
    destruct (ExcelImporter.score_at "occurrence" failure) as [o |];
      [| rewrite IH; reflexivity].
    destruct (ExcelImporter.score_at "detection" failure) as [d |];
      [| rewrite IH; reflexivity].
    cbv zeta. unfold Validators.get_criticality_level.
    destruct (Z.ltb_spec 120 (g * o * d)) as [Hhigh | Hhigh].
    + rewrite incr_counts by (cbn; auto). rewrite IH.
      destruct (Z.leb_spec (g * o * d) 60); [lia |].
      destruct (Z.leb_spec (g * o * d) 120); [lia |].
      eval_string_eqb. repeat (f_equal; try lia).
    + destruct (Z.ltb_spec 60 (g * o * d)) as [Hmed | Hmed].
      * rewrite incr_counts by (cbn; auto). rewrite IH.
        destruct (Z.leb_spec (g * o * d) 60); [lia |].
        destruct (Z.leb_spec (g * o * d) 120); [| lia].
        eval_string_eqb. repeat (f_equal; try lia).
      * rewrite incr_counts by (cbn; auto). rewrite IH.
        destruct (Z.leb_spec (g * o * d) 60); [| lia].
        eval_string_eqb. repeat (f_equal; try lia).
Qed.

Lemma level_counts_total failures :
  Forall scores_valid failures ->
  forallb has_scores failures = true ->
  level_count "ÉLEVÉE" failures + level_count "MODÉRÉE" failures
  + level_count "FAIBLE" failures = Z.of_nat (List.length failures).
Proof.
  induction failures as [| failure rest IH]; intros Hvalid Hscores; [reflexivity |].
  inversion Hvalid as [| ? ? Hv Hrest]. subst.
  cbn [forallb] in Hscores. apply andb_true_iff in Hscores. destruct Hscores as [Hs Hss].
  rewrite !level_count_cons. specialize (IH Hrest Hss).
  assert (Hone : (if at_level "ÉLEVÉE" failure then 1 else 0)
                 + (if at_level "MODÉRÉE" failure then 1 else 0)
                 + (if at_level "FAIBLE" failure then 1 else 0) = 1).
  { unfold at_level, parsed_criticality, ExcelImporter.score_at.
    unfold has_scores in Hs.
    destruct (dict_get "gravity" failure) as [vg |] eqn:Hg; [| discriminate].
    destruct (dict_get "occurrence" failure) as [vo |] eqn:Ho; [| discriminate].
    destruct (dict_get "detection" failure) as [vd |] eqn:Hd; [| discriminate].
    destruct (Hv "gravity" vg eq_refl Hg) as (g & -> & _).
    destruct (Hv "occurrence" vo eq_refl Ho) as (o & -> & _).
    destruct (Hv "detection" vd eq_refl Hd) as (d & -> & _).
    unfold Validators.get_criticality_level.
    destruct (g * o * d <=? 60); [reflexivity |].
    destruct (g * o * d <=? 120); reflexivity. }
  cbn [List.length]. lia.
Qed.

(** The summary of a parse counts what it returns: [total] is the number
    of failures, and [high], [medium] and [low] are the numbers of
    failures whose product of scores is at the level ÉLEVÉE, MODÉRÉE and
    FAIBLE of [get_criticality_level].  When every failure has its three
    scores the three counts add up to the total. *)
Theorem parse_excel_summary :
  forall today now (wb : workbook) self data self',
    ExcelImporter.parse_excel today now wb self = Ok (data, self') ->
    let failures := ExcelImporter.failures data in
    ExcelImporter.summary data
    = [ ("total", Z.of_nat (List.length failures));
        ("high", level_count "ÉLEVÉE" failures);
        ("medium", level_count "MODÉRÉE" failures);
        ("low", level_count "FAIBLE" failures) ]
    /\ (forallb has_scores failures = true ->
        level_count "ÉLEVÉE" failures + level_count "MODÉRÉE" failures
        + level_count "FAIBLE" failures = Z.of_nat (List.length failures)).
Proof.
  intros today now wb self data self' Hrun. unfold ExcelImporter.parse_excel in Hrun.
  destruct (ExcelImporter.select_sheet wb) as [ws |]; [| discriminate].
  apply mbind_ok in Hrun. destruct Hrun as (metadata & self1 & _ & Hrun).
  apply mbind_ok in Hrun. destruct Hrun as (failures & self2 & Hext & Hrun).
  inversion Hrun. subst. cbn [ExcelImporter.failures ExcelImporter.summary]. cbv zeta.
  split.
  - unfold ExcelImporter._calculate_summary. rewrite calculate_summary_fold. reflexivity.
  - apply level_counts_total. exact (extract_failures_scores_valid _ _ _ _ Hext).
Qed.

Lemma parse_excel_summary_witness :
  exists data self',
    ExcelImporter.parse_excel sample_today sample_now sample_workbook ExcelImporter.init
    = Ok (data, self')
    /\ ExcelImporter.summary data = [("total", 2); ("high", 2); ("medium", 0); ("low", 0)]
    /\ forallb has_scores (ExcelImporter.failures data) = true.
Proof.
  eexists. eexists.
  split; [vm_compute; reflexivity |].
  split; [| vm_compute; reflexivity].
  exact (proj1 (parse_excel_summary sample_today sample_now sample_workbook
                  ExcelImporter.init _ _ eq_refl)).
Defined.

(** ** The checks before a project is created *)

(** What [validate_data] does: it forgets the errors recorded before the
    call, keeps the warnings, and leaves a list of errors that is empty
    exactly when it returns [True]. *)
Lemma validate_data_outcome (data : ExcelImporter.data) self :
  exists errors,
    ExcelImporter.validate_data data self
    = Ok (data_valid data, ExcelImporter.mk errors (ExcelImporter.warnings self)
                                            (ExcelImporter.imported_count self))
    /\ (errors = [] <-> data_valid data = true).
Proof.
  unfold data_valid, ExcelImporter.validate_data.
  set (self0 := ExcelImporter.mk [] (ExcelImporter.warnings self)
                                 (ExcelImporter.imported_count self)).
  assert (Hclear : ExcelImporter.clear_errors self = Ok (tt, self0)) by reflexivity.
  rewrite (mbind_run _ _ _ _ _ Hclear).
  destruct (guard_run (get_truthy "system_name" (ExcelImporter.metadata data))
              SystemNameMissing self0) as (a1 & H1 & E1).
  rewrite (mbind_run _ _ _ _ _ H1).
  destruct (ExcelImporter.failures data) as [| failure rest] eqn:Hfs.
  - exists (a1 ++ [NoFailureFound])%list. split.
    + cbn. rewrite andb_false_r. reflexivity.
    + cbn [some_failure]. rewrite andb_false_r. cbn [andb]. split; [| discriminate].
      intros H. apply app_eq_nil in H. destruct H as [_ H]. discriminate.
  - destruct (check_failures_run (failure :: rest) 1 (with_errors self0 a1))
      as (a2 & H2 & E2).
    rewrite (mbind_run _ _ _ _ _ H2).
    exists (a1 ++ a2)%list.
    assert (Hverdict : (a1 ++ a2)%list = []
                       <-> get_truthy "system_name" (ExcelImporter.metadata data)
                           && some_failure (failure :: rest)
                           && forallb failure_checks (failure :: rest) = true).
    { cbn [some_failure]. rewrite andb_true_r, andb_true_iff, <- E1, <- E2.
      split; [apply app_eq_nil | intros [-> ->]; reflexivity]. }
    split; [| exact Hverdict].
    cbn [with_errors ExcelImporter.errors ExcelImporter.warnings
         ExcelImporter.imported_count self0 app].
    f_equal. f_equal.
    destruct (a1 ++ a2)%list as [| m ms] eqn:Happ.
    + symmetry. apply Hverdict. reflexivity.
    + symmetry. apply not_true_is_false. intros Hv.
      assert (m :: ms = []) by (apply Hverdict; exact Hv). discriminate.
Qed.

(** [validate_data] never raises.  It forgets the errors recorded before
    the call and keeps the warnings; it returns [True] when the system
    name is set, there is a failure, and every failure has a component, a
    failure mode and three scores from 1 to 10; the list of errors it
    leaves is empty exactly when it returns [True]; and calling it again
    gives the same answer and leaves the same errors. *)
Theorem validate_data_verdict :
  forall (data : ExcelImporter.data) self,
    exists errors,
      let self' := ExcelImporter.mk errors (ExcelImporter.warnings self)
                                    (ExcelImporter.imported_count self) in
      ExcelImporter.validate_data data self = Ok (data_valid data, self')
      /\ data_valid data
         = get_truthy "system_name" (ExcelImporter.metadata data)
           && some_failure (ExcelImporter.failures data)
           && forallb failure_checks (ExcelImporter.failures data)
      /\ (errors = [] <-> data_valid data = true)
      /\ ExcelImporter.validate_data data self' = Ok (data_valid data, self').
Proof.
  intros data self.
  destruct (validate_data_outcome data self) as (errors & Hrun & Hiff).
  exists errors. cbv zeta.
  split; [exact Hrun |]. split; [reflexivity |]. split; [exact Hiff |].
  rewrite <- Hrun. reflexivity.
Qed.

(** ** The exported sheets *)













(** ** Counts and colours of the models *)

(** For a project whose failures all have their three scores at 1 or
    more, every failure is counted once: the counts of high, medium and
    low criticality add up to the number of failures.  (The count of high
    criticality leaves out a failure with a score below 1, which the two
    others, computed from the product alone, do not make up for.) *)
Theorem project_counts_partition :
  forall project : AMDECProject,
    Forall (fun f => 1 <= FailureMode.gravity f /\ 1 <= FailureMode.occurrence f
                     /\ 1 <= FailureMode.detection f)
           (failures project) ->
    Models.high_criticality_count project + Models.medium_criticality_count project
    + Models.low_criticality_count project
    = Models.total_failures project.
Proof.
  intros [ref nm fs]. unfold Models.high_criticality_count, Models.medium_criticality_count,
    Models.low_criticality_count, Models.total_failures. cbn [failures]. cbv zeta.
  induction fs as [| f fs IH]; intros Hall; [reflexivity |].
  inversion Hall as [| ? ? (Hg & Ho & Hd) Hrest]. subst. specialize (IH Hrest).
  cbn [filter]. unfold FailureMode.criticality in *.
  apply Z.leb_le in Hg, Ho, Hd. rewrite Hg, Ho, Hd. cbn [andb map filter].
  destruct (Z.ltb_spec 120 (FailureMode.gravity f * FailureMode.occurrence f
                            * FailureMode.detection f));
    destruct (Z.leb_spec 61 (FailureMode.gravity f * FailureMode.occurrence f
                             * FailureMode.detection f));
    destruct (Z.leb_spec (FailureMode.gravity f * FailureMode.occurrence f
                          * FailureMode.detection f) 120);
    destruct (Z.leb_spec (FailureMode.gravity f * FailureMode.occurrence f
                          * FailureMode.detection f) 60);
    cbn [andb List.length]; lia.
Qed.

Lemma project_counts_partition_witness :
  Models.high_criticality_count sample_project + Models.medium_criticality_count sample_project
  + Models.low_criticality_count sample_project
  = Models.total_failures sample_project
  /\ Models.high_criticality_count sample_negative_project
     + Models.medium_criticality_count sample_negative_project
     + Models.low_criticality_count sample_negative_project = 0
  /\ Models.total_failures sample_negative_project = 1.
Proof.
  split; [| split; reflexivity].
  apply (project_counts_partition sample_project).
  repeat constructor; vm_compute; discriminate.
Defined.

(** The colour of a failure follows its level: green up to 60, orange up
    to 120, red above.  The model's property and the helper of the
    validators give the same colour, the grey default is never returned,
    and a failure is critical exactly when its colour is red. *)
Theorem criticality_color_cases :
  forall f : FailureMode.t,
    let c := FailureMode.criticality f in
    Models.criticality_color f = MoreValidators.get_criticality_color c
    /\ Models.criticality_color f
       = (if c <=? 60 then "#27ae60" else if c <=? 120 then "#f39c12" else "#e74c3c")
    /\ Models.criticality_color f <> "#95a5a6"
    /\ (Models.is_critical f = true <-> Models.criticality_color f = "#e74c3c").
Proof.
  intros f. cbv zeta.
  unfold Models.criticality_color, MoreValidators.get_criticality_color, Models.is_critical,
    FailureMode.criticality_level, Validators.get_criticality_level.
  destruct (Z.leb_spec (FailureMode.criticality f) 60) as [H60 | H60];
    [| destruct (Z.leb_spec (FailureMode.criticality f) 120) as [H120 | H120]];
    destruct (Z.ltb_spec 120 (FailureMode.criticality f)); try lia;
    (split; [reflexivity |]); (split; [reflexivity |]); (split; [discriminate |]);
    split; (discriminate || reflexivity).
Qed.

(** ** Files and workbooks in the validators *)

(** [validate_excel_file] decides on the name and the size alone.  A file
    is accepted exactly when it has a name that ends in [.xlsx] or [.xls]
    (in lower case) and a size of at most 10 MiB.  What the file holds
    and what type is detected in it never matter: the error of the
    content check is caught by the [except] that follows it.  A file
    object without a [size] attribute is never accepted. *)
Theorem validate_excel_file_by_name_and_size :
  forall (from_buffer : string -> option string) (file : MoreValidators.upload),
    (exists file', MoreValidators.validate_excel_file from_buffer file = Ok file')
    <-> name_and_size_accepted file.
Proof.
  intros from_buffer file. unfold MoreValidators.validate_excel_file, name_and_size_accepted.
  destruct (MoreValidators.upload_name file) as [name |].
  - destruct (MoreValidators.endswith ".xlsx" name || MoreValidators.endswith ".xls" name)
      eqn:Hext; cbn [negb].
    + destruct (MoreValidators.upload_size file) as [size |].
      * destruct (Z.ltb_spec (10 * 1024 * 1024) size) as [Hbig | Hsmall].
        -- split; [intros [file' H]; discriminate |].
           intros (n & sz & Hn & _ & Hs & Hle). inversion Hs. subst. lia.
        -- split.
           ++ intros _. exists name, size.
              split; [reflexivity | split; [exact Hext | split; [reflexivity | lia]]].
           ++ intros _.
              destruct (MoreValidators.check_content from_buffer file) as [[u | e] file'];
                eexists; reflexivity.
      * split; [intros [file' H]; discriminate |].
        intros (n & sz & _ & _ & Hs & _). discriminate.
    + split; [intros [file' H]; discriminate |].
      intros (n & sz & Hn & He & _). inversion Hn. subst. congruence.
  - split; [intros [file' H]; discriminate |].
    intros (n & sz & Hn & _). discriminate.
Qed.

(** A text file under an Excel name is accepted although the content
    check sees that it is no Excel file, and the file object that [open]
    gives, which has no size, is refused. *)
Lemma validate_excel_file_by_name_and_size_witness :
  fst (MoreValidators.check_content sample_detector sample_text_upload)
  = Raise (MoreValidators.FileValidationError (MoreValidators.NotExcel "text/plain"))
  /\ (exists file',
         MoreValidators.validate_excel_file sample_detector sample_text_upload = Ok file')
  /\ MoreValidators.validate_excel_file sample_detector sample_opened_file
     = Raise MoreValidators.AttributeError.
Proof.
  split; [reflexivity |]. split; [| reflexivity].
  apply (validate_excel_file_by_name_and_size sample_detector sample_text_upload).
  exists "notes.xlsx", 11.
  split; [reflexivity | split; [reflexivity | split; [reflexivity | lia]]].
Defined.

Lemma find_columns_cons c row rest :
  MoreValidators.find_columns ((c :: row) :: rest)
  = let found_cols :=
      filter (fun col => contains (lower col)
                                  (lower (join " " (map str (filter truthy (c :: row))))))
             MoreValidators.REQUIRED_COLUMNS in
    if (5 <=? List.length found_cols)%nat then Some found_cols
    else MoreValidators.find_columns rest.
Proof. reflexivity. Qed.

(** A workbook whose analysis sheet is an exported failure sheet passes
    the structure check of the validators without a warning: the sheet is
    found, and a row with five or more of the required columns is found
    in it, whatever the project holds. *)
Theorem exported_sheet_structure :
  forall (project : AMDECProject) (wb : workbook),
    MoreValidators.find_analysis_sheet wb
    = Some (ExcelExporter.iter_rows (ExcelExporter.generate_failures_sheet project)) ->
    exists found_cols,
      MoreValidators.validate_excel_structure wb
      = Ok (MoreValidators.mkStructure true true (map fst wb) found_cols [])
      /\ (5 <= List.length found_cols)%nat.
Proof.
  intros project wb Hsheet. unfold MoreValidators.validate_excel_structure.
  destruct wb as [| [first first_sheet] rest]; [discriminate |].
  rewrite Hsheet. cbv zeta. rewrite failures_sheet_rows.
  set (data := map ExcelExporter.row_data _).
  change (firstn 20 (?a :: ?b :: ?c :: data)) with (a :: b :: c :: firstn 17 data).
  generalize (firstn 17 data). intros tail.
  rewrite find_columns_cons. cbv zeta.
  set (found := filter _ MoreValidators.REQUIRED_COLUMNS).
  destruct (Nat.leb_spec 5 (List.length found)) as [Hhit | Hmiss].
  - exists found. split; [reflexivity | exact Hhit].
  - exists MoreValidators.REQUIRED_COLUMNS. split; [| cbn; lia].
    assert (Hrows : MoreValidators.find_columns
                      (repeat VNone 10 :: map VStr ExcelExporter.FAILURE_HEADERS :: tail)
                    = Some MoreValidators.REQUIRED_COLUMNS)
      by (vm_compute; reflexivity).
    rewrite Hrows. reflexivity.
Qed.

Lemma exported_sheet_structure_witness :
  exists found_cols,
    MoreValidators.validate_excel_structure
      [ ("Résumé", []);
        ("Analyse AMDEC",
         ExcelExporter.iter_rows (ExcelExporter.generate_failures_sheet sample_project)) ]
    = Ok (MoreValidators.mkStructure true true ["Résumé"; "Analyse AMDEC"] found_cols [])
    /\ (5 <= List.length found_cols)%nat.
Proof.
  apply (exported_sheet_structure sample_project
           [ ("Résumé", []);
             ("Analyse AMDEC",
              ExcelExporter.iter_rows (ExcelExporter.generate_failures_sheet sample_project)) ]).
  reflexivity.
Defined.

(** ** Dates in the validators *)

Lemma first_some_map {A B C} (g : A -> B) (f : B -> option C) l :
  first_some f (map g l) = first_some (fun a => f (g a)) l.
Proof.
  induction l as [| a l IH]; [reflexivity |]. cbn [map first_some]. rewrite IH. reflexivity.
Qed.

Lemma first_some_ext {A B} (f g : A -> option B) l :
  (forall a, f a = g a) -> first_some f l = first_some g l.
Proof.
  intros Hfg. induction l as [| a l IH]; [reflexivity |].
  cbn [first_some]. rewrite Hfg, IH. reflexivity.
Qed.

Lemma first_some_in {A B} (f : A -> option B) l y :
  first_some f l = Some y -> exists a, In a l /\ f a = Some y.
Proof.
  induction l as [| a l IH]; cbn [first_some]; [discriminate |].
  destruct (f a) as [b |] eqn:Ha.
  - intros H. exists a. split; [left; reflexivity | congruence].
  - intros H. destruct (IH H) as (x & Hin & Hx). exists x. split; [right |]; assumption.
Qed.

(** On the numeric formats the reader of [parse_date_fr] is the one of
    the importer. *)
Lemma match_tokens_numeric fmt :
  forall acc s,
    MoreValidators.match_tokens (MoreValidators.numeric fmt) acc s = re_match fmt acc s.
Proof.
  induction fmt as [| d fmt IH]; intros acc s; [reflexivity |].
  unfold MoreValidators.numeric in *.
  cbn [map MoreValidators.match_tokens re_match MoreValidators.token_alternatives].
  rewrite first_some_map. apply first_some_ext. intros [v r]. apply IH.
Qed.

Lemma strptime_tokens_numeric s fmt :
  MoreValidators.strptime_tokens s (MoreValidators.numeric fmt) = strptime s fmt.
Proof.
  unfold MoreValidators.strptime_tokens, strptime. rewrite match_tokens_numeric. reflexivity.
Qed.

Lemma in_range_weaken lo hi lo' hi' c :
  lo' <= lo -> hi <= hi' -> in_range lo hi c = true -> in_range lo' hi' c = true.
Proof.
  unfold in_range. rewrite !andb_true_iff, !Z.leb_le. lia.
Qed.

Ltac digit_facts :=
  repeat match goal with
         | H : _ && _ = true |- _ => apply andb_true_iff in H; destruct H
         | H : Ascii.eqb _ _ = true |- _ => apply Ascii.eqb_eq in H; subst
         | H : in_range ?lo ?hi ?c = true |- _ =>
             lazymatch lo with
             | 48 => lazymatch hi with 57 => fail | _ => idtac end
             | _ => idtac
             end;
             apply (in_range_weaken lo hi 48 57 c ltac:(lia) ltac:(lia)) in H
         end.

Ltac pick_alternative H :=
  repeat match type of H with
         | In _ (_ ++ _) => apply in_app_or in H; destruct H as [H | H]
         | In _ (if ?c then _ else _) => destruct c eqn:?
         | In _ [] => destruct H
         | In _ [_] => destruct H as [H | []]; inversion H; subst; clear H
         end.

Ltac take_piece p :=
  exists p; split; [reflexivity |]; split; [auto |];
  cbn [string_forall]; unfold is_digit in *;
  repeat match goal with H : in_range 48 57 _ = true |- _ => rewrite H; clear H end;
  reflexivity.

(** What an alternative of a numeric directive takes from the text. *)
Lemma alternatives_shape d s v r :
  In (v, r) (alternatives d s) ->
  exists p,
    s = p ++ r
    /\ match d with
       | DLit c => p = String c ""
       | DY => String.length p = 4%nat /\ string_forall digit_or_blank p = true
       | Dm | Dd =>
           (String.length p = 1%nat \/ String.length p = 2%nat)
           /\ string_forall digit_or_blank p = true
       | _ => False
       end.
Proof.
  intros H. unfold digit_or_blank.
  destruct d; cbn [alternatives] in H; try contradiction.
  - destruct s as [| a [| b [| c [| e r0]]]]; try contradiction.
    pick_alternative H. digit_facts. unfold is_digit in *.
    exists (String a (String b (String c (String e "")))).
    split; [reflexivity |]. split; [reflexivity |].
    cbn [string_forall]. unfold is_digit.
    repeat match goal with H : in_range 48 57 _ = true |- _ => rewrite H; clear H end.
    reflexivity.
  - destruct s as [| a [| b r0]]; cbn [app] in H; [contradiction | |];
      pick_alternative H; digit_facts;
      match goal with
      | |- exists p, String ?x (String ?y ?r) = p ++ ?r /\ _ => take_piece (String x (String y ""))
      | |- exists p, String ?x ?r = p ++ ?r /\ _ => take_piece (String x "")
      end.
  - destruct s as [| a [| b r0]]; cbn [app] in H; [contradiction | |];
      pick_alternative H; digit_facts;
      match goal with
      | |- exists p, String ?x (String ?y ?r) = p ++ ?r /\ _ => take_piece (String x (String y ""))
      | |- exists p, String ?x ?r = p ++ ?r /\ _ => take_piece (String x "")
      end.
  - destruct s as [| x r0]; [contradiction |].
    destruct (Ascii.eqb_spec x c) as [-> | _]; [| contradiction].
    destruct H as [H | []]. inversion H. subst. exists (String c ""). split; reflexivity.
Qed.

Lemma append_assoc (a b c : string) : (a ++ b) ++ c = a ++ (b ++ c).
Proof. induction a as [| x a IH]; [reflexivity |]. cbn [append]. rewrite IH. reflexivity. Qed.

Lemma digit_or_blank_date_text p :
  string_forall digit_or_blank p = true -> string_forall date_text_char p = true.
Proof.
  apply string_forall_impl. intros c Hc. unfold date_text_char. rewrite Hc. reflexivity.
Qed.

(** A text that a numeric format reads is made of digits, blanks and
    separators. *)
Lemma re_match_chars fmt :
  forallb numeric_directive fmt = true ->
  forall acc s d r,
    re_match fmt acc s = Some (d, r) ->
    exists p, s = p ++ r /\ string_forall date_text_char p = true.
Proof.
  induction fmt as [| d0 fmt IH]; intros Hfmt acc s d r Hrun; cbn [re_match] in Hrun.
  - inversion Hrun. subst. exists "". split; reflexivity.
  - cbn [forallb] in Hfmt. apply andb_true_iff in Hfmt. destruct Hfmt as [Hd0 Hfmt].
    apply first_some_in in Hrun. destruct Hrun as ([v r1] & Hin & Hrest).
    destruct (IH Hfmt _ _ _ _ Hrest) as (p2 & -> & Hp2).
    destruct (alternatives_shape _ _ _ _ Hin) as (p1 & -> & Hp1).
    exists (p1 ++ p2). split; [symmetry; apply append_assoc |].
    rewrite string_forall_app, Hp2, andb_true_r.
    destruct d0; try contradiction.
    + apply digit_or_blank_date_text, Hp1.
    + apply digit_or_blank_date_text, Hp1.
    + apply digit_or_blank_date_text, Hp1.
    + subst p1. cbn [numeric_directive] in Hd0. cbn [string_forall].
      unfold date_text_char. rewrite Hd0, orb_true_r. reflexivity.
Qed.

Lemma strptime_match s fmt d :
  strptime s fmt = Some d -> exists d', re_match fmt (mkdate 1900 1 1) s = Some (d', "").
Proof.
  unfold strptime. destruct (re_match fmt (mkdate 1900 1 1) s) as [[d' r] |]; [| discriminate].
  destruct r; [| discriminate]. intros _. exists d'. reflexivity.
Qed.

Lemma strptime_chars s fmt d :
  forallb numeric_directive fmt = true ->
  strptime s fmt = Some d -> string_forall date_text_char s = true.
Proof.
  intros Hfmt H. apply strptime_match in H. destruct H as [d' H].
  destruct (re_match_chars fmt Hfmt _ _ _ _ H) as (p & -> & Hp).
  rewrite append_empty. exact Hp.
Qed.

Lemma first_sep_app p c r :
  string_forall digit_or_blank p = true ->
  digit_or_blank c = false ->
  first_sep (p ++ String c r) = Some (String.length p, c).
Proof.
  intros Hp Hc. induction p as [| a p IH]; cbn [append first_sep String.length].
  - rewrite Hc. reflexivity.
  - cbn [string_forall] in Hp. apply andb_true_iff in Hp. destruct Hp as [Ha Hp].
    rewrite Ha, (IH Hp). reflexivity.
Qed.

(** Where the first separator stands in a text that a format reads:
    after four digits when the year comes first, after one or two
    characters when the day does. *)
Lemma strptime_first_sep s d0 c rest d :
  strptime s (d0 :: DLit c :: rest) = Some d ->
  digit_or_blank c = false ->
  match d0 with
  | DY => first_sep s = Some (4%nat, c)
  | Dm | Dd => first_sep s = Some (1%nat, c) \/ first_sep s = Some (2%nat, c)
  | _ => True
  end.
Proof.
  intros H Hc. apply strptime_match in H. destruct H as [d' H]. cbn [re_match] in H.
  apply first_some_in in H. destruct H as ([v r1] & Hin & H).
  apply first_some_in in H. destruct H as ([v2 r2] & Hin2 & _).
  destruct (alternatives_shape _ _ _ _ Hin2) as (p2 & -> & ->).
  destruct (alternatives_shape _ _ _ _ Hin) as (p & -> & Hp).
  cbn [append].
  destruct d0; try exact I.
  - destruct Hp as [Hlen Hp]. rewrite (first_sep_app p c r2 Hp Hc), Hlen. reflexivity.
  - destruct Hp as [[Hlen | Hlen] Hp]; rewrite (first_sep_app p c r2 Hp Hc), Hlen; auto.
  - destruct Hp as [[Hlen | Hlen] Hp]; rewrite (first_sep_app p c r2 Hp Hc), Hlen; auto.
Qed.

Lemma date_text_char_not h c :
  date_text_char h = false -> date_text_char c = true -> negb (Ascii.eqb c h) = true.
Proof.
  intros Hh Hc. destruct (Ascii.eqb_spec c h) as [-> | _]; [congruence | reflexivity].
Qed.

Lemma replace_not_in_date h old new s :
  date_text_char h = false ->
  string_forall date_text_char s = true ->
  replace (String h old) new s = s.
Proof.
  intros Hh Hs. apply replace_absent. revert Hs. apply string_forall_impl.
  intros c. apply date_text_char_not, Hh.
Qed.

(** A text of digits, blanks and separators holds no French month
    name. *)
Lemma anglicise_numeric s :
  string_forall date_text_char s = true -> MoreValidators.anglicise s = s.
Proof.
  intros Hs. unfold MoreValidators.anglicise.
  let months := eval vm_compute in MoreValidators.french_months in
  change MoreValidators.french_months with months.
  cbv beta iota delta [fold_left].
  repeat rewrite (replace_not_in_date _ _ _ s) by first [exact Hs | reflexivity].
  reflexivity.
Qed.

Ltac other_format Hsig :=
  match goal with
  | |- context [strptime ?s ?fmt] =>
      let E := fresh "E" in
      destruct (strptime s fmt) eqn:E;
      [ exfalso; apply strptime_first_sep in E; [| reflexivity];
        cbn beta iota in E; intuition congruence
      | ]
  end.

(** Every date text that the importer reads, [parse_date_fr] reads
    too, as the same day: the five formats of the importer are among
    its eleven, and no text is read by two of the five. *)
Theorem parse_date_fr_reads_importer_dates :
  forall (text : string) (d : date),
    ExcelImporter.try_formats text ExcelImporter.DATE_FORMATS = Some d ->
    MoreValidators.parse_date_fr (VStr text) = Ok (VDate d).
Proof.
  intros text d Hread.
  pose proof (try_formats_first text ExcelImporter.DATE_FORMATS) as Hfirst.
  rewrite Hread in Hfirst. destruct Hfirst as (before & fmt & after & Hsplit & _ & Hfmt).
  assert (Hin : In fmt ExcelImporter.DATE_FORMATS)
    by (rewrite Hsplit; apply in_or_app; right; left; reflexivity).
  clear Hsplit before after Hread.
  unfold MoreValidators.parse_date_fr. cbn [str]. set (s := strip text) in *.
  assert (Hne : str_nonempty s = true).
  { destruct s; [| reflexivity]. exfalso.
    cbn in Hin. destruct Hin as [<- | [<- | [<- | [<- | [<- | []]]]]]; discriminate. }
  rewrite Hne. cbn [negb].
  assert (Hchars : string_forall date_text_char s = true).
  { apply (strptime_chars s fmt d); [| exact Hfmt].
    cbn in Hin. destruct Hin as [<- | [<- | [<- | [<- | [<- | []]]]]]; reflexivity. }
  rewrite (anglicise_numeric s Hchars).
  assert (Htry : MoreValidators.try_formats s s MoreValidators.FORMATS = Some d);
    [| rewrite Htry; reflexivity].
  unfold MoreValidators.FORMATS.
  cbn [MoreValidators.try_formats]. rewrite !strptime_tokens_numeric.
  cbn in Hin. destruct Hin as [<- | [<- | [<- | [<- | [<- | []]]]]];
    pose proof (strptime_first_sep _ _ _ _ _ Hfmt eq_refl) as Hsig; cbn beta iota in Hsig.
  - do 3 other_format Hsig. rewrite Hfmt. reflexivity.
  - rewrite Hfmt. reflexivity.
  - other_format Hsig. rewrite Hfmt. reflexivity.
  - do 4 other_format Hsig. rewrite Hfmt. reflexivity.
  - do 2 other_format Hsig. rewrite Hfmt. reflexivity.
Qed.

Lemma parse_date_fr_reads_importer_dates_witness :
  ExcelImporter.try_formats " 2025-12-31 " ExcelImporter.DATE_FORMATS
  = Some (mkdate 2025 12 31)
  /\ MoreValidators.parse_date_fr (VStr " 2025-12-31 ") = Ok (VDate (mkdate 2025 12 31)).
Proof.
  split; [reflexivity |].
  apply (parse_date_fr_reads_importer_dates " 2025-12-31 " (mkdate 2025 12 31)).
  reflexivity.
Defined.

(** ** The header and the summary line *)

Lemma prefix_empty s : prefix "" s = true.
Proof. destruct s; reflexivity. Qed.

Lemma contains_empty needle : str_nonempty needle = true -> contains needle "" = false.
Proof. destruct needle; [discriminate | reflexivity]. Qed.

(** A text without white space that starts [a ++ " " ++ b] starts [a]. *)
Lemma prefix_before_blank needle :
  string_forall (fun c => negb (isspace c)) needle = true ->
  forall a b, prefix needle (a ++ String " " b) = true -> prefix needle a = true.
Proof.
  induction needle as [| x needle IH]; intros Hsolid a b H; [apply prefix_empty |].
  cbn [string_forall] in Hsolid. apply andb_true_iff in Hsolid. destruct Hsolid as [Hx Hn].
  destruct a as [| c a]; cbn [append prefix] in *.
  - destruct (ascii_dec x " ") as [-> | _]; [discriminate | discriminate].
  - destruct (ascii_dec x c); [exact (IH Hn a b H) | discriminate].
Qed.

Lemma contains_across_blank needle :
  solid needle = true ->
  forall a b,
    contains needle (a ++ String " " b) = true ->
    contains needle a = true \/ contains needle b = true.
Proof.
  unfold solid. rewrite andb_true_iff. intros [Hne Hsolid].
  induction a as [| c a IH]; intros b H.
  - cbn [append contains] in H. apply orb_true_iff in H. destruct H as [H | H]; [| auto].
    destruct needle as [| x needle]; [discriminate |].
    cbn [string_forall] in Hsolid. apply andb_true_iff in Hsolid.
    cbn [prefix] in H. destruct (ascii_dec x " ") as [-> | _]; [| discriminate].
    destruct Hsolid as [Hx _]. discriminate.
  - cbn [append contains] in H. apply orb_true_iff in H. destruct H as [H | H].
    + left. cbn [contains]. apply orb_true_iff. left.
      exact (prefix_before_blank needle Hsolid (String c a) b H).
    + destruct (IH b H) as [Ha | Hb]; [| auto].
      left. cbn [contains]. rewrite Ha. apply orb_true_r.
Qed.

Lemma contains_join needle parts :
  solid needle = true ->
  contains needle (join " " parts) = true ->
  exists part, In part parts /\ contains needle part = true.
Proof.
  intros Hsolid. unfold join. induction parts as [| p parts IH]; cbn [String.concat].
  - intros H. rewrite contains_empty in H; [discriminate |].
    unfold solid in Hsolid. apply andb_true_iff in Hsolid. exact (proj1 Hsolid).
  - destruct parts as [| q parts].
    + intros H. exists p. split; [left; reflexivity | exact H].
    + intros H. apply (contains_across_blank needle Hsolid) in H.
      destruct H as [H | H].
      * exists p. split; [left; reflexivity | exact H].
      * destruct (IH H) as (part & Hin & Hpart). exists part. split; [right |]; assumption.
Qed.

Lemma contains_lstrip needle s :
  solid needle = true ->
  contains needle s = true -> contains needle (lstrip_by isspace s) = true.
Proof.
  unfold solid. rewrite andb_true_iff. intros [Hne Hsolid].
  induction s as [| c s IH]; intros H; [exact H |].
  cbn [lstrip_by]. destruct (isspace c) eqn:Hc; [| exact H].
  apply IH. cbn [contains] in H. apply orb_true_iff in H. destruct H as [H | H]; [| exact H].
  destruct needle as [| x needle]; [discriminate |].
  cbn [string_forall] in Hsolid. apply andb_true_iff in Hsolid. destruct Hsolid as [Hx _].
  cbn [prefix] in H. destruct (ascii_dec x c) as [-> | _]; [| discriminate].
  rewrite Hc in Hx. discriminate.
Qed.

Lemma prefix_rstrip needle :
  string_forall (fun c => negb (isspace c)) needle = true ->
  forall s, prefix needle s = true -> prefix needle (rstrip_by isspace s) = true.
Proof.
  induction needle as [| x needle IH]; intros Hsolid s H; [apply prefix_empty |].
  cbn [string_forall] in Hsolid. apply andb_true_iff in Hsolid. destruct Hsolid as [Hx Hn].
  destruct s as [| c s]; [discriminate |].
  cbn [prefix] in H. destruct (ascii_dec x c) as [<- | _]; [| discriminate].
  specialize (IH Hn s H). cbn [rstrip_by].
  destruct (rstrip_by isspace s) as [| d r].
  - apply negb_true_iff in Hx. rewrite Hx. cbn [prefix].
    destruct (ascii_dec x x); [| congruence].
    destruct needle; [reflexivity | discriminate].
  - cbn [prefix]. destruct (ascii_dec x x); [exact IH | congruence].
Qed.

Lemma contains_rstrip needle s :
  solid needle = true ->
  contains needle s = true -> contains needle (rstrip_by isspace s) = true.
Proof.
  intros Hboth. pose proof Hboth as Hsolid. unfold solid in Hsolid.
  apply andb_true_iff in Hsolid. destruct Hsolid as [Hne Hsolid].
  induction s as [| c s IH]; intros H; [exact H |].
  cbn [contains] in H. apply orb_true_iff in H. destruct H as [H | H].
  - apply (prefix_rstrip needle Hsolid) in H.
    destruct (rstrip_by isspace (String c s)) as [| d r] eqn:Hr.
    + destruct needle; discriminate.
    + cbn [contains]. rewrite H. reflexivity.
  - specialize (IH H). cbn [rstrip_by].
    destruct (rstrip_by isspace s) as [| d r].
    + rewrite contains_empty in IH by exact Hne. discriminate.
    + cbn [contains] in *. rewrite IH. apply orb_true_r.
Qed.

Lemma contains_strip needle s :
  solid needle = true -> contains needle s = true -> contains needle (strip s) = true.
Proof.
  intros Hsolid H. unfold strip. apply contains_rstrip, contains_lstrip; assumption.
Qed.

Lemma map_columns_keeps cells :
  forall col_idx column_indices k,
    In k (map fst column_indices) ->
    In k (map fst (ExcelImporter.map_columns col_idx cells column_indices)).
Proof.
  induction cells as [| cell rest IH]; intros col_idx column_indices k Hin;
    cbn [ExcelImporter.map_columns]; [exact Hin |].
  apply IH. destruct (truthy cell); [| exact Hin].
  destruct (ExcelImporter.match_column ExcelImporter.COLUMN_MAPPING (strip (str cell)));
    [| exact Hin].
  apply dict_set_keys. right. exact Hin.
Qed.

Lemma map_columns_component cells :
  forall col_idx column_indices cell,
    In cell cells -> truthy cell = true ->
    contains "Composant" (str cell) = true ->
    In "component" (map fst (ExcelImporter.map_columns col_idx cells column_indices)).
Proof.
  induction cells as [| c rest IH]; intros col_idx column_indices cell Hin Htruthy Hcell;
    [destruct Hin |].
  cbn [ExcelImporter.map_columns]. destruct Hin as [-> | Hin].
  - rewrite Htruthy. apply map_columns_keeps.
    assert (Hm : ExcelImporter.match_column ExcelImporter.COLUMN_MAPPING (strip (str cell))
                 = Some "component").
    { unfold ExcelImporter.COLUMN_MAPPING. cbn [ExcelImporter.match_column].
      rewrite (contains_strip "Composant" _ eq_refl Hcell). reflexivity. }
    rewrite Hm. apply dict_set_keys. left. reflexivity.
  - exact (IH _ _ cell Hin Htruthy Hcell).
Qed.

(** The row that passes the header test always gives the column of the
    component: the word that the test looks for in the joined row stands
    in one cell, where the column search finds it.  So a header that is
    found never leaves the columns empty. *)
Lemma find_header_component rows :
  forall row_idx header_row column_indices,
    ExcelImporter.find_header row_idx rows = Some (header_row, column_indices) ->
    In "component" (map fst column_indices).
Proof.
  induction rows as [| row rest IH]; intros row_idx header_row column_indices;
    cbn [ExcelImporter.find_header]; [discriminate |].
  destruct row as [| c row]; [apply IH |].
  destruct (ExcelImporter.is_header_row (c :: row)) eqn:Hheader; [| apply IH].
  intros H.
  assert (Hc : column_indices = ExcelImporter.map_columns 0 (c :: row) []) by congruence.
  rewrite Hc. clear H Hc.
  unfold ExcelImporter.is_header_row in Hheader. cbv zeta in Hheader.
  apply andb_true_iff in Hheader. destruct Hheader as [Hcomp _].
  apply (contains_join "Composant" _ eq_refl) in Hcomp.
  destruct Hcomp as (part & Hin & Hpart).
  apply in_map_iff in Hin. destruct Hin as (cell & <- & Hcell).
  apply filter_In in Hcell. destruct Hcell as [Hcell Htruthy].
  exact (map_columns_component _ _ _ cell Hcell Htruthy Hpart).
Qed.

(** When some row of the sheet passes the header test, the header is
    found with the column of the component among its columns, and
    [_extract_failures] reads the rows below it: the branch that warns of
    missing headers is not taken. *)
Theorem header_row_gives_columns :
  forall (ws : worksheet) self,
    (exists row, In row ws /\ ExcelImporter.is_header_row row = true) ->
    exists header_row column_indices,
      ExcelImporter.find_header 1 ws = Some (header_row, column_indices)
      /\ In "component" (map fst column_indices)
      /\ ExcelImporter._extract_failures ws self
         = ExcelImporter.extract_rows column_indices (header_row + 1)
             (skipn header_row ws) [] self.
Proof.
  intros ws self (row & Hin & Hrow).
  assert (Hfind : forall row_idx, ExcelImporter.find_header row_idx ws <> None).
  { induction ws as [| r rest IH]; intros row_idx; [destruct Hin |].
    cbn [ExcelImporter.find_header].
    destruct Hin as [-> | Hin].
    - destruct row as [| c row]; [discriminate |]. rewrite Hrow. discriminate.
    - destruct r as [| c r]; [apply IH, Hin |].
      destruct (ExcelImporter.is_header_row (c :: r)); [discriminate | apply IH, Hin]. }
  unfold ExcelImporter._extract_failures.
  destruct (ExcelImporter.find_header 1 ws) as [[header_row column_indices] |] eqn:Hh;
    [| exfalso; exact (Hfind 1%nat Hh)].
  pose proof (find_header_component _ _ _ _ Hh) as Hcomp.
  exists header_row, column_indices. split; [reflexivity |]. split; [exact Hcomp |].
  destruct column_indices; [destruct Hcomp | reflexivity].
Qed.

Lemma header_row_gives_columns_witness :
  exists header_row column_indices,
    ExcelImporter.find_header 1 sample_sheet = Some (header_row, column_indices)
    /\ In "component" (map fst column_indices)
    /\ ExcelImporter._extract_failures sample_sheet ExcelImporter.init
       = ExcelImporter.extract_rows column_indices (header_row + 1)
           (skipn header_row sample_sheet) [] ExcelImporter.init.
Proof.
  apply (header_row_gives_columns sample_sheet ExcelImporter.init).
  exists sample_header. split; [| vm_compute; reflexivity].
  right. right. right. left. reflexivity.
Defined.

Lemma find_header_app rows :
  forall row_idx below header,
    ExcelImporter.find_header row_idx rows = Some header ->
    ExcelImporter.find_header row_idx (rows ++ below)%list = Some header.
Proof.
  induction rows as [| row rest IH]; intros row_idx below header;
    cbn [ExcelImporter.find_header app]; [discriminate |].
  destruct row as [| c row]; [apply IH |].
  destruct (ExcelImporter.is_header_row (c :: row)); [auto | apply IH].
Qed.

Lemma find_header_bound rows :
  forall row_idx header_row column_indices,
    ExcelImporter.find_header row_idx rows = Some (header_row, column_indices) ->
    (row_idx <= header_row < row_idx + List.length rows)%nat.
Proof.
  induction rows as [| row rest IH]; intros row_idx header_row column_indices;
    cbn [ExcelImporter.find_header List.length]; [discriminate |].
  destruct row as [| c row].
  - intros H. apply IH in H. lia.
  - destruct (ExcelImporter.is_header_row (c :: row)).
    + intros H. inversion H. lia.
    + intros H. apply IH in H. lia.
Qed.

Lemma extract_rows_stops column_indices row :
  existsb truthy row = true ->
  ExcelImporter.is_summary_row row = true ->
  forall rows row_idx below below' failures self,
    ExcelImporter.extract_rows column_indices row_idx (rows ++ row :: below)%list failures self
    = ExcelImporter.extract_rows column_indices row_idx (rows ++ row :: below')%list failures self.
Proof.
  intros Hvalue Hsummary.
  induction rows as [| r rest IH]; intros row_idx below below' failures self;
    cbn [app ExcelImporter.extract_rows].
  - rewrite Hvalue, Hsummary. reflexivity.
  - destruct (negb (existsb truthy r)); [apply IH |].
    destruct (ExcelImporter.is_summary_row r); [reflexivity |].
    unfold ExcelImporter.mbind.
    destruct (ExcelImporter.fill_fields column_indices r row_idx _ self)
      as [[failure_data self1] | e]; [| reflexivity].
    destruct (get_truthy "component" failure_data && get_truthy "failure_mode" failure_data);
      [apply IH |].
    destruct (ExcelImporter.warn (IncompleteRow row_idx) self1) as [[u self2] | e];
      [apply IH | reflexivity].
Qed.

(** Nothing below a summary line is imported.  When the header stands
    above a row that holds a value and whose first cell names a summary
    ("résumé", "total", ..), the failures, the warnings and the errors of
    the extraction are the same whatever rows follow that line. *)
Theorem rows_below_summary_ignored :
  forall (top : worksheet) (row : list value) (below below' : worksheet) self,
    ExcelImporter.find_header 1 top <> None ->
    existsb truthy row = true ->
    ExcelImporter.is_summary_row row = true ->
    ExcelImporter._extract_failures (top ++ row :: below)%list self
    = ExcelImporter._extract_failures (top ++ row :: below')%list self.
Proof.
  intros top row below below' self Hheader Hvalue Hsummary.
  destruct (ExcelImporter.find_header 1 top) as [[header_row column_indices] |] eqn:Hh;
    [| congruence].
  unfold ExcelImporter._extract_failures.
  rewrite !(find_header_app _ _ _ _ Hh).
  destruct column_indices as [| c column_indices]; [reflexivity |].
  pose proof (find_header_bound _ _ _ _ Hh) as Hbound.
  rewrite !skipn_app.
  replace (header_row - List.length top)%nat with 0%nat by lia. cbn [skipn].
  apply extract_rows_stops; assumption.
Qed.

Lemma rows_below_summary_ignored_witness :
  ExcelImporter._extract_failures (sample_top ++ sample_summary_row :: [])%list ExcelImporter.init
  = ExcelImporter._extract_failures
      (sample_top ++ sample_summary_row :: [sample_late_row])%list ExcelImporter.init.
Proof.
  apply (rows_below_summary_ignored sample_top sample_summary_row [] [sample_late_row]
           ExcelImporter.init).
  - vm_compute. discriminate.
  - reflexivity.
  - reflexivity.
Defined.

(** ** Creating the project *)

(** [create_project] writes nothing for data that [validate_data]
    refuses: it raises the [ValidationError] that lists the errors of the
    validation (one at least), with the database and the count of
    imported failures as they were, whatever the database would have
    done. *)
Theorem create_project_refuses_invalid_data :
  forall (O : Creation.orm) now today (data : ExcelImporter.data) (user : string) self
         (db : Creation.database O),
    data_valid data = false ->
    exists errors,
      errors <> []
      /\ Creation.create_project O now today data user self db
         = (Raise (Creation.DataInvalid errors),
            ExcelImporter.mk errors (ExcelImporter.warnings self)
                             (ExcelImporter.imported_count self),
            db).
Proof.
  intros O now today data user self db Hinvalid.
  destruct (validate_data_outcome data self) as (errors & Hrun & Hiff).
  exists errors. split.
  - intros Hnil. apply Hiff in Hnil. congruence.
  - unfold Creation.create_project. rewrite Hrun, Hinvalid. reflexivity.
Qed.

Lemma create_project_refuses_invalid_data_witness :
  data_valid sample_unnamed_data = false
  /\ exists errors,
       errors <> []
       /\ Creation.create_project (sample_orm 100) sample_now sample_today
            sample_unnamed_data "alice" ExcelImporter.init ([], [])
          = (Raise (Creation.DataInvalid errors), ExcelImporter.mk errors [] 0, ([], [])).
Proof.
  split; [reflexivity |].
  exact (create_project_refuses_invalid_data (sample_orm 100) sample_now sample_today
           sample_unnamed_data "alice" ExcelImporter.init ([], []) eq_refl).
Defined.

(** The loop over the failures counts each row that the database takes,
    and stops at the first one it refuses. *)
Lemma create_failures_taken (O : Creation.orm) (p : Creation.project O) failures :
  forall self (db : Creation.database O) r self' db',
    Creation.create_failures O p failures self db = (r, self', db') ->
    ExcelImporter.errors self' = ExcelImporter.errors self
    /\ ExcelImporter.warnings self' = ExcelImporter.warnings self
    /\ ExcelImporter.imported_count self'
       = ExcelImporter.imported_count self + Z.of_nat (rows_taken O p failures db)
    /\ match r with
       | Ok _ => rows_taken O p failures db = List.length failures
       | Raise _ => (rows_taken O p failures db < List.length failures)%nat
       end.
Proof.
  induction failures as [| failure_data rest IH]; intros self db r self' db';
    cbn [Creation.create_failures rows_taken List.length].
  - intros H. inversion H. subst. repeat split; lia.
  - destruct (Creation.create_failure_row O p (Creation.failure_row failure_data) db)
      as [db1 | e].
    + intros H. apply IH in H.
      cbn [Creation.count_one ExcelImporter.errors ExcelImporter.warnings
           ExcelImporter.imported_count] in H.
      destruct H as (He & Hw & Hc & Hr).
      split; [exact He |]. split; [exact Hw |]. split; [lia |].
      destruct r; lia.
    + intros H. inversion H. subst. repeat split; lia.
Qed.

(** What [create_project] leaves behind for data that [validate_data]
    accepts.  It never touches the warnings.  The count of imported
    failures grows by the number of failure rows written, whether the
    call returns or raises: when it returns these are all the failures;
    when it raises they are fewer, the database is as it was before the
    call, and the count is not put back. *)
Theorem create_project_counts :
  forall (O : Creation.orm) now today (data : ExcelImporter.data) (user : string) self
         (db : Creation.database O) r self' db',
    data_valid data = true ->
    Creation.create_project O now today data user self db = (r, self', db') ->
    let written := rows_written O now today data user db in
    ExcelImporter.warnings self' = ExcelImporter.warnings self
    /\ ExcelImporter.imported_count self'
       = ExcelImporter.imported_count self + Z.of_nat written
    /\ match r with
       | Ok _ => written = List.length (ExcelImporter.failures data)
       | Raise _ => db' = db /\ (written < List.length (ExcelImporter.failures data))%nat
       end.
Proof.
  intros O now today data user self db r self' db' Hvalid Hrun.
  assert (Hsome : (0 < List.length (ExcelImporter.failures data))%nat).
  { unfold data_valid in Hvalid. rewrite !andb_true_iff in Hvalid.
    destruct Hvalid as [[_ Hsome] _].
    destruct (ExcelImporter.failures data); [discriminate | cbn; lia]. }
  destruct (validate_data_outcome data self) as (errors & Hval & _).
  unfold Creation.create_project in Hrun. rewrite Hval, Hvalid in Hrun. cbn [negb] in Hrun.
  unfold rows_written. cbv zeta.
  destruct (Creation.create_project_row O _ db) as [[p db1] | e].
  - destruct (Creation.create_failures O p (ExcelImporter.failures data)
                (ExcelImporter.mk errors (ExcelImporter.warnings self)
                                  (ExcelImporter.imported_count self)) db1)
      as [[r1 self1] db2] eqn:Hloop.
    apply create_failures_taken in Hloop.
    cbn [ExcelImporter.errors ExcelImporter.warnings ExcelImporter.imported_count] in Hloop.
    destruct Hloop as (_ & Hw & Hc & Hr).
    destruct r1 as [u | e]; inversion Hrun; subst; auto.
  - inversion Hrun. subst.
    cbn [ExcelImporter.warnings ExcelImporter.imported_count].
    repeat split; lia.
Qed.

(** A database that refuses the second failure row: the call raises, the
    database is empty as before, and the count says one failure. *)
Lemma create_project_counts_witness :
  data_valid sample_data = true
  /\ List.length (ExcelImporter.failures sample_data) = 2%nat
  /\ rows_written (sample_orm 1) sample_now sample_today sample_data "alice" ([], []) = 1%nat
  /\ Creation.create_project (sample_orm 1) sample_now sample_today sample_data "alice"
       ExcelImporter.init ([], [])
     = (Raise (Creation.CreationFailed "database is full"), ExcelImporter.mk [] [] 1, ([], []))
  /\ ExcelImporter.imported_count (ExcelImporter.mk [] [] 1)
     = ExcelImporter.imported_count ExcelImporter.init + Z.of_nat 1.
Proof.
  split; [reflexivity |].
  split; [reflexivity |].
  split; [reflexivity |].
  split; [vm_compute; reflexivity |].
  exact (proj1 (proj2 (create_project_counts (sample_orm 1) sample_now sample_today sample_data
                         "alice" ExcelImporter.init ([], []) _ _ _ eq_refl eq_refl))).
Defined.

(** The scores that reach the database are those of the file.  For data
    that the parse returns and that [validate_data] accepts, every row
    given to [FailureMode.objects.create] holds the three scores that the
    parse read, each an integer from 1 to 10: the default of 5 in
    [create_project] is never used. *)
Theorem created_rows_keep_parsed_scores :
  forall today now (wb : workbook) self data self',
    ExcelImporter.parse_excel today now wb self = Ok (data, self') ->
    data_valid data = true ->
    Forall row_from_file (ExcelImporter.failures data).
Proof.
  intros today now wb self data self' Hrun Hvalid.
  unfold ExcelImporter.parse_excel in Hrun.
  destruct (ExcelImporter.select_sheet wb) as [ws |]; [| discriminate].
  apply mbind_ok in Hrun. destruct Hrun as (metadata & self1 & _ & Hrun).
  apply mbind_ok in Hrun. destruct Hrun as (failures & self2 & Hext & Hrun).
  inversion Hrun. subst. clear Hrun.
  unfold data_valid in Hvalid. cbn [ExcelImporter.failures ExcelImporter.metadata] in *.
  apply andb_true_iff in Hvalid. destruct Hvalid as [_ Hchecks].
  pose proof (extract_failures_scores_valid _ _ _ _ Hext) as Hscores.
  rewrite forallb_forall in Hchecks. rewrite Forall_forall in *.
  intros failure Hin. specialize (Hchecks failure Hin). specialize (Hscores failure Hin).
  unfold failure_checks in Hchecks. rewrite !andb_true_iff in Hchecks.
  destruct Hchecks as ((((_ & _) & Hg) & Ho) & Hd).
  unfold score_checks in Hg, Ho, Hd.
  unfold row_from_file, Creation.failure_row, Creation.get.
  cbn [Creation.gravity Creation.occurrence Creation.detection].
  destruct (dict_get "gravity" failure) as [vg |] eqn:Eg; [| discriminate].
  destruct (dict_get "occurrence" failure) as [vo |] eqn:Eo; [| discriminate].
  destruct (dict_get "detection" failure) as [vd |] eqn:Ed; [| discriminate].
  destruct (Hscores "gravity" vg eq_refl Eg) as (g & -> & Rg).
  destruct (Hscores "occurrence" vo eq_refl Eo) as (o & -> & Ro).
  destruct (Hscores "detection" vd eq_refl Ed) as (d & -> & Rd).
  exists g, o, d. repeat split; try reflexivity; lia.
Qed.

Lemma created_rows_keep_parsed_scores_witness :
  Forall row_from_file (ExcelImporter.failures sample_data).
Proof.
  apply (created_rows_keep_parsed_scores sample_today sample_now sample_workbook
           ExcelImporter.init sample_data
           (ExcelImporter.mk
              [ScoreUnreadable 7 "occurrence" "abc"]
              [IncompleteRow 6; ScoreClamped 7 "gravity" 15 10] 0)).
  - vm_compute. reflexivity.
  - vm_compute. reflexivity.
Defined.

(** ** The import command *)

(** The file object that [open] gives has no [size]: the validation of
    the validators raises for it, on its name or on the missing
    attribute. *)
Lemma opened_file_refused from_buffer filepath bytes :
  exists e,
    MoreValidators.validate_excel_file from_buffer (Command.opened filepath bytes) = Raise e.
Proof.
  unfold MoreValidators.validate_excel_file, Command.opened.
  cbn [MoreValidators.upload_name MoreValidators.upload_size].
  destruct (negb (MoreValidators.endswith ".xlsx" (Command.full filepath)
                  || MoreValidators.endswith ".xls" (Command.full filepath)));
    eexists; reflexivity.
Qed.

Lemma attempt_refused (E : Command.environment) now today user opts filepath
      (db : Creation.database (Command.orm E)) :
  Command.skip_validation opts = false ->
  exists e, Command.attempt E now today user opts filepath db = (Raise e, db).
Proof.
  intros Hskip. unfold Command.attempt, Command.validate. rewrite Hskip. cbn [negb].
  destruct (Command.open_file E (Command.full filepath)) as [bytes | e].
  - destruct (opened_file_refused (Command.from_buffer E) filepath bytes) as [e He].
    rewrite He. eexists. reflexivity.
  - eexists. reflexivity.
Qed.

Lemma process_file_refused (E : Command.environment) now today user opts filepath st
      (db : Creation.database (Command.orm E)) :
  Command.skip_validation opts = false ->
  exists e,
    Command._process_file E now today user opts filepath st db
    = (if Command.batch opts then Ok tt
       else Raise (Command.ImportFailed (Command.base filepath) e),
       failed_file st filepath e, db).
Proof.
  intros Hskip.
  destruct (attempt_refused E now today user opts filepath db Hskip) as [e He].
  exists e. unfold Command._process_file. rewrite He. cbv zeta.
  destruct (Command.batch opts); reflexivity.
Qed.

(** With the validation of files on, which is the default, the command
    imports nothing: every file it processes fails, because the file
    object it validates has no [size] attribute; no project is created,
    the database is left as it was, and when there is a file to process
    the count of failed files grows. *)
Theorem validation_blocks_every_import :
  forall (E : Command.environment) now today (user : string) (opts : Command.options)
         (files : list Command.path) (st : Command.stats)
         (db : Creation.database (Command.orm E)),
    Command.skip_validation opts = false ->
    let '(r, st', db') := Command.process_files E now today user opts files st db in
    db' = db
    /\ Command.files_success st' = Command.files_success st
    /\ Command.projects_created st' = Command.projects_created st
    /\ Command.failures_imported st' = Command.failures_imported st
    /\ Command.files_failed st <= Command.files_failed st'
    /\ (files <> [] -> Command.files_failed st < Command.files_failed st').
Proof.
  intros E now today user opts files st db Hskip. revert st.
  induction files as [| filepath rest IH]; intros st; cbn [Command.process_files].
  - repeat split; try lia. congruence.
  - destruct (process_file_refused E now today user opts filepath st db Hskip) as [e He].
    rewrite He.
    assert (Hfailed : Command.files_failed (failed_file st filepath e)
                      = Command.files_failed st + 1) by reflexivity.
    destruct (Command.batch opts); cbn [negb].
    + destruct (Command.max_errors opts
                <=? Z.of_nat (List.length (Command.errors (failed_file st filepath e)))).
      * repeat split; try reflexivity; rewrite ?Hfailed; lia.
      * specialize (IH (failed_file st filepath e)).
        destruct (Command.process_files E now today user opts rest _ db) as [[r st'] db'].
        destruct IH as (Hdb & Hs & Hp & Hf & Hle & _).
        cbn [failed_file Command.files_success Command.projects_created
             Command.failures_imported Command.files_failed] in *.
        repeat split; try assumption; lia.
    + repeat split; try reflexivity; rewrite ?Hfailed; lia.
Qed.

Lemma validation_blocks_every_import_witness :
  let '(r, st', db') :=
    Command.process_files sample_environment sample_now sample_today "alice"
      (sample_options false true) [sample_path] Command.no_stats ([], []) in
  db' = ([], [])
  /\ Command.files_success st' = 0
  /\ Command.projects_created st' = 0
  /\ Command.failures_imported st' = 0
  /\ 0 <= Command.files_failed st'
  /\ ([sample_path] <> [] -> 0 < Command.files_failed st').
Proof.
  exact (validation_blocks_every_import sample_environment sample_now sample_today "alice"
           (sample_options false true) [sample_path] Command.no_stats ([], []) eq_refl).
Defined.

Lemma create_project_raises_db (O : Creation.orm) now today data user self
      (db : Creation.database O) e self' db' :
  Creation.create_project O now today data user self db = (Raise e, self', db') -> db' = db.
Proof.
  unfold Creation.create_project.
  destruct (ExcelImporter.validate_data data self) as [[valid self1] | x];
    [| intros H; inversion H; reflexivity].
  destruct (negb valid); [intros H; inversion H; reflexivity |].
  destruct (Creation.create_project_row O _ db) as [[p db1] | x];
    [| intros H; inversion H; reflexivity].
  destruct (Creation.create_failures O p _ self1 db1) as [[[u | x] self2] db2];
    intros H; inversion H; reflexivity.
Qed.

Lemma attempt_database (E : Command.environment) now today user opts filepath
      (db : Creation.database (Command.orm E)) :
  match Command.attempt E now today user opts filepath db with
  | (Ok Command.DryRun, db') => db' = db
  | (Ok (Command.Created _ _), _) => Command.dry_run opts = false
  | (Raise _, db') => db' = db
  end.
Proof.
  unfold Command.attempt.
  destruct (Command.validate E opts filepath); [| reflexivity].
  destruct (Command.open_file E (Command.full filepath)) as [bytes | e]; [| reflexivity].
  destruct (Command.load_workbook E bytes) as [wb | e]; [| reflexivity].
  destruct (ExcelImporter.parse_excel today now wb ExcelImporter.init)
    as [[data importer] | e]; [| reflexivity].
  destruct (Command.dry_run opts); [reflexivity |].
  destruct (Creation.create_project (Command.orm E) now today
              (Command.force_client opts data) user importer db)
    as [[[p | e] importer'] db'] eqn:Hcreate; [reflexivity |].
  exact (create_project_raises_db _ _ _ _ _ _ _ _ _ _ Hcreate).
Qed.

(** What one file does to the statistics. *)
Lemma process_file_facts (E : Command.environment) now today user opts filepath st
      (db : Creation.database (Command.orm E)) :
  let '(r, st', db') := Command._process_file E now today user opts filepath st db in
  Command.files_processed st' = Command.files_processed st + 1
  /\ (consistent st -> consistent st')
  /\ (Command.batch opts = true -> r = Ok tt)
  /\ (forall e, r = Raise e -> Command.batch opts = false)
  /\ (Command.dry_run opts = true ->
      db' = db /\ Command.projects_created st' = Command.projects_created st)
  /\ (Command.files_failed st' <> Command.files_failed st -> db' = db).
Proof.
  unfold Command._process_file. cbv zeta.
  pose proof (attempt_database E now today user opts filepath db) as Hdb.
  destruct (Command.attempt E now today user opts filepath db) as [[[| n ws] | e] db'].
  - cbn [Command.files_processed Command.files_success Command.files_failed
         Command.projects_created Command.errors].
    unfold consistent.
    cbn [Command.files_processed Command.files_success Command.files_failed Command.errors].
    repeat split; try reflexivity; try discriminate; try tauto; try lia; intuition lia.
  - cbn [Command.files_processed Command.files_success Command.files_failed
         Command.projects_created Command.errors].
    unfold consistent.
    cbn [Command.files_processed Command.files_success Command.files_failed Command.errors].
    repeat split; try reflexivity; try discriminate; try congruence; try lia; intuition lia.
  - destruct (Command.batch opts) eqn:Hbatch; cbn [negb];
      cbn [Command.files_processed Command.files_success Command.files_failed
           Command.projects_created Command.errors];
      unfold consistent;
      cbn [Command.files_processed Command.files_success Command.files_failed
           Command.errors];
      rewrite ?forallb_app; cbn [forallb is_file_error];
      repeat split; try reflexivity; try discriminate; try assumption; try lia;
      try (intros _; exact Hdb);
      match goal with
      | H : _ /\ _ /\ _ |- _ => destruct H as (H1 & H2 & H3)
      end;
      try (rewrite H3; reflexivity);
      rewrite List.length_app; cbn [List.length]; lia.
Qed.

(** The statistics of the command add up, in every mode: after the loop
    over the files, every file processed is counted once as a success or
    as a failure; there is one error entry per failed file, and none of
    them was appended by the loop itself, whose [except] branch is never
    reached in batch mode; the exit code is 0 exactly when no error was
    recorded.  In batch mode the loop does not raise, and a dry run
    leaves the database as it was. *)
Theorem process_files_consistent :
  forall (E : Command.environment) now today (user : string) (opts : Command.options)
         (files : list Command.path) (st : Command.stats)
         (db : Creation.database (Command.orm E)),
    consistent st ->
    let '(r, st', db') := Command.process_files E now today user opts files st db in
    consistent st'
    /\ (Command.exit_code st' = 0 <-> Command.errors st' = [])
    /\ Command.files_processed st'
       <= Command.files_processed st + Z.of_nat (List.length files)
    /\ (Command.batch opts = true -> r = Ok tt)
    /\ (Command.dry_run opts = true -> db' = db).
Proof.
  intros E now today user opts files. induction files as [| filepath rest IH];
    intros st db Hst; cbn [Command.process_files List.length].
  - split; [exact Hst |]. split.
    + destruct Hst as (_ & Herr & _). unfold Command.exit_code.
      destruct (Z.ltb_spec 0 (Command.files_failed st)).
      * split; [discriminate |]. intros Hnil. rewrite Hnil in Herr. cbn in Herr. lia.
      * split; [| reflexivity]. intros _.
        destruct (Command.errors st); [reflexivity | cbn in Herr; lia].
    + split; [lia |]. split; [reflexivity | reflexivity].
  - pose proof (process_file_facts E now today user opts filepath st db) as Hfile.
    destruct (Command._process_file E now today user opts filepath st db) as [[r st1] db1].
    destruct Hfile as (Hproc & Hcons & Hbatch & Hraise & Hdry & _).
    specialize (Hcons Hst).
    assert (Hexit : Command.exit_code st1 = 0 <-> Command.errors st1 = []).
    { destruct Hcons as (_ & Herr & _). unfold Command.exit_code.
      destruct (Z.ltb_spec 0 (Command.files_failed st1)).
      - split; [discriminate |]. intros Hnil. rewrite Hnil in Herr. cbn in Herr. lia.
      - split; [| reflexivity]. intros _.
        destruct (Command.errors st1); [reflexivity | cbn in Herr; lia]. }
    destruct r as [u | e].
    + destruct (Command.max_errors opts <=? Z.of_nat (List.length (Command.errors st1))).
      * split; [exact Hcons |]. split; [exact Hexit |]. split; [lia |].
        split; [intros _; destruct u; reflexivity |].
        intros Hd. exact (proj1 (Hdry Hd)).
      * specialize (IH st1 db1 Hcons).
        destruct (Command.process_files E now today user opts rest st1 db1)
          as [[r' st'] db'].
        destruct IH as (Hc & He & Hp & Hb & Hd).
        split; [exact Hc |]. split; [exact He |]. split; [lia |].
        split; [exact Hb |].
        intros Hdr. rewrite (Hd Hdr). exact (proj1 (Hdry Hdr)).
    + pose proof (Hraise e eq_refl) as Hnb. rewrite Hnb. cbn [negb].
      split; [exact Hcons |]. split; [exact Hexit |]. split; [lia |].
      split; [intros Hb; congruence |].
      intros Hd. exact (proj1 (Hdry Hd)).
Qed.

Lemma process_files_consistent_witness :
  consistent Command.no_stats
  /\ let '(r, st', db') :=
       Command.process_files sample_environment sample_now sample_today "alice"
         (sample_options true true) [sample_path; sample_path] Command.no_stats ([], []) in
     consistent st'
     /\ (Command.exit_code st' = 0 <-> Command.errors st' = [])
     /\ Command.files_processed st' <= 0 + Z.of_nat 2
     /\ (true = true -> r = Ok tt)
     /\ (false = true -> db' = ([], [])).
Proof.
  assert (H : consistent Command.no_stats) by (repeat split; reflexivity).
  split; [exact H |].
  exact (process_files_consistent sample_environment sample_now sample_today "alice"
           (sample_options true true) [sample_path; sample_path] Command.no_stats ([], []) H).
Defined.

(** ** The rows of the action plan *)












(** ** The policy of the score parser *)

(** What [_parse_score] does with a cell that holds no text, or plain
    text.  What decides is the integer the cell reads as ([reading_of]:
    its text as a float, truncated).  An integer from 1 to 10 comes back
    with nothing appended; an integer below 1 or above 10 comes back as
    the nearer bound with exactly one warning appended; a cell that reads
    as no number comes back as 5 with exactly one error appended; a cell
    that reads as an infinite float makes the parser raise.  The range is
    tested after the truncation: 10.5 comes back as 10 with no warning. *)
Theorem parse_score_policy :
  forall (value : value) (field_name : string) (row_num : nat) (self : ExcelImporter.t),
    plain_value value = true ->
    match reading_of value with
    | Whole n =>
        (1 <= n <= 10
         /\ ExcelImporter._parse_score value field_name row_num self = Ok (n, self))
        \/ (n < 1
            /\ ExcelImporter._parse_score value field_name row_num self
               = Ok (1, with_warning self (ScoreClamped row_num field_name n 1)))
        \/ (10 < n
            /\ ExcelImporter._parse_score value field_name row_num self
               = Ok (10, with_warning self (ScoreClamped row_num field_name n 10)))
    | Unreadable =>
        ExcelImporter._parse_score value field_name row_num self
        = Ok (5, with_error self (ScoreUnreadable row_num field_name (str value)))
    | Infinite =>
        ExcelImporter._parse_score value field_name row_num self
        = Raise (Builtin OverflowError)
    end.
Proof.
  intros value field_name row_num self _.
  destruct (reading_of value) as [n | |] eqn:Hr.
  - rewrite (parse_score_whole _ _ _ _ _ Hr).
    destruct (Z.leb_spec 1 n) as [H1 | H1]; simpl.
    + destruct (Z.leb_spec n 10) as [H2 | H2].
      * left. split; [lia | reflexivity].
      * right. right. split; [lia |].
        replace (Z.min 10 (Z.max 1 n)) with 10 by lia. reflexivity.
    + right. left. split; [lia |].
      replace (Z.min 10 (Z.max 1 n)) with 1 by lia. reflexivity.
  - apply parse_score_unreadable, Hr.
  - unfold ExcelImporter._parse_score. rewrite reading_of_run, Hr. reflexivity.
Qed.

(** At the numeric cell 10.5, which reads as 10, at the text " 0.9 ",
    which reads as 0, and at the text "abc". *)
Lemma parse_score_policy_witness :
  plain_value (VFloat ten_and_a_half) = true
  /\ reading_of (VFloat ten_and_a_half) = Whole 10
  /\ ExcelImporter._parse_score (VFloat ten_and_a_half) "gravity" 4 ExcelImporter.init
     = Ok (10, ExcelImporter.init)
  /\ plain_value (VStr " 0.9 ") = true
  /\ reading_of (VStr " 0.9 ") = Whole 0
  /\ ExcelImporter._parse_score (VStr " 0.9 ") "gravity" 4 ExcelImporter.init
     = Ok (1, with_warning ExcelImporter.init (ScoreClamped 4 "gravity" 0 1))
  /\ plain_value (VStr "abc") = true
  /\ ExcelImporter._parse_score (VStr "abc") "gravity" 4 ExcelImporter.init
     = Ok (5, with_error ExcelImporter.init (ScoreUnreadable 4 "gravity" "abc")).
Proof.
  split; [reflexivity |].
  split; [vm_compute; reflexivity |].
  split.
  { pose proof (parse_score_policy (VFloat ten_and_a_half) "gravity" 4 ExcelImporter.init
                  eq_refl) as H.
    replace (reading_of (VFloat ten_and_a_half)) with (Whole 10) in H
      by (vm_compute; reflexivity).
    destruct H as [[_ H] | [[Hn _] | [Hn _]]]; [exact H | lia | lia]. }
  split; [reflexivity |].
  split; [vm_compute; reflexivity |].
  split.
  { pose proof (parse_score_policy (VStr " 0.9 ") "gravity" 4 ExcelImporter.init eq_refl) as H.
    replace (reading_of (VStr " 0.9 ")) with (Whole 0) in H by (vm_compute; reflexivity).
    destruct H as [[Hn _] | [[_ H] | [Hn _]]]; [lia | exact H | lia]. }
  split; [reflexivity |].
  pose proof (parse_score_policy (VStr "abc") "gravity" 4 ExcelImporter.init eq_refl) as H.
  replace (reading_of (VStr "abc")) with Unreadable in H by (vm_compute; reflexivity).
  exact H.
Defined.
